(** * go-llmbridge, package [openai]: the request/response adapter

    A shallow embedding of the OpenAI client of go-llmbridge
    (chat completion, image generation, text-to-speech, speech-to-text)
    and the properties of its validation, request building, transport
    and response decoding.

    Conventions of the embedding:
    - a Go [string] or [[]byte] is a Rocq [string] (a sequence of bytes);
    - a [float64] is a primitive binary64 [float];
    - a pointer [*T] that is only read is an [option T] ([None] is [nil]);
      the one struct the code writes through a pointer
      ([OAReqBodyMessageCompletion]) lives in a heap of the world;
    - a nilable slice or map is an [option] of a list ([None] is [nil]);
    - a Go function returning a result pointer and an [error] returns a
      pair of options;
    - a run-time panic is an outcome of its own;
    - a JSON text is represented by its document tree, object members in
      the order [encoding/json] writes them; a string of the tree is the
      byte sequence (UTF-8) that the JSON string denotes. *)

From Stdlib Require Import ZArith String Ascii List Bool PrimFloat.
From stdpp Require Import base option list gmap strings.

Set Warnings "-register-all".
Local Open Scope string_scope.

(** ** Go values and their JSON encoding *)

(** The documents [json.Marshal] produces. *)
Inductive json : Type :=
| JNull
| JBool (b : bool)
| JInt (n : Z)
| JFloat (f : float)
| JString (s : string)
| JArray (items : list json)
| JObject (members : list (string * json)).

(** The dynamic values an [interface{}] of this package can hold.
    A [VStruct] lists the fields that [json.Marshal] emits, under their
    JSON names and in declaration order ([omitempty] is applied by the
    conversion of each struct type, below).  [VUnsupported] stands for the
    values [json.Marshal] rejects by type (channels, functions, complex
    numbers). *)
Inductive goval : Type :=
| VNil
| VBool (b : bool)
| VInt (n : Z)
| VFloat (f : float)
| VString (s : string)
| VPtr (p : option goval)
| VSlice (s : option (list goval))
| VMap (m : option (list (string * goval)))
| VStruct (fields : list (string * goval))
| VUnsupported.

(** [map[string]interface{}]: [None] is the nil map; the entries of a
    non-nil map carry distinct keys and no order. *)
Definition gomap : Type := option (list (string * goval)).

(** A nilable slice. *)
Definition slice (A : Type) : Type := option (list A).

Definition is_nil {A : Type} (p : option A) : bool :=
  match p with None => true | Some _ => false end.

(** [x == nil] for an [interface{}]. *)
Definition is_nil_iface (v : goval) : bool :=
  match v with VNil => true | _ => false end.

(** [len(m) == 0] for a map or a slice. *)
Definition len_zero {A : Type} (m : option (list A)) : bool :=
  match m with None | Some [] => true | Some (_ :: _) => false end.

(** [encoding/json] writes a string coerced to valid UTF-8: it reads the
    string rune by rune, as [utf8.DecodeRuneInString] does, and writes
    U+FFFD in place of each byte that does not start a well-formed
    sequence. *)
Definition byte_in (lo hi : N) (b : ascii) : bool :=
  (lo <=? N_of_ascii b)%N && (N_of_ascii b <=? hi)%N.

(** The second byte that the lead byte [a] of a three-byte sequence, and
    of a four-byte sequence, accepts (surrogates, overlong forms and code
    points above U+10FFFF are excluded here). *)
Definition accept3 (a b : ascii) : bool :=
  (byte_in 224 224 a && byte_in 160 191 b)
  || (byte_in 225 236 a && byte_in 128 191 b)
  || (byte_in 237 237 a && byte_in 128 159 b)
  || (byte_in 238 239 a && byte_in 128 191 b).

Definition accept4 (a b : ascii) : bool :=
  (byte_in 240 240 a && byte_in 144 191 b)
  || (byte_in 241 243 a && byte_in 128 191 b)
  || (byte_in 244 244 a && byte_in 128 143 b).

(** U+FFFD in UTF-8. *)
Definition RuneError : string :=
  String (ascii_of_N 239) (String (ascii_of_N 191) (String (ascii_of_N 189) "")).

Fixpoint coerce_utf8 (s : string) : string :=
  match s with
  | "" => ""
  | String a r =>
      if byte_in 0 127 a then String a (coerce_utf8 r)
      else
        match r with
        | String b r2 =>
            if byte_in 194 223 a && byte_in 128 191 b then
              String a (String b (coerce_utf8 r2))
            else
              match r2 with
              | String c r3 =>
                  if accept3 a b && byte_in 128 191 c then
                    String a (String b (String c (coerce_utf8 r3)))
                  else
                    match r3 with
                    | String d r4 =>
                        if accept4 a b && byte_in 128 191 c && byte_in 128 191 d
                        then String a (String b (String c (String d (coerce_utf8 r4))))
                        else RuneError ++ coerce_utf8 r
                    | "" => RuneError ++ coerce_utf8 r
                    end
              | "" => RuneError ++ coerce_utf8 r
              end
        | "" => RuneError ++ coerce_utf8 r
        end
  end.

(** [utf8.ValidString]. *)
Definition utf8_ValidString (s : string) : bool := String.eqb (coerce_utf8 s) s.

(** The keys of a map are written as strings are. *)
Definition coerce_keys (ms : list (string * json)) : list (string * json) :=
  map (fun kv => (coerce_utf8 (fst kv), snd kv)) ms.

(** [encoding/json] writes the keys of a map in sorted order. *)
Fixpoint insert_member (kv : string * json) (l : list (string * json))
  : list (string * json) :=
  match l with
  | [] => [kv]
  | kv' :: r =>
      if String.leb (fst kv) (fst kv') then kv :: l
      else kv' :: insert_member kv r
  end.

Definition sort_members (l : list (string * json)) : list (string * json) :=
  fold_right insert_member [] l.

(** A [float64] is encoded unless it is NaN or infinite
    ([json.UnsupportedValueError]). *)
Definition float_encodable (f : float) : bool :=
  negb (PrimFloat.is_nan f || PrimFloat.is_infinity f).

(** [json.Marshal]: [None] is a returned error. *)
Fixpoint json_Marshal (v : goval) : option json :=
  match v with
  | VNil => Some JNull
  | VBool b => Some (JBool b)
  | VInt n => Some (JInt n)
  | VFloat f => if float_encodable f then Some (JFloat f) else None
  | VString s => Some (JString (coerce_utf8 s))
  | VPtr None => Some JNull
  | VPtr (Some v') => json_Marshal v'
  | VSlice None => Some JNull
  | VSlice (Some l) =>
      option_map JArray
        ((fix items (l : list goval) : option (list json) :=
            match l with
            | [] => Some []
            | x :: r =>
                match json_Marshal x, items r with
                | Some j, Some js => Some (j :: js)
                | _, _ => None
                end
            end) l)
  | VMap None => Some JNull
  | VMap (Some es) =>
      option_map (fun ms => JObject (coerce_keys (sort_members ms)))
        ((fix members (l : list (string * goval)) : option (list (string * json)) :=
            match l with
            | [] => Some []
            | (k, x) :: r =>
                match json_Marshal x, members r with
                | Some j, Some js => Some ((k, j) :: js)
                | _, _ => None
                end
            end) es)
  | VStruct fs =>
      option_map JObject
        ((fix members (l : list (string * goval)) : option (list (string * json)) :=
            match l with
            | [] => Some []
            | (k, x) :: r =>
                match json_Marshal x, members r with
                | Some j, Some js => Some ((k, j) :: js)
                | _, _ => None
                end
            end) fs)
  | VUnsupported => None
  end.

(** The encoding of the entries of a map or the fields of a struct, as a
    function of its own. *)
Fixpoint marshal_members (l : list (string * goval)) : option (list (string * json)) :=
  match l with
  | [] => Some []
  | (k, x) :: r =>
      match json_Marshal x, marshal_members r with
      | Some j, Some js => Some ((k, j) :: js)
      | _, _ => None
      end
  end.

(** The member of a JSON object under a name. *)
Fixpoint assoc_lookup {A : Type} (k : string) (l : list (string * A)) : option A :=
  match l with
  | [] => None
  | (k', x) :: r => if String.eqb k k' then Some x else assoc_lookup k r
  end.

Definition json_field (k : string) (j : json) : option json :=
  match j with
  | JObject ms => assoc_lookup k ms
  | _ => None
  end.

(** A struct field tagged [omitempty] is left out when its value is the
    empty value of its type. *)
Definition omitempty (empty : bool) (name : string) (v : goval)
  : list (string * goval) :=
  if empty then [] else [(name, v)].

(** ** Errors

    The code builds every error with [errors.New]; the class is the
    taxonomy of the specification attached to each message. *)
Inductive ErrClass : Type :=
| MissingArgument
| InvalidArgument
| OutOfRange
| AuthError
| IOError
| TransportError
| DecodeError
| ProviderError.

Record error : Type := errors_New { err_class : ErrClass; err_msg : string }.

(** The pair of a result pointer and an [error] a Go operation returns. *)
Definition Ret (T : Type) : Type := (option T * option error)%type.

Definition ret_err {T : Type} (e : error) : Ret T := (None, Some e).
Definition ret_ok {T : Type} (x : T) : Ret T := (Some x, None).

(** Exactly one component of the pair is set. *)
Definition exactly_one {T : Type} (r : Ret T) : Prop :=
  (is_Some (fst r) /\ snd r = None) \/ (fst r = None /\ is_Some (snd r)).

(** The result of a library call that may fail with an error text. *)
Inductive res (A : Type) : Type :=
| Success (a : A)
| Failure (msg : string).
Arguments Success {A} a.
Arguments Failure {A} msg.

(** ** Data transfer objects (openai.dto.go) *)

(** Chat completions. *)
Record OAReqBodyMessageCompletion : Type := {
  Messages : goval;            (* interface{}, json "messages" *)
  Model : string;              (* json "model" *)
  Store : bool;                (* json "store,omitempty" *)
  Metadata : goval;            (* interface{}, json "metadata,omitempty" *)
  FrequencyPenalty : float;    (* json "frequency_penalty,omitempty" *)
  LogitBias : gomap;           (* json "logit_bias,omitempty" *)
  Logprobe : bool;             (* json "logprobe,omitempty" *)
  Modalities : slice string;   (* json "modalities,omitempty" *)
  ResponseFormat : gomap       (* json "response_format,omitempty" *)
}.

Record OAMessageReq : Type := {
  Role : string;               (* json "role" *)
  Content : goval              (* interface{}, json "content" *)
}.

Record OAContentVisionImageUrl : Type := { Url : string }.

Record OAContentVisionBaseReq : Type := {
  Type_ : string;                              (* json "type" *)
  Text : option string;                        (* json "text,omitempty" *)
  ImageUrl : option OAContentVisionImageUrl    (* json "image_url,omitempty" *)
}.

Record OAAudioDataResponse : Type := {
  audio_Id : string;
  audio_ExpiresAt : Z;
  audio_Data : string;
  audio_Transcript : string
}.

Record OAMessage : Type := {
  msg_Role : string;
  msg_Content : string;
  msg_Refusal : string;
  msg_Audio : OAAudioDataResponse
}.

Record OAChoice : Type := {
  Index : Z;
  Message : OAMessage;
  Logprobs : option string;
  FinishReason : string
}.

Record TokensDetail : Type := { ReasoningTokens : Z }.

Record OAUsage : Type := {
  PromptTokens : Z;
  CompletionTokens : Z;
  TotalTokens : Z;
  CompletionTokensDetail : TokensDetail
}.

Record OAChatCompletionResp : Type := {
  chat_ID : string;
  chat_Object : string;
  chat_Created : Z;
  chat_Model : string;
  chat_SystemFingerprint : string;
  Choices : slice OAChoice;
  Usage : OAUsage
}.

(** Image generation. *)
Record OAReqImageGeneratorDallE : Type := {
  img_Prompt : string;                  (* json "prompt" *)
  img_Model : string;                   (* json "model" *)
  img_N : option Z;                     (* json "n,omitempty" *)
  img_Quality : option string;          (* json "quality,omitempty" *)
  img_ResponseFormat : option string;   (* json "response_format,omitempty" *)
  img_Size : option string;             (* json "size,omitempty" *)
  img_Style : option string;            (* json "style,omitempty" *)
  img_User : option string              (* json "user,omitempty" *)
}.

Record OAImageGeneratorDallEData : Type := {
  data_Url : string;
  data_B64JSON : string
}.

Record OAImageGeneratorDallEResp : Type := {
  img_Created : Z;
  img_Data : slice OAImageGeneratorDallEData
}.

(** Text to speech. *)
Record OAReqTextToSpeech : Type := {
  tts_Model : string;            (* json "model" *)
  tts_Input : string;            (* json "input" *)
  tts_Voice : string;            (* json "voice" *)
  tts_ResponseFormat : string;   (* json "response_format" *)
  tts_Speed : option float       (* json "speed,omitempty" *)
}.

Record OATextToSpeechResp : Type := {
  FormatAudio : string;
  B64JSON : string
}.

(** A byte stream ([io.Reader]): the bytes it yields, and the error that
    ends it when it does not end with [io.EOF]. *)
Record Reader : Type := {
  rd_bytes : string;
  rd_err : option string
}.

(** [io.ReadAll]. *)
Definition io_ReadAll (r : Reader) : res string :=
  match rd_err r with
  | Some e => Failure e
  | None => Success (rd_bytes r)
  end.

(** [*multipart.FileHeader]: the name of the uploaded file and what its
    [Open] method returns. *)
Record FileHeader : Type := {
  fh_Filename : string;
  fh_Open : res Reader
}.

(** The dynamic type of the [File interface{}] field of a transcription
    request, as the type switch of [sttBaseReq] tells the cases apart. *)
Inductive FileInput : Type :=
| FileNil                        (* the nil interface *)
| FileOfHeader (h : FileHeader)  (* *multipart.FileHeader *)
| FileOfPath (p : string)        (* string *)
| FileOfReader (r : Reader)      (* io.Reader *)
| FileOfOther.                   (* any other dynamic type *)

(** Speech to text. *)
Record OATranscriptionReq : Type := {
  treq_Model : string;
  treq_Language : string;
  treq_Prompt : string;
  treq_ResponseFormat : string;
  treq_Temperature : float;
  treq_TimestampGranularities : slice string
}.

Record OATranscriptionDefaultReq : Type := {
  stt_File : FileInput;
  stt_Filename : string;
  stt_Prompt : string;
  stt_Language : string;
  stt_Temperature : float
}.

Record OASTTError : Type := {
  stterr_Message : string;
  stterr_Type : string;
  stterr_Param : string;
  stterr_Code : Z
}.

Record OATranscriptionDefaultResp : Type := {
  def_Text : string;
  def_Error : OASTTError
}.

Record wordTimestampResp : Type := {
  Word : string;
  word_Start : float;
  word_End : float
}.

Record OATranscriptionWordTimestampResp : Type := {
  wts_Task : string;
  wts_Language : string;
  wts_Duration : float;
  wts_Text : string;
  wts_Words : slice wordTimestampResp;
  wts_Error : OASTTError
}.

Record segmentResp : Type := {
  seg_Id : Z;
  seg_Seek : Z;
  seg_Start : float;
  seg_End : float;
  seg_Text : string;
  seg_Tokens : slice Z;
  seg_Temperature : float;
  seg_AvgLogprob : float;
  seg_CompressionRatio : float;
  seg_NoSpeechProb : float
}.

Record OATranscriptionSegmentResp : Type := {
  sts_Task : string;
  sts_Language : string;
  sts_Duration : float;
  sts_Text : string;
  sts_Segments : slice segmentResp;
  sts_Error : OASTTError
}.

Record OATranslationDefaultReq : Type := {
  trl_File : FileInput;
  trl_Filename : string;
  trl_Prompt : string;
  trl_Temperature : float
}.

(** *** The structs as [json.Marshal] sees them *)

Definition OAReqBodyMessageCompletion_val (r : OAReqBodyMessageCompletion) : goval :=
  VStruct
    ([("messages", Messages r); ("model", VString (Model r))]
     ++ omitempty (negb (Store r)) "store" (VBool (Store r))
     ++ omitempty (is_nil_iface (Metadata r)) "metadata" (Metadata r)
     ++ omitempty (PrimFloat.eqb (FrequencyPenalty r) 0) "frequency_penalty"
          (VFloat (FrequencyPenalty r))
     ++ omitempty (len_zero (LogitBias r)) "logit_bias" (VMap (LogitBias r))
     ++ omitempty (negb (Logprobe r)) "logprobe" (VBool (Logprobe r))
     ++ omitempty (len_zero (Modalities r)) "modalities"
          (VSlice (option_map (map VString) (Modalities r)))
     ++ omitempty (len_zero (ResponseFormat r)) "response_format"
          (VMap (ResponseFormat r))).

Definition OAMessageReq_val (m : OAMessageReq) : goval :=
  VStruct [("role", VString (Role m)); ("content", Content m)].

Definition OAContentVisionImageUrl_val (u : OAContentVisionImageUrl) : goval :=
  VStruct [("url", VString (Url u))].

Definition OAContentVisionBaseReq_val (b : OAContentVisionBaseReq) : goval :=
  VStruct
    ([("type", VString (Type_ b))]
     ++ omitempty (is_nil (Text b)) "text" (VPtr (option_map VString (Text b)))
     ++ omitempty (is_nil (ImageUrl b)) "image_url"
          (VPtr (option_map OAContentVisionImageUrl_val (ImageUrl b)))).

Definition opt_string_field (name : string) (p : option string) : list (string * goval) :=
  omitempty (is_nil p) name (VPtr (option_map VString p)).

Definition OAReqImageGeneratorDallE_val (r : OAReqImageGeneratorDallE) : goval :=
  VStruct
    ([("prompt", VString (img_Prompt r)); ("model", VString (img_Model r))]
     ++ omitempty (is_nil (img_N r)) "n" (VPtr (option_map VInt (img_N r)))
     ++ opt_string_field "quality" (img_Quality r)
     ++ opt_string_field "response_format" (img_ResponseFormat r)
     ++ opt_string_field "size" (img_Size r)
     ++ opt_string_field "style" (img_Style r)
     ++ opt_string_field "user" (img_User r)).

Definition OAReqTextToSpeech_val (r : OAReqTextToSpeech) : goval :=
  VStruct
    ([("model", VString (tts_Model r)); ("input", VString (tts_Input r));
      ("voice", VString (tts_Voice r));
      ("response_format", VString (tts_ResponseFormat r))]
     ++ omitempty (is_nil (tts_Speed r)) "speed"
          (VPtr (option_map VFloat (tts_Speed r)))).

(** ** The client and its configuration (openai.interfaces.go) *)

Definition OAUrlBase : string := "https://api.openai.com/v1".
Definition OAUrlTextCompletions : string := OAUrlBase ++ "/chat/completions".
Definition OAUrlImageGenerationsDallE : string := OAUrlBase ++ "/images/generations".
Definition OAUrlTextToSpeech : string := OAUrlBase ++ "/audio/speech".
Definition OAUrlSTTTranscription : string := OAUrlBase ++ "/audio/transcriptions".
Definition OAUrlSTTTranslation : string := OAUrlBase ++ "/audio/translations".
Definition OABaseModel : string := "gpt-4o-mini".

(** [http.Client]: its round tripper ([None] is the default transport) and
    its timeout in nanoseconds (0 is no timeout). *)
Record http_Client : Type := {
  Transport : option nat;
  Timeout : Z
}.

(** [&http.Client{}]. *)
Definition http_Client_zero : http_Client :=
  {| Transport := None; Timeout := 0 |}.

Definition time_Second : Z := 1000000000.

Record Config : Type := {
  httpClient : http_Client;
  openAIBaseUrl : string;
  openAIModel : string
}.

Definition DefaultConfig : Config :=
  {| httpClient := {| Transport := None; Timeout := 60 * time_Second |};
     openAIBaseUrl := OAUrlTextCompletions;
     openAIModel := OABaseModel |}.

Record openaiAPI : Type := {
  apiKey : string;
  openaiOrganization : string;
  openaiProject : string;
  config : Config
}.

Definition ClientOption : Type := Config -> Config.

Definition WithHTTPClient (client : http_Client) : ClientOption :=
  fun c => {| httpClient := client;
              openAIBaseUrl := openAIBaseUrl c;
              openAIModel := openAIModel c |}.

Definition WithBaseUrl (baseUrl : string) : ClientOption :=
  fun c => {| httpClient := httpClient c;
              openAIBaseUrl := baseUrl;
              openAIModel := openAIModel c |}.

Definition WithModel (model : string) : ClientOption :=
  fun c => {| httpClient := httpClient c;
              openAIBaseUrl := openAIBaseUrl c;
              openAIModel := model |}.

Definition New (key org project : string) (opts : list ClientOption) : Ret openaiAPI :=
  if String.eqb key "" then ret_err (errors_New AuthError "API Key is empty")
  else
    ret_ok {| apiKey := key;
              openaiOrganization := org;
              openaiProject := project;
              config := fold_left (fun cfg opt => opt cfg) opts DefaultConfig |}.

(** ** HTTP requests and responses *)

(** One part of a [multipart/form-data] body. *)
Record FormPart : Type := {
  part_field : string;
  part_filename : option string;
  part_content : string
}.

(** A request body: the JSON document sent, or the parts of a form. *)
Inductive Body : Type :=
| JSONBody (j : json)
| FormBody (parts : list FormPart).

Record http_Request : Type := {
  Method : string;
  URL : string;
  Header : list (string * string);
  ReqBody : Body
}.

Record http_Response : Type := {
  StatusCode : Z;
  Status : string;
  RespBody : Reader
}.

Definition http_StatusOK : Z := 200.

(** [req.Header.Set]. *)
Definition Header_Set (k v : string) (r : http_Request) : http_Request :=
  {| Method := Method r;
     URL := URL r;
     Header := (k, v) :: filter (fun kv => negb (String.eqb (fst kv) k)) (Header r);
     ReqBody := ReqBody r |}.

Definition Header_Get (k : string) (r : http_Request) : option string :=
  assoc_lookup k (Header r).

(** ** The environment of a call

    What lies outside the package: the network, the file system, and the
    library functions whose results the package only passes on. *)
Record Env : Type := {
  (** whether [url.Parse] accepts a URL; [http.NewRequest] fails otherwise *)
  url_Parse_ok : string -> bool;
  (** what an HTTP client obtains for a request *)
  RoundTrip : http_Client -> http_Request -> res http_Response;
  (** [os.Open] *)
  os_Open : string -> res Reader;
  (** [json.NewDecoder(body).Decode] at the two response types decoded from a stream *)
  Decode_chat : Reader -> res OAChatCompletionResp;
  Decode_image : Reader -> res OAImageGeneratorDallEResp;
  (** [json.Unmarshal] at the three transcription response types *)
  Unmarshal_default : string -> option OATranscriptionDefaultResp;
  Unmarshal_word : string -> option OATranscriptionWordTimestampResp;
  Unmarshal_segment : string -> option OATranscriptionSegmentResp;
  (** [base64.StdEncoding.EncodeToString] *)
  base64_EncodeToString : string -> string;
  (** [strconv.FormatFloat(x, 'f', 6, 64)] *)
  strconv_FormatFloat : float -> string;
  (** the boundary a new [multipart.Writer] draws *)
  multipart_boundary : string
}.

(** ** The world and the monad of operations *)

Definition loc : Type := nat.

(** One HTTP exchange: the client that performed it and the request. *)
Record Exchange : Type := {
  ex_client : http_Client;
  ex_request : http_Request
}.

(** The state an operation can observe or change: the exchanges performed
    so far (latest first) and the caller's chat-completion request structs,
    which the operation reaches through pointers.  Closing a file or a
    response body, and draining the body of a failed response, which the
    code defers to its return, change nothing of this state and are not
    represented. *)
Record World : Type := {
  net_log : list Exchange;
  heap : gmap loc OAReqBodyMessageCompletion
}.

(** An operation returns a value or panics. *)
Inductive outcome (A : Type) : Type :=
| Returned (a : A)
| Panicked (msg : string).
Arguments Returned {A} a.
Arguments Panicked {A} msg.

Definition M (A : Type) : Type := World -> outcome A * World.

#[global] Instance M_ret : MRet M := fun A (a : A) (w : World) => (Returned a, w).

#[global] Instance M_bind : MBind M := fun A B (f : A -> M B) (m : M A) (w : World) =>
  match m w with
  | (Returned a, w') => f a w'
  | (Panicked msg, w') => (Panicked msg, w')
  end.

Definition panic {A : Type} (msg : string) : M A := fun w => (Panicked msg, w).

Definition nil_dereference : string :=
  "runtime error: invalid memory address or nil pointer dereference".

(** [*p] for a pointer that is only read. *)
Definition deref {A : Type} (p : option A) : M A :=
  match p with
  | Some x => mret x
  | None => panic nil_dereference
  end.

(** Reading the struct behind a pointer into the heap. *)
Definition load (p : option loc) : M OAReqBodyMessageCompletion := fun w =>
  match p with
  | None => (Panicked nil_dereference, w)
  | Some l =>
      match heap w !! l with
      | Some r => (Returned r, w)
      | None => (Panicked nil_dereference, w)
      end
  end.

Definition with_ResponseFormat (r : OAReqBodyMessageCompletion) (fmt : gomap)
  : OAReqBodyMessageCompletion :=
  {| Messages := Messages r;
     Model := Model r;
     Store := Store r;
     Metadata := Metadata r;
     FrequencyPenalty := FrequencyPenalty r;
     LogitBias := LogitBias r;
     Logprobe := Logprobe r;
     Modalities := Modalities r;
     ResponseFormat := fmt |}.

(** [p.ResponseFormat = fmt]: the write goes to the caller's struct. *)
Definition store_ResponseFormat (p : option loc) (fmt : gomap) : M unit := fun w =>
  match p with
  | None => (Panicked nil_dereference, w)
  | Some l =>
      match heap w !! l with
      | Some r =>
          (Returned tt,
           {| net_log := net_log w;
              heap := <[l := with_ResponseFormat r fmt]> (heap w) |})
      | None => (Panicked nil_dereference, w)
      end
  end.

Section Operations.

Variable E : Env.

(** [http.NewRequest]: the method is always a valid one here, so the call
    fails exactly when the URL does not parse. *)
Definition http_NewRequest (method url : string) (body : Body) : option http_Request :=
  if url_Parse_ok E url
  then Some {| Method := method; URL := url; Header := []; ReqBody := body |}
  else None.

(** [client.Do(req)]: the exchange is recorded, the network answers. *)
Definition client_Do (client : http_Client) (req : http_Request) : M (res http_Response) :=
  fun w =>
    (Returned (RoundTrip E client req),
     {| net_log := {| ex_client := client; ex_request := req |} :: net_log w;
        heap := heap w |}).

(** Returning [nil] and a new error. *)
Definition fail {T : Type} (cls : ErrClass) (msg : string) : M (Ret T) :=
  mret (ret_err (errors_New cls msg)).

(** The first check that rejects decides the error (the checks are the
    successive [if ... return] statements of the validation blocks). *)
Fixpoint first_error {R : Type} (checks : list (R -> option error)) (r : R)
  : option error :=
  match checks with
  | [] => None
  | chk :: rest =>
      match chk r with
      | Some e => Some e
      | None => first_error rest r
      end
  end.

(** ** Chat completion *)

Definition OACreateResponseFormat (jsonName : string) (jsonSchema : gomap) : gomap :=
  Some [("type", VString "json_schema");
        ("json_schema",
         VMap (Some [("name", VString jsonName); ("schema", VMap jsonSchema)]))].

Definition OACreateOneContentVision (media_type : string) (using_image_url : bool)
    (url_or_base64encoding text_content : string)
  : Ret (list OAContentVisionBaseReq) :=
  if String.eqb url_or_base64encoding "" then
    ret_err (errors_New InvalidArgument
               "media_type and url_or_base64encoding must be provided")
  else if String.eqb media_type "" && negb using_image_url then
    ret_err (errors_New InvalidArgument
               "media_type must be provided when using base64 encoding")
  else if negb using_image_url
          && negb (String.eqb media_type "image/png")
          && negb (String.eqb media_type "image/jpeg")
          && negb (String.eqb media_type "image/jpg")
          && negb (String.eqb media_type "image/gif")
          && negb (String.eqb media_type "image/webp") then
    ret_err (errors_New InvalidArgument
               "media_type must be image/png, image/jpeg, or image/jpg")
  else
    let imageData :=
      if using_image_url then url_or_base64encoding
      else "data:" ++ media_type ++ ";base64," ++ url_or_base64encoding in
    let contentVision :=
      [ {| Type_ := "image_url"; Text := None;
           ImageUrl := Some {| Url := imageData |} |} ] in
    if negb (String.eqb text_content "") then
      ret_ok (contentVision
                ++ [ {| Type_ := "text"; Text := Some text_content;
                        ImageUrl := None |} ])%list
    else ret_ok contentVision.

(** A [*[]OAMessageReq] stored in an [interface{}]. *)
Definition content_val (content : option (slice OAMessageReq)) : goval :=
  VPtr (option_map (fun sl => VSlice (option_map (map OAMessageReq_val) sl)) content).

Definition OpenAISendMessage (c : openaiAPI)
    (content : option (slice OAMessageReq))
    (with_format_response : bool) (format_response : option gomap)
    (with_custom_reqbody : bool) (req_body_custom : option loc)
  : M (Ret OAChatCompletionResp) :=
  if String.eqb (apiKey c) "" then fail AuthError "API Key is empty"
  else if with_format_response && is_nil format_response then
    fail MissingArgument
      "format_response must be provided when with_format_response is true"
  else
    (* with_custom_reqbody && req_body_custom.Messages == nil *)
    no_messages ←
      (if with_custom_reqbody
       then r ← load req_body_custom; mret (is_nil_iface (Messages r))
       else mret false);
    if (no_messages : bool) then
      fail MissingArgument
        "req_body_custom must be provided when with_custom_reqbody is true"
    else if negb with_custom_reqbody && is_nil content then
      fail MissingArgument "content must be provided"
    else
      reqBody ←
        (if with_custom_reqbody then
           _ ← (if with_format_response
                then fmt ← deref format_response;
                     store_ResponseFormat req_body_custom fmt
                else mret tt);
           (* reqBody = req_body_custom: the encoder reads through the pointer *)
           r ← load req_body_custom;
           mret (VPtr (Some (OAReqBodyMessageCompletion_val r)))
         else
           let reqData :=
             {| Messages := content_val content;
                Model := openAIModel (config c);
                Store := false;
                Metadata := VNil;
                FrequencyPenalty := 0;
                LogitBias := None;
                Logprobe := false;
                Modalities := None;
                ResponseFormat := None |} in
           reqData ←
             (if with_format_response
              then fmt ← deref format_response;
                   mret (with_ResponseFormat reqData fmt)
              else mret reqData);
           mret (OAReqBodyMessageCompletion_val reqData));
      match json_Marshal reqBody with
      | None => fail InvalidArgument "Failed to marshal request body"
      | Some reqBodyJSON =>
          match http_NewRequest "POST" (openAIBaseUrl (config c))
                  (JSONBody reqBodyJSON) with
          | None => fail InvalidArgument "Failed to create request"
          | Some req =>
              let req := Header_Set "Content-Type" "application/json" req in
              let req := Header_Set "Authorization" ("Bearer " ++ apiKey c) req in
              let client := httpClient (config c) in
              resp ← client_Do client req;
              match resp with
              | Failure err =>
                  fail TransportError ("Failed to send request: " ++ err)
              | Success resp =>
                  if negb (StatusCode resp =? http_StatusOK)%Z then
                    fail TransportError ("Failed to send request: " ++ Status resp)
                  else
                    match Decode_chat E (RespBody resp) with
                    | Failure err =>
                        fail DecodeError ("Failed to decode response: " ++ err)
                    | Success result => mret (ret_ok result)
                    end
              end
          end
      end.

Definition index_out_of_range : string :=
  "runtime error: index out of range [0] with length 0".

Definition OpenAIGetFirstContentDataResp (c : openaiAPI)
    (content : option (slice OAMessageReq))
    (with_format_response : bool) (format_response : option gomap)
    (with_custom_reqbody : bool) (req_body_custom : option loc)
  : M (Ret OAMessage) :=
  r ← OpenAISendMessage c content with_format_response format_response
        with_custom_reqbody req_body_custom;
  match snd r with
  | Some err => mret (None, Some err)
  | None =>
      resp ← deref (fst r);
      (* resp.Choices[0].Message *)
      match Choices resp with
      | Some (choice :: _) => mret (ret_ok (Message choice))
      | _ => panic index_out_of_range
      end
  end.

(** ** Image generation *)

Definition dalle_check_model (r : OAReqImageGeneratorDallE) : option error :=
  if String.eqb (img_Model r) ""
     || (negb (String.eqb (img_Model r) "dall-e-2")
         && negb (String.eqb (img_Model r) "dall-e-3"))
  then Some (errors_New InvalidArgument "Model must be dall-e-2 or dall-e-3")
  else None.

Definition dalle_check_N (r : OAReqImageGeneratorDallE) : option error :=
  match img_N r with
  | Some n =>
      if (n <? 1)%Z || (10 <? n)%Z
      then Some (errors_New OutOfRange "N must be between 1 and 10")
      else None
  | None => None
  end.

Definition dalle_check_quality_model (r : OAReqImageGeneratorDallE) : option error :=
  if negb (String.eqb (img_Model r) "dall-e-3") && negb (is_nil (img_Quality r))
  then Some (errors_New InvalidArgument "Quality is only supported for dall-e-3 model")
  else None.

Definition dalle_check_quality_value (r : OAReqImageGeneratorDallE) : option error :=
  match img_Quality r with
  | Some q =>
      if negb (String.eqb q "standard") && negb (String.eqb q "hd")
      then Some (errors_New InvalidArgument "Quality must be standard or hd")
      else None
  | None => None
  end.

Definition dalle_check_style_model (r : OAReqImageGeneratorDallE) : option error :=
  if negb (String.eqb (img_Model r) "dall-e-3") && negb (is_nil (img_Style r))
  then Some (errors_New InvalidArgument "Style is only supported for dall-e-3 model")
  else None.

Definition dalle_check_style_value (r : OAReqImageGeneratorDallE) : option error :=
  match img_Style r with
  | Some s =>
      if negb (String.eqb s "vivid") && negb (String.eqb s "natural")
      then Some (errors_New InvalidArgument "Style must be vivid or natural")
      else None
  | None => None
  end.

Definition dalle_check_response_format (r : OAReqImageGeneratorDallE) : option error :=
  match img_ResponseFormat r with
  | Some f =>
      if negb (String.eqb f "url") && negb (String.eqb f "b64_json")
      then Some (errors_New InvalidArgument "ResponseFormat must be url or b64_json")
      else None
  | None => None
  end.

(** The four checks on the quality and style fields, in source order. *)
Definition dalle_quality_style_checks : list (OAReqImageGeneratorDallE -> option error) :=
  [dalle_check_quality_model; dalle_check_quality_value;
   dalle_check_style_model; dalle_check_style_value].

(** The input checker of [OpenAICreateImageDallE], in source order. *)
Definition dalle_checks : list (OAReqImageGeneratorDallE -> option error) :=
  ([dalle_check_model; dalle_check_N] ++ dalle_quality_style_checks
   ++ [dalle_check_response_format])%list.

Definition OpenAICreateImageDallE (c : openaiAPI)
    (req_body : option OAReqImageGeneratorDallE)
  : M (Ret OAImageGeneratorDallEResp) :=
  r ← deref req_body;
  match first_error dalle_checks r with
  | Some e => mret (ret_err e)
  | None =>
      let key := apiKey c in
      if String.eqb key "" then fail AuthError "API Key is empty"
      else
        match json_Marshal (VPtr (Some (OAReqImageGeneratorDallE_val r))) with
        | None => fail InvalidArgument "Failed to marshal request body"
        | Some reqBodyJson =>
            match http_NewRequest "POST" OAUrlImageGenerationsDallE
                    (JSONBody reqBodyJson) with
            | None => fail InvalidArgument "Failed to create request"
            | Some req =>
                let req := Header_Set "Content-Type" "application/json" req in
                let req := Header_Set "Authorization" ("Bearer " ++ key) req in
                let client := httpClient (config c) in
                resp ← client_Do client req;
                match resp with
                | Failure err =>
                    fail TransportError ("Failed to send request: " ++ err)
                | Success resp =>
                    if negb (StatusCode resp =? http_StatusOK)%Z then
                      fail TransportError ("Failed to send request: " ++ Status resp)
                    else
                      match Decode_image E (RespBody resp) with
                      | Failure err =>
                          fail DecodeError ("Failed to decode response: " ++ err)
                      | Success respDataDallE => mret (ret_ok respDataDallE)
                      end
                end
            end
        end
  end.

(** ** Text to speech *)

Definition tts_check_model (r : OAReqTextToSpeech) : option error :=
  if String.eqb (tts_Model r) ""
     || (negb (String.eqb (tts_Model r) "tts-1")
         && negb (String.eqb (tts_Model r) "tts-1-hd"))
  then Some (errors_New InvalidArgument "Model must be gpt-3 or davinci")
  else None.

Definition tts_check_input (r : OAReqTextToSpeech) : option error :=
  if String.eqb (tts_Input r) ""
  then Some (errors_New InvalidArgument "Input text must be provided")
  else None.

Definition tts_check_voice (r : OAReqTextToSpeech) : option error :=
  if negb (String.eqb (tts_Voice r) "")
     && (negb (String.eqb (tts_Voice r) "alloy")
         && negb (String.eqb (tts_Voice r) "echo")
         && negb (String.eqb (tts_Voice r) "fable")
         && negb (String.eqb (tts_Voice r) "onyx")
         && negb (String.eqb (tts_Voice r) "nova")
         && negb (String.eqb (tts_Voice r) "shimer"))
  then Some (errors_New InvalidArgument
               "Voice must be alloy, echo, fable, onyx, nova, or shimmer")
  else None.

Definition tts_check_response_format (r : OAReqTextToSpeech) : option error :=
  if negb (String.eqb (tts_ResponseFormat r) "")
     && (String.eqb (tts_ResponseFormat r) "mp3"
         && String.eqb (tts_ResponseFormat r) "opus"
         && String.eqb (tts_ResponseFormat r) "aac"
         && String.eqb (tts_ResponseFormat r) "flac"
         && String.eqb (tts_ResponseFormat r) "wav"
         && String.eqb (tts_ResponseFormat r) "pcm")
  then Some (errors_New InvalidArgument
               "ResponseFormat must be mp3, opus, aac, flac, wav, or pcm")
  else None.

Definition tts_check_speed (r : OAReqTextToSpeech) : option error :=
  match tts_Speed r with
  | Some s =>
      if PrimFloat.ltb s 0.25 || PrimFloat.ltb 4 s
      then Some (errors_New OutOfRange "Speed must be between 0.25 and 4.0")
      else None
  | None => None
  end.

(** The input checker of [OpenAITextToSpeech], in source order. *)
Definition tts_checks : list (OAReqTextToSpeech -> option error) :=
  [tts_check_model; tts_check_input; tts_check_voice;
   tts_check_response_format; tts_check_speed].

Definition OpenAITextToSpeech (c : openaiAPI) (req_body : option OAReqTextToSpeech)
  : M (Ret OATextToSpeechResp) :=
  r ← deref req_body;
  match first_error tts_checks r with
  | Some e => mret (ret_err e)
  | None =>
      let key := apiKey c in
      if String.eqb key "" then fail AuthError "API Key is empty"
      else
        match json_Marshal (VPtr (Some (OAReqTextToSpeech_val r))) with
        | None => fail InvalidArgument "Failed to marshal request body"
        | Some reqBodyJson =>
            match http_NewRequest "POST" OAUrlTextToSpeech (JSONBody reqBodyJson) with
            | None => fail InvalidArgument "Failed to create request"
            | Some req =>
                let req := Header_Set "Content-Type" "application/json" req in
                let req := Header_Set "Authorization" ("Bearer " ++ key) req in
                let client := httpClient (config c) in
                resp ← client_Do client req;
                match resp with
                | Failure err =>
                    fail TransportError ("Failed to send request: " ++ err)
                | Success resp =>
                    if negb (StatusCode resp =? http_StatusOK)%Z then
                      fail TransportError ("Failed to send request: " ++ Status resp)
                    else
                      match io_ReadAll (RespBody resp) with
                      | Failure err =>
                          fail TransportError ("Failed to read response body3: " ++ err)
                      | Success fileBytes =>
                          let b64audio := base64_EncodeToString E fileBytes in
                          let fileExt :=
                            if String.eqb (tts_ResponseFormat r) "" then ".mp3"
                            else "." ++ tts_ResponseFormat r in
                          mret (ret_ok {| B64JSON := b64audio;
                                          FormatAudio := fileExt |})
                      end
                end
            end
        end
  end.

(** ** Speech to text (openai.stt.go) *)

Definition path_separator : ascii := "/"%char.

(** [filepath.Ext]: the suffix of the last path element from its last dot,
    found by scanning the path backwards up to a separator. *)
Fixpoint ext_scan (rev_path : list ascii) (suffix : list ascii) : string :=
  match rev_path with
  | [] => ""
  | ch :: r =>
      if Ascii.eqb ch path_separator then ""
      else if Ascii.eqb ch "."%char then string_of_list_ascii (ch :: suffix)
      else ext_scan r (ch :: suffix)
  end.

Definition filepath_Ext (path : string) : string :=
  ext_scan (rev (list_ascii_of_string path)) [].

Fixpoint drop_separators (l : list ascii) : list ascii :=
  match l with
  | ch :: r => if Ascii.eqb ch path_separator then drop_separators r else l
  | [] => []
  end.

Fixpoint take_element (l : list ascii) : list ascii :=
  match l with
  | ch :: r => if Ascii.eqb ch path_separator then [] else ch :: take_element r
  | [] => []
  end.

(** [filepath.Base]: the last element of the path, trailing separators
    removed; "." for the empty path and "/" for a path of separators. *)
Definition filepath_Base (path : string) : string :=
  if String.eqb path "" then "."
  else
    let stripped := drop_separators (rev (list_ascii_of_string path)) in
    let element := rev (take_element stripped) in
    match element with
    | [] => "/"
    | _ => string_of_list_ascii element
    end.

Definition validExts : list string :=
  [".mp3"; ".mp4"; ".mpeg"; ".mpga"; ".m4a"; ".webm"; ".wav"; ".flac"; ".ogg"].

(** The loop over [validExts]. *)
Definition isValidExt (fileExt : string) : bool :=
  existsb (String.eqb fileExt) validExts.

(** The type switch on [req_body.File]: the file name and the opened
    content, or the error returned.  (Closing the opened file is deferred
    to the return of [sttBaseReq]; it has no effect on the world kept here.) *)
Definition resolve_file (req_body : OATranscriptionDefaultReq)
  : error + (string * Reader) :=
  match stt_File req_body with
  | FileOfHeader v =>
      match fh_Open v with
      | Failure err => inl (errors_New IOError ("failed to access file content: " ++ err))
      | Success fileContent => inr (fh_Filename v, fileContent)
      end
  | FileOfPath v =>
      match os_Open E v with
      | Failure err => inl (errors_New IOError ("failed to open file: " ++ err))
      | Success fileContent => inr (filepath_Base v, fileContent)
      end
  | FileOfReader v =>
      if String.eqb (stt_Filename req_body) "" then
        inl (errors_New MissingArgument "filename must be provided if file is io.Reader")
      else inr (stt_Filename req_body, v)
  | FileNil | FileOfOther =>
      inl (errors_New InvalidArgument
             "file type not supported, supported type is *multipart.FileHeader, string, or io.Reader")
  end.

(** A scalar form field. *)
Definition form_field (name value : string) : FormPart :=
  {| part_field := name; part_filename := None; part_content := value |}.

Definition sttBaseReq (isTranscription isWordStampReq isSegmentStampReq : bool)
    (req_body : OATranscriptionDefaultReq) (APIKey : string)
  : M (Ret string) :=
  let req_url :=
    if isTranscription then OAUrlSTTTranscription else OAUrlSTTTranslation in
  match stt_File req_body with
  | FileNil => fail MissingArgument "file must be provided"
  | _ =>
    if negb (PrimFloat.eqb (stt_Temperature req_body) 0)
       && (PrimFloat.ltb (stt_Temperature req_body) 0
           || PrimFloat.ltb 1 (stt_Temperature req_body))
    then fail OutOfRange "temperature must be between 0 and 1"
    else
      match resolve_file req_body with
      | inl err => mret (ret_err err)
      | inr (fileName, fileContent) =>
        let fileExt := filepath_Ext fileName in
        if negb (isValidExt fileExt) then
          fail InvalidArgument
            ("your file extension is " ++ fileExt
             ++ ", but it must be mp3, mp4, mpeg, mpga, m4a, webm, wav, flac, or ogg")
        else
          let stt_req :=
            {| treq_Model := "whisper-1";
               treq_Language :=
                 if negb (String.eqb (stt_Language req_body) "")
                 then stt_Language req_body else "";
               treq_Prompt :=
                 if negb (String.eqb (stt_Prompt req_body) "")
                 then stt_Prompt req_body else "";
               treq_ResponseFormat := "";
               treq_Temperature :=
                 if negb (PrimFloat.eqb (stt_Temperature req_body) 0)
                 then stt_Temperature req_body else 0%float;
               treq_TimestampGranularities := None |} in
          if isWordStampReq && isSegmentStampReq then
            fail InvalidArgument
              "cannot use both word timestamps and segment timestamps"
          else
            let stt_req :=
              if isWordStampReq then
                {| treq_Model := treq_Model stt_req;
                   treq_Language := treq_Language stt_req;
                   treq_Prompt := treq_Prompt stt_req;
                   treq_ResponseFormat := "verbose_json";
                   treq_Temperature := treq_Temperature stt_req;
                   treq_TimestampGranularities := Some ["word"] |}
              else stt_req in
            let stt_req :=
              if isSegmentStampReq then
                {| treq_Model := treq_Model stt_req;
                   treq_Language := treq_Language stt_req;
                   treq_Prompt := treq_Prompt stt_req;
                   treq_ResponseFormat := "verbose_json";
                   treq_Temperature := treq_Temperature stt_req;
                   treq_TimestampGranularities := Some ["segment"] |}
              else stt_req in
            (* the form is written to a buffer, which cannot fail: only the
               copy of the file content can *)
            match io_ReadAll fileContent with
            | Failure _ => fail IOError "failed to copy file content"
            | Success fileBytes =>
              let file_part :=
                {| part_field := "file"; part_filename := Some fileName;
                   part_content := fileBytes |} in
              let temperature_part :=
                if negb (PrimFloat.eqb (treq_Temperature stt_req) 0)
                then [form_field "temperature"
                        (strconv_FormatFloat E (treq_Temperature stt_req))]
                else [] in
              let prompt_part :=
                if negb (String.eqb (treq_Prompt stt_req) "")
                then [form_field "prompt" (treq_Prompt stt_req)] else [] in
              let language_part :=
                if negb (String.eqb (treq_Language stt_req) "")
                then [form_field "language" (treq_Language stt_req)] else [] in
              timestamp_parts ←
                (if isWordStampReq || isSegmentStampReq then
                   (* stt_req.TimestampGranularities[0] *)
                   match treq_TimestampGranularities stt_req with
                   | Some (granularity :: _) =>
                       mret [form_field "response_format" (treq_ResponseFormat stt_req);
                             form_field "timestamp_granularities[]" granularity]
                   | _ => panic index_out_of_range
                   end
                 else mret []);
              let form :=
                ([file_part; form_field "model" (treq_Model stt_req)]
                 ++ temperature_part ++ prompt_part ++ language_part
                 ++ timestamp_parts)%list in
              match http_NewRequest "POST" req_url (FormBody form) with
              | None => fail InvalidArgument "failed to create http request"
              | Some httpReq =>
                  let httpReq :=
                    Header_Set "Content-Type"
                      ("multipart/form-data; boundary=" ++ multipart_boundary E)
                      httpReq in
                  let httpReq :=
                    Header_Set "Authorization" ("Bearer " ++ APIKey) httpReq in
                  let client := http_Client_zero in
                  resp ← client_Do client httpReq;
                  match resp with
                  | Failure _ => fail TransportError "failed to send request"
                  | Success resp =>
                      match io_ReadAll (RespBody resp) with
                      | Failure _ => fail TransportError "failed to read response body"
                      | Success respBody => mret (ret_ok respBody)
                      end
                  end
              end
            end
      end
  end.

(** The tail shared by the four operations: decode the body, then look at
    the error object inside the decoded response. *)
Definition stt_decode {T : Type} (unmarshal : string -> option T)
    (Error_of : T -> OASTTError) (r : Ret string) : M (Ret T) :=
  match snd r with
  | Some err => mret (None, Some err)
  | None =>
      respBody ← deref (fst r);
      match unmarshal respBody with
      | None => fail DecodeError "failed to unmarshal response"
      | Some result =>
          if negb (String.eqb (stterr_Message (Error_of result)) "") then
            fail ProviderError (stterr_Message (Error_of result))
          else mret (ret_ok result)
      end
  end.

Definition OpenAISpeechToTextWordTimestamps (c : openaiAPI)
    (req_body : option OATranscriptionDefaultReq)
  : M (Ret OATranscriptionWordTimestampResp) :=
  let isWordStamp := true in
  let isTranscription := true in
  req ← deref req_body;
  r ← sttBaseReq isTranscription isWordStamp false req (apiKey c);
  stt_decode (Unmarshal_word E) wts_Error r.

Definition OpenAISpeechToTextSegmentTimestamps (c : openaiAPI)
    (req_body : option OATranscriptionDefaultReq)
  : M (Ret OATranscriptionSegmentResp) :=
  let isSegmentReq := true in
  let isTranscription := true in
  req ← deref req_body;
  r ← sttBaseReq isTranscription false isSegmentReq req (apiKey c);
  stt_decode (Unmarshal_segment E) sts_Error r.

Definition OpenAISpeechToTextDefault (c : openaiAPI)
    (req_body : option OATranscriptionDefaultReq)
  : M (Ret OATranscriptionDefaultResp) :=
  let isTranscription := true in
  req ← deref req_body;
  r ← sttBaseReq isTranscription false false req (apiKey c);
  stt_decode (Unmarshal_default E) def_Error r.

(** The [OATranscriptionDefaultReq] literal that the translation builds
    from its request; the language is left at its zero value. *)
Definition translation_request (body : OATranslationDefaultReq)
  : OATranscriptionDefaultReq :=
  {| stt_File := trl_File body;
     stt_Filename := trl_Filename body;
     stt_Temperature := trl_Temperature body;
     stt_Prompt := trl_Prompt body;
     stt_Language := "" |}.

Definition OpenAISpeechToTextTranslation (c : openaiAPI)
    (req_body : option OATranslationDefaultReq)
  : M (Ret OATranscriptionDefaultResp) :=
  let isTranscription := false in
  body ← deref req_body;
  let req := translation_request body in
  r ← sttBaseReq isTranscription false false req (apiKey c);
  stt_decode (Unmarshal_default E) def_Error r.

End Operations.

(** ** A concrete environment

    A network that answers every request with the given response, a file
    system without files, and decoders that return the given values. *)
Module Scenario.

Definition reader_of (bytes : string) : Reader :=
  {| rd_bytes := bytes; rd_err := None |}.

Definition response_ok (bytes : string) : http_Response :=
  {| StatusCode := 200; Status := "200 OK"; RespBody := reader_of bytes |}.

Definition no_stt_error : OASTTError :=
  {| stterr_Message := ""; stterr_Type := ""; stterr_Param := ""; stterr_Code := 0 |}.

Definition quota_error : OASTTError :=
  {| stterr_Message := "You exceeded your current quota";
     stterr_Type := ""; stterr_Param := ""; stterr_Code := 0 |}.

Definition chat_resp (choices : slice OAChoice) : OAChatCompletionResp :=
  {| chat_ID := ""; chat_Object := ""; chat_Created := 0;
     chat_Model := ""; chat_SystemFingerprint := "";
     Choices := choices;
     Usage := {| PromptTokens := 0; CompletionTokens := 0; TotalTokens := 0;
                 CompletionTokensDetail := {| ReasoningTokens := 0 |} |} |}.

(** [answer] is what the network returns; [choices] the choices of the
    decoded chat response; [stt_error] the error object of a decoded
    transcription.  Every other field decodes to its zero value, as for a
    body that does not mention it. *)
Definition env (answer : res http_Response) (choices : slice OAChoice)
    (stt_error : OASTTError) : Env :=
  {| url_Parse_ok := fun _ => true;
     RoundTrip := fun _ _ => answer;
     os_Open := fun _ => Failure "no such file or directory";
     Decode_chat := fun _ => Success (chat_resp choices);
     Decode_image := fun _ => Success {| img_Created := 0; img_Data := None |};
     Unmarshal_default := fun _ =>
       Some {| def_Text := ""; def_Error := stt_error |};
     Unmarshal_word := fun _ =>
       Some {| wts_Task := ""; wts_Language := ""; wts_Duration := 0;
               wts_Text := ""; wts_Words := None; wts_Error := stt_error |};
     Unmarshal_segment := fun _ =>
       Some {| sts_Task := ""; sts_Language := ""; sts_Duration := 0;
               sts_Text := ""; sts_Segments := None; sts_Error := stt_error |};
     base64_EncodeToString := fun s => s;
     strconv_FormatFloat := fun _ => "0.500000";
     multipart_boundary := "boundary" |}.

Definition plain_env : Env := env (Success (response_ok "{}")) None no_stt_error.

(** A provider that answers 200 with an error object in the body. *)
Definition quoted (s : string) : string :=
  String (ascii_of_nat 34) (s ++ String (ascii_of_nat 34) "").

Definition quota_body : string :=
  "{" ++ quoted "error" ++ ":{" ++ quoted "message" ++ ":"
  ++ quoted "You exceeded your current quota" ++ "}}".

Definition quota_env : Env := env (Success (response_ok quota_body)) None quota_error.

Definition client (key : string) (http : http_Client) : openaiAPI :=
  {| apiKey := key; openaiOrganization := ""; openaiProject := "";
     config := WithHTTPClient http DefaultConfig |}.

Definition custom_http : http_Client :=
  {| Transport := Some 1%nat; Timeout := 30 * time_Second |}.

Definition world0 : World := {| net_log := []; heap := ∅ |}.

Definition hello : slice OAMessageReq :=
  Some [ {| Role := "user"; Content := VString "Hello" |} ].

Definition audio_req : OATranscriptionDefaultReq :=
  {| stt_File := FileOfReader (reader_of "RIFF");
     stt_Filename := "speech.wav";
     stt_Prompt := ""; stt_Language := "en"; stt_Temperature := 0 |}.

Definition translation_req : OATranslationDefaultReq :=
  {| trl_File := FileOfReader (reader_of "RIFF");
     trl_Filename := "speech.wav";
     trl_Prompt := ""; trl_Temperature := 0 |}.

Definition speech_req (voice format : string) : OAReqTextToSpeech :=
  {| tts_Model := "tts-1"; tts_Input := "Hello, world!";
     tts_Voice := voice; tts_ResponseFormat := format; tts_Speed := None |}.

Definition image_req (model : string) (n : option Z) (quality style : option string)
  : OAReqImageGeneratorDallE :=
  {| img_Prompt := "A futuristic cityscape at sunset"; img_Model := model;
     img_N := n; img_Quality := quality; img_ResponseFormat := None;
     img_Size := None; img_Style := style; img_User := None |}.

(** A caller's pre-built chat request, already carrying a response
    format, and a world that holds it at address 0. *)
Definition custom_req : OAReqBodyMessageCompletion :=
  {| Messages := VSlice (Some [OAMessageReq_val
                                 {| Role := "user"; Content := VString "Hello" |}]);
     Model := "gpt-4o";
     Store := true;
     Metadata := VNil;
     FrequencyPenalty := 0;
     LogitBias := None;
     Logprobe := false;
     Modalities := Some ["text"];
     ResponseFormat := Some [("type", VString "text")] |}.

Definition world_custom : World :=
  {| net_log := []; heap := {[ 0%nat := custom_req ]} |}.

End Scenario.

(** ** Properties stated about runs *)

Definition auth_error : error := errors_New AuthError "API Key is empty".

(** The run of [op] from [w] returns an [AuthError] and no result, and
    performs no HTTP exchange. *)
Definition fails_with_AuthError_offline {T : Type} (op : M (Ret T)) (w : World) : Prop :=
  exists (e : error) (w' : World),
    op w = (Returned (None, Some e), w')
    /\ err_class e = AuthError
    /\ net_log w' = net_log w.

(** The source's test on the temperature of a transcription request. *)
Definition temperature_rejected (t : float) : bool :=
  negb (PrimFloat.eqb t 0) && (PrimFloat.ltb t 0 || PrimFloat.ltb 1 t).

Definition both_timestamps_error : error :=
  errors_New InvalidArgument "cannot use both word timestamps and segment timestamps".

(** The six voices and the six response formats of the documentation of
    [OpenAITextToSpeech]. *)
Definition documented_voices : list string :=
  ["alloy"; "echo"; "fable"; "onyx"; "nova"; "shimmer"].

Definition documented_formats : list string :=
  ["mp3"; "opus"; "aac"; "flac"; "wav"; "pcm"].

(** The JSON document of a structured-output envelope:
    type "json_schema", and under "json_schema" the name and the schema. *)
Definition envelope_json (name : string) (schema : json) : json :=
  JObject
    [("json_schema", JObject [("name", JString name); ("schema", schema)]);
     ("type", JString "json_schema")].

(** The request struct that the content path of [OpenAISendMessage] builds. *)
Definition content_request (c : openaiAPI) (content : option (slice OAMessageReq))
  : OAReqBodyMessageCompletion :=
  {| Messages := content_val content;
     Model := openAIModel (config c);
     Store := false;
     Metadata := VNil;
     FrequencyPenalty := 0;
     LogitBias := None;
     Logprobe := false;
     Modalities := None;
     ResponseFormat := None |}.

(** From [w] to [w'] the log grew only by exchanges of the client [cl]. *)
Definition log_extended_via (cl : http_Client) (w w' : World) : Prop :=
  exists new,
    net_log w' = (new ++ net_log w)%list
    /\ Forall (fun ex => ex_client ex = cl) new.

(** Every exchange a computation performs goes through the client [cl]. *)
Definition exchanges_via (cl : http_Client) {A : Type} (m : M A) : Prop :=
  forall w out w', m w = (out, w') -> log_extended_via cl w w'.

(** Whenever the operation returns, it returns a result or an error and
    not both. *)
Definition returns_exactly_one {T : Type} (op : M (Ret T)) : Prop :=
  forall w r w', op w = (Returned r, w') -> exactly_one r.

(** ** Further properties of runs *)

(** Every run of [m] relates the world before to the world after by [R]. *)
Definition run_rel {A : Type} (R : World -> World -> Prop) (m : M A) : Prop :=
  forall w out w', m w = (out, w') -> R w w'.

(** No exchange was performed. *)
Definition same_log (w w' : World) : Prop := net_log w' = net_log w.

(** No exchange was performed, or exactly one, which satisfies [P]. *)
Definition at_most_one_exchange (P : Exchange -> Prop) (w w' : World) : Prop :=
  net_log w' = net_log w
  \/ exists ex, net_log w' = ex :: net_log w /\ P ex.

(** An authenticated POST of the JSON document [body] to [url] through
    the client [cl]. *)
Definition json_post (cl : http_Client) (url key : string) (body : json)
    (ex : Exchange) : Prop :=
  ex_client ex = cl
  /\ Method (ex_request ex) = "POST"
  /\ URL (ex_request ex) = url
  /\ Header_Get "Authorization" (ex_request ex) = Some ("Bearer " ++ key)
  /\ Header_Get "Content-Type" (ex_request ex) = Some "application/json"
  /\ ReqBody (ex_request ex) = JSONBody body.

(** An authenticated POST of the form [parts] to [url] through a
    zero-valued client. *)
Definition form_post (url key boundary : string) (parts : list FormPart)
    (ex : Exchange) : Prop :=
  ex_client ex = http_Client_zero
  /\ Method (ex_request ex) = "POST"
  /\ URL (ex_request ex) = url
  /\ Header_Get "Authorization" (ex_request ex) = Some ("Bearer " ++ key)
  /\ Header_Get "Content-Type" (ex_request ex)
     = Some ("multipart/form-data; boundary=" ++ boundary)
  /\ ReqBody (ex_request ex) = FormBody parts.

(** The content of the first part of a form under a field name. *)
Fixpoint form_value (name : string) (parts : list FormPart) : option string :=
  match parts with
  | [] => None
  | p :: r =>
      if String.eqb (part_field p) name then Some (part_content p)
      else form_value name r
  end.

(** The five media types [OACreateOneContentVision] accepts for base64 data. *)
Definition vision_media_types : list string :=
  ["image/png"; "image/jpeg"; "image/jpg"; "image/gif"; "image/webp"].

(** The image block and the text block of a vision content. *)
Definition image_block (url : string) : OAContentVisionBaseReq :=
  {| Type_ := "image_url"; Text := None; ImageUrl := Some {| Url := url |} |}.

Definition text_block (text : string) : OAContentVisionBaseReq :=
  {| Type_ := "text"; Text := Some text; ImageUrl := None |}.

(** A vision content as the [Content] of a message: a [[]OAContentVisionBaseReq]
    in an [interface{}]. *)
Definition vision_content_val (blocks : list OAContentVisionBaseReq) : goval :=
  VSlice (Some (map OAContentVisionBaseReq_val blocks)).

(** The six voices the voice test of [OpenAITextToSpeech] lets through. *)
Definition accepted_voices : list string :=
  ["alloy"; "echo"; "fable"; "onyx"; "nova"; "shimer"].

(** The form that [sttBaseReq] writes for a file resolved to [fileName]
    and [bytes]: the file, the model, then the optional fields that are
    set, then the two timestamp fields of the mode asked for. *)
Definition stt_form (E : Env) (word segment : bool)
    (req : OATranscriptionDefaultReq) (fileName bytes : string) : list FormPart :=
  ([ {| part_field := "file"; part_filename := Some fileName;
        part_content := bytes |};
     form_field "model" "whisper-1" ]
   ++ (if PrimFloat.eqb (stt_Temperature req) 0 then []
       else [form_field "temperature"
               (strconv_FormatFloat E (stt_Temperature req))])
   ++ (if String.eqb (stt_Prompt req) "" then []
       else [form_field "prompt" (stt_Prompt req)])
   ++ (if String.eqb (stt_Language req) "" then []
       else [form_field "language" (stt_Language req)])
   ++ (if word then
         [form_field "response_format" "verbose_json";
          form_field "timestamp_granularities[]" "word"]
       else if segment then
         [form_field "response_format" "verbose_json";
          form_field "timestamp_granularities[]" "segment"]
       else []))%list.

(** A provider that answers every request with status 401 and the given
    body, which decodes to a transcription without an error message. *)
Definition unauthorized_env (body : string) : Env :=
  Scenario.env
    (Success {| StatusCode := 401; Status := "401 Unauthorized";
                RespBody := Scenario.reader_of body |})
    None Scenario.no_stt_error.

(** A speech-to-text result [r] comes from one exchange through a
    zero-valued client: the body of the response was read to its end and
    decoded to [r], whose error object has an empty message. *)
Definition stt_result_origin {T : Type} (E : Env)
    (unmarshal : string -> option T) (Error_of : T -> OASTTError)
    (w w' : World) (r : T) : Prop :=
  exists ex resp body,
    net_log w' = ex :: net_log w
    /\ ex_client ex = http_Client_zero
    /\ RoundTrip E (ex_client ex) (ex_request ex) = Success resp
    /\ io_ReadAll (RespBody resp) = Success body
    /\ unmarshal body = Some r
    /\ stterr_Message (Error_of r) = "".

(** A speech-to-text request that passes every check made before the
    network is used: the temperature is in range, the file resolves to a
    name with an accepted extension, and its content can be read. *)
Definition stt_sendable (E : Env) (req : OATranscriptionDefaultReq)
    (fileName : string) (fileContent : Reader) : Prop :=
  temperature_rejected (stt_Temperature req) = false
  /\ resolve_file E req = inr (fileName, fileContent)
  /\ isValidExt (filepath_Ext fileName) = true
  /\ rd_err fileContent = None.

(** ** Basic facts *)

Ltac run :=
  unfold fail, deref, panic; unfold mbind, M_bind, mret, M_ret; cbn beta iota.

Lemma eqb_empty_false (s : string) : s <> "" -> String.eqb s "" = false.
Proof. intros H. now apply String.eqb_neq. Qed.

Lemma json_Marshal_struct (fs : list (string * goval)) :
  json_Marshal (VStruct fs) = option_map JObject (marshal_members fs).
Proof. reflexivity. Qed.

Lemma json_Marshal_map (es : list (string * goval)) :
  json_Marshal (VMap (Some es))
  = option_map (fun ms => JObject (coerce_keys (sort_members ms)))
      (marshal_members es).
Proof. reflexivity. Qed.

(** The coercion on some byte strings: ASCII and well-formed sequences of
    two, three and four bytes are kept; a byte that cannot start a
    sequence, an overlong form, a surrogate and a truncated sequence are
    replaced byte by byte. *)
Lemma coerce_utf8_samples :
  coerce_utf8 "MySchema" = "MySchema"
  /\ coerce_utf8 (String (ascii_of_N 195) (String (ascii_of_N 169) ""))
     = String (ascii_of_N 195) (String (ascii_of_N 169) "")
  /\ coerce_utf8 (String (ascii_of_N 226) (String (ascii_of_N 130)
                    (String (ascii_of_N 172) "")))
     = String (ascii_of_N 226) (String (ascii_of_N 130) (String (ascii_of_N 172) ""))
  /\ coerce_utf8 (String (ascii_of_N 240) (String (ascii_of_N 159)
                    (String (ascii_of_N 152) (String (ascii_of_N 128) ""))))
     = String (ascii_of_N 240) (String (ascii_of_N 159)
         (String (ascii_of_N 152) (String (ascii_of_N 128) "")))
  /\ coerce_utf8 (String (ascii_of_N 255) "a") = RuneError ++ "a"
  /\ coerce_utf8 (String (ascii_of_N 192) (String (ascii_of_N 128) ""))
     = RuneError ++ RuneError
  /\ coerce_utf8 (String (ascii_of_N 237) (String (ascii_of_N 160)
                    (String (ascii_of_N 128) "")))
     = RuneError ++ RuneError ++ RuneError
  /\ coerce_utf8 (String (ascii_of_N 226) (String (ascii_of_N 130) ""))
     = RuneError ++ RuneError
  /\ coerce_utf8 RuneError = RuneError.
Proof. repeat split; vm_compute; reflexivity. Qed.

Lemma utf8_ValidString_coerce (s : string) :
  utf8_ValidString s = true -> coerce_utf8 s = s.
Proof. unfold utf8_ValidString. now intros H%String.eqb_eq. Qed.

Lemma first_error_app {R : Type} (l1 l2 : list (R -> option error)) (r : R) :
  first_error (l1 ++ l2) r
  = match first_error l1 r with
    | Some e => Some e
    | None => first_error l2 r
    end.
Proof.
  induction l1 as [| chk l1 IH]; simpl; [reflexivity |].
  destruct (chk r); [reflexivity | exact IH].
Qed.

(** The response-format test of text to speech never rejects: no string
    equals both "mp3" and "opus". *)
Lemma tts_check_response_format_none (r : OAReqTextToSpeech) :
  tts_check_response_format r = None.
Proof.
  unfold tts_check_response_format.
  destruct (String.eqb_spec (tts_ResponseFormat r) "mp3") as [-> | _];
    [reflexivity |].
  simpl. now rewrite andb_false_r.
Qed.

(** ** Missing API key *)

(** C1, as amended.  With an empty API key, chat completion and the
    first-content projection fail with [AuthError] whatever their
    arguments; image generation and text to speech, given a request, fail
    with the error of the first validation check that rejects it, and with
    [AuthError] when it passes validation.  In all four the world is left
    as it was: no HTTP exchange is performed. *)
Theorem C1_empty_key_fails_offline (E : Env) (c : openaiAPI) (w : World)
    (Hkey : apiKey c = "") :
  (forall content wfr fr wcr custom,
      OpenAISendMessage E c content wfr fr wcr custom w
      = (Returned (ret_err auth_error), w))
  /\ (forall content wfr fr wcr custom,
         OpenAIGetFirstContentDataResp E c content wfr fr wcr custom w
         = (Returned (ret_err auth_error), w))
  /\ (forall r,
         OpenAICreateImageDallE E c (Some r) w
         = (Returned (ret_err (default auth_error (first_error dalle_checks r))), w))
  /\ (forall r,
         OpenAITextToSpeech E c (Some r) w
         = (Returned (ret_err (default auth_error (first_error tts_checks r))), w)).
Proof.
  assert (Hsend : forall content wfr fr wcr custom,
             OpenAISendMessage E c content wfr fr wcr custom w
             = (Returned (ret_err auth_error), w)).
  { intros. unfold OpenAISendMessage. rewrite Hkey. reflexivity. }
  repeat split.
  - exact Hsend.
  - intros. unfold OpenAIGetFirstContentDataResp.
    unfold mbind at 1, M_bind. rewrite Hsend. reflexivity.
  - intros r. unfold OpenAICreateImageDallE. run.
    destruct (first_error dalle_checks r) as [e |]; [reflexivity |].
    rewrite Hkey. reflexivity.
  - intros r. unfold OpenAITextToSpeech. run.
    destruct (first_error tts_checks r) as [e |]; [reflexivity |].
    rewrite Hkey. reflexivity.
Qed.

Lemma C1_empty_key_witness :
  apiKey (Scenario.client "" Scenario.custom_http) = ""
  /\ OpenAISendMessage Scenario.plain_env (Scenario.client "" Scenario.custom_http)
       (Some Scenario.hello) false None false None Scenario.world0
     = (Returned (ret_err auth_error), Scenario.world0)
  /\ OpenAITextToSpeech Scenario.plain_env (Scenario.client "" Scenario.custom_http)
       (Some (Scenario.speech_req "alloy" "mp3")) Scenario.world0
     = (Returned (ret_err auth_error), Scenario.world0).
Proof.
  split; [reflexivity |].
  pose proof (C1_empty_key_fails_offline Scenario.plain_env
                (Scenario.client "" Scenario.custom_http) Scenario.world0 eq_refl)
    as (Hsend & _ & _ & Htts).
  split; [apply Hsend | apply (Htts (Scenario.speech_req "alloy" "mp3"))].
Defined.

(** C1, as stated, fails twice.  With an empty key, image generation on a
    request with an unknown model fails with [InvalidArgument], not
    [AuthError]; and a transcription performs its HTTP exchange. *)
Lemma C1_counterexample :
  apiKey (Scenario.client "" Scenario.custom_http) = ""
  /\ ~ fails_with_AuthError_offline
         (OpenAICreateImageDallE Scenario.plain_env
            (Scenario.client "" Scenario.custom_http)
            (Some (Scenario.image_req "dall-e-1" None None None)))
         Scenario.world0
  /\ ~ fails_with_AuthError_offline
         (OpenAISpeechToTextDefault Scenario.plain_env
            (Scenario.client "" Scenario.custom_http)
            (Some Scenario.audio_req))
         Scenario.world0.
Proof.
  split; [reflexivity |].
  split; intros (e & w' & Hrun & Hclass & Hlog).
  - vm_compute in Hrun. injection Hrun as <- <-. discriminate Hclass.
  - vm_compute in Hrun. discriminate Hrun.
Qed.

(** ** Text to speech: the checks on the voice and the response format *)

(** The voice test accepts exactly the empty voice and six names, the
    sixth of which is spelled "shimer". *)
Lemma tts_check_voice_accepts (r : OAReqTextToSpeech) :
  tts_check_voice r = None
  <-> tts_Voice r = ""
      \/ In (tts_Voice r) ["alloy"; "echo"; "fable"; "onyx"; "nova"; "shimer"].
Proof.
  unfold tts_check_voice.
  destruct (String.eqb_spec (tts_Voice r) "") as [-> | Hne]; simpl;
    [split; [now left | reflexivity] |].
  repeat match goal with
         | |- context [String.eqb (tts_Voice r) ?s] =>
             destruct (String.eqb_spec (tts_Voice r) s) as [-> | ?]; simpl
         end;
    (split; [intros ?; try discriminate; right; simpl; tauto
            | intros [? | Hin]; [congruence |];
              try reflexivity; simpl in Hin; intuition congruence]).
Qed.

(** C2: the code at a request whose response format is none of the six
    documented ones.  The response-format check lets "xyz" through, the
    request is sent, and the operation succeeds with the extension ".xyz". *)
Theorem C2_unknown_response_format_is_sent :
  ~ In "xyz" documented_formats
  /\ tts_check_response_format (Scenario.speech_req "alloy" "xyz") = None
  /\ exists resp ex,
       OpenAITextToSpeech Scenario.plain_env
         (Scenario.client "sk-1" Scenario.custom_http)
         (Some (Scenario.speech_req "alloy" "xyz")) Scenario.world0
       = (Returned (Some resp, None), {| net_log := [ex]; heap := ∅ |})
       /\ FormatAudio resp = ".xyz"
       /\ json_field "response_format"
            match ReqBody (ex_request ex) with
            | JSONBody j => j
            | FormBody _ => JNull
            end
          = Some (JString "xyz").
Proof.
  split.
  { simpl. intuition discriminate. }
  split; [reflexivity |].
  eexists _, _. split; [vm_compute; reflexivity |].
  split; reflexivity.
Qed.

(** C4: the code at the documented voice "shimmer".  The voice check
    rejects it and the operation fails with [InvalidArgument] before any
    exchange, while the undocumented "shimer" passes the check. *)
Theorem C4_shimmer_is_rejected :
  In "shimmer" documented_voices
  /\ tts_check_voice (Scenario.speech_req "shimmer" "mp3")
     = Some (errors_New InvalidArgument
               "Voice must be alloy, echo, fable, onyx, nova, or shimmer")
  /\ OpenAITextToSpeech Scenario.plain_env
       (Scenario.client "sk-1" Scenario.custom_http)
       (Some (Scenario.speech_req "shimmer" "mp3")) Scenario.world0
     = (Returned
          (None,
           Some (errors_New InvalidArgument
                   "Voice must be alloy, echo, fable, onyx, nova, or shimmer")),
        Scenario.world0)
  /\ ~ In "shimer" documented_voices
  /\ tts_check_voice (Scenario.speech_req "shimer" "mp3") = None.
Proof.
  split; [simpl; tauto |].
  split; [reflexivity |].
  split; [vm_compute; reflexivity |].
  split; [simpl; intuition discriminate | reflexivity].
Qed.

(** ** Totality *)

(** C3: the code at two inputs on which it panics.  Chat completion with
    [with_custom_reqbody] set and a nil custom request dereferences the nil
    pointer; the first-content projection on a response decoded without
    choices indexes an empty list. *)
Theorem C3_operations_can_panic :
  OpenAISendMessage Scenario.plain_env
    (Scenario.client "sk-1" Scenario.custom_http)
    None false None true None Scenario.world0
  = (Panicked nil_dereference, Scenario.world0)
  /\ Choices (Scenario.chat_resp None) = None
  /\ exists w',
       OpenAIGetFirstContentDataResp Scenario.plain_env
         (Scenario.client "sk-1" Scenario.custom_http)
         (Some Scenario.hello) false None false None Scenario.world0
       = (Panicked index_out_of_range, w').
Proof.
  split; [vm_compute; reflexivity |].
  split; [reflexivity |].
  eexists. vm_compute. reflexivity.
Qed.

(** ** The HTTP client of an exchange *)

(** C6: the code at a transcription through a client configured with its
    own HTTP client (30 s timeout).  The one exchange performed goes
    through a zero-valued [http.Client], which has no timeout, and not
    through the configured one. *)
Theorem C6_transcription_bypasses_configured_client :
  exists out ex,
    OpenAISpeechToTextDefault Scenario.plain_env
      (Scenario.client "sk-1" Scenario.custom_http)
      (Some Scenario.audio_req) Scenario.world0
    = (out, {| net_log := [ex]; heap := ∅ |})
    /\ httpClient (config (Scenario.client "sk-1" Scenario.custom_http))
       = Scenario.custom_http
    /\ ex_client ex = http_Client_zero
    /\ ex_client ex <> Scenario.custom_http
    /\ Timeout (ex_client ex) = 0%Z.
Proof.
  eexists _, _.
  split; [vm_compute; reflexivity |].
  split; [reflexivity |].
  split; [reflexivity |].
  split; [discriminate | reflexivity].
Qed.

(** ** Speech to text *)

(** C5.  In each of the four speech-to-text operations, when the exchange
    has returned a body (whatever the HTTP status, 200 included) that
    decodes to a response whose error object has a non-empty message, the
    operation returns a [ProviderError] carrying that message, and no
    result. *)
Theorem C5_in_band_error_is_ProviderError (E : Env) (c : openaiAPI)
    (w w' : World) (body : string) :
  (forall req r,
      sttBaseReq E true false false req (apiKey c) w
      = (Returned (Some body, None), w') ->
      Unmarshal_default E body = Some r ->
      stterr_Message (def_Error r) <> "" ->
      OpenAISpeechToTextDefault E c (Some req) w
      = (Returned (None, Some (errors_New ProviderError (stterr_Message (def_Error r)))),
         w'))
  /\ (forall req r,
         sttBaseReq E true true false req (apiKey c) w
         = (Returned (Some body, None), w') ->
         Unmarshal_word E body = Some r ->
         stterr_Message (wts_Error r) <> "" ->
         OpenAISpeechToTextWordTimestamps E c (Some req) w
         = (Returned (None, Some (errors_New ProviderError (stterr_Message (wts_Error r)))),
            w'))
  /\ (forall req r,
         sttBaseReq E true false true req (apiKey c) w
         = (Returned (Some body, None), w') ->
         Unmarshal_segment E body = Some r ->
         stterr_Message (sts_Error r) <> "" ->
         OpenAISpeechToTextSegmentTimestamps E c (Some req) w
         = (Returned (None, Some (errors_New ProviderError (stterr_Message (sts_Error r)))),
            w'))
  /\ (forall req r,
         sttBaseReq E false false false (translation_request req) (apiKey c) w
         = (Returned (Some body, None), w') ->
         Unmarshal_default E body = Some r ->
         stterr_Message (def_Error r) <> "" ->
         OpenAISpeechToTextTranslation E c (Some req) w
         = (Returned (None, Some (errors_New ProviderError (stterr_Message (def_Error r)))),
            w')).
Proof.
  repeat split; intros req r Hbase Hdecode Hmsg;
    [ unfold OpenAISpeechToTextDefault
    | unfold OpenAISpeechToTextWordTimestamps
    | unfold OpenAISpeechToTextSegmentTimestamps
    | unfold OpenAISpeechToTextTranslation ];
    run; rewrite Hbase; unfold stt_decode; simpl; run;
    rewrite Hdecode, (eqb_empty_false _ Hmsg); reflexivity.
Qed.

Lemma C5_in_band_error_witness :
  StatusCode (Scenario.response_ok Scenario.quota_body) = 200%Z
  /\ OpenAISpeechToTextDefault Scenario.quota_env
       (Scenario.client "sk-1" Scenario.custom_http)
       (Some Scenario.audio_req) Scenario.world0
     = (Returned (None, Some (errors_New ProviderError "You exceeded your current quota")),
        snd (sttBaseReq Scenario.quota_env true false false Scenario.audio_req
               "sk-1" Scenario.world0))
  /\ OpenAISpeechToTextTranslation Scenario.quota_env
       (Scenario.client "sk-1" Scenario.custom_http)
       (Some Scenario.translation_req) Scenario.world0
     = (Returned (None, Some (errors_New ProviderError "You exceeded your current quota")),
        snd (sttBaseReq Scenario.quota_env false false false
               (translation_request Scenario.translation_req)
               "sk-1" Scenario.world0)).
Proof.
  split; [reflexivity |].
  split.
  - refine (proj1 (C5_in_band_error_is_ProviderError Scenario.quota_env
                     (Scenario.client "sk-1" Scenario.custom_http)
                     Scenario.world0 _ Scenario.quota_body)
              Scenario.audio_req
              {| def_Text := ""; def_Error := Scenario.quota_error |} _ _ _).
    + vm_compute. reflexivity.
    + reflexivity.
    + discriminate.
  - refine (proj2 (proj2 (proj2
                     (C5_in_band_error_is_ProviderError Scenario.quota_env
                        (Scenario.client "sk-1" Scenario.custom_http)
                        Scenario.world0 _ Scenario.quota_body)))
              Scenario.translation_req
              {| def_Text := ""; def_Error := Scenario.quota_error |} _ _ _).
    + vm_compute. reflexivity.
    + reflexivity.
    + discriminate.
Defined.

(** The temperature test lets 0, the values of the interval from 0 to 1
    and NaN through, and rejects values outside the interval. *)
Example temperature_rejected_samples :
  temperature_rejected 0 = false
  /\ temperature_rejected 0.5 = false
  /\ temperature_rejected 1 = false
  /\ temperature_rejected PrimFloat.nan = false
  /\ temperature_rejected 1.5 = true
  /\ temperature_rejected (-0.5) = true.
Proof. repeat split; reflexivity. Qed.

(** C9.  For a request whose temperature passes the temperature test,
    whose file resolves to a name and a readable content, and whose
    extension is an accepted one, asking for word and segment timestamps
    together fails with [InvalidArgument]; nothing is returned as a body
    and the world is unchanged, so no form is sent and no exchange made. *)
Theorem C9_both_timestamps_rejected (E : Env) (isTranscription : bool)
    (req : OATranscriptionDefaultReq) (key : string) (w : World)
    (fileName : string) (fileContent : Reader) :
  temperature_rejected (stt_Temperature req) = false ->
  resolve_file E req = inr (fileName, fileContent) ->
  isValidExt (filepath_Ext fileName) = true ->
  sttBaseReq E isTranscription true true req key w
  = (Returned (None, Some both_timestamps_error), w).
Proof.
  intros Htemp Hfile Hext.
  unfold temperature_rejected in Htemp.
  unfold sttBaseReq.
  destruct (stt_File req) eqn:HF.
  - unfold resolve_file in Hfile. rewrite HF in Hfile. discriminate Hfile.
  - rewrite Htemp, Hfile, Hext. reflexivity.
  - rewrite Htemp, Hfile, Hext. reflexivity.
  - rewrite Htemp, Hfile, Hext. reflexivity.
  - rewrite Htemp, Hfile, Hext. reflexivity.
Qed.

Lemma C9_both_timestamps_witness :
  temperature_rejected (stt_Temperature Scenario.audio_req) = false
  /\ resolve_file Scenario.plain_env Scenario.audio_req
     = inr ("speech.wav", Scenario.reader_of "RIFF")
  /\ isValidExt (filepath_Ext "speech.wav") = true
  /\ sttBaseReq Scenario.plain_env true true true Scenario.audio_req "sk-1"
       Scenario.world0
     = (Returned (None, Some both_timestamps_error), Scenario.world0).
Proof.
  split; [reflexivity |].
  split; [reflexivity |].
  split; [reflexivity |].
  apply (C9_both_timestamps_rejected Scenario.plain_env true Scenario.audio_req
           "sk-1" Scenario.world0 "speech.wav" (Scenario.reader_of "RIFF"));
    reflexivity.
Defined.

(** ** Image generation: quality and style *)

Lemma dalle_check_N_in_range (r : OAReqImageGeneratorDallE) :
  (forall n, img_N r = Some n -> (1 <= n <= 10)%Z) -> dalle_check_N r = None.
Proof.
  intros Hn. unfold dalle_check_N.
  destruct (img_N r) as [n |]; [| reflexivity].
  specialize (Hn n eq_refl).
  destruct (Z.ltb_spec n 1), (Z.ltb_spec 10 n); simpl; try reflexivity; lia.
Qed.

(** When the model and the count pass their checks, the verdict of the
    quality and style checks is the error the operation returns, before the
    API key is looked at and before any exchange. *)
Lemma dalle_quality_style_error_returned (E : Env) (c : openaiAPI) (w : World)
    (r : OAReqImageGeneratorDallE) (e : error) :
  dalle_check_model r = None ->
  dalle_check_N r = None ->
  first_error dalle_quality_style_checks r = Some e ->
  OpenAICreateImageDallE E c (Some r) w = (Returned (None, Some e), w).
Proof.
  intros Hm Hn Hqs. unfold OpenAICreateImageDallE. run.
  unfold dalle_checks. rewrite first_error_app.
  cbn [first_error]. rewrite Hm, Hn.
  rewrite first_error_app, Hqs. reflexivity.
Qed.

Ltac unfold_quality_style_checks :=
  unfold dalle_quality_style_checks; cbn [first_error];
  unfold dalle_check_quality_model, dalle_check_quality_value,
    dalle_check_style_model, dalle_check_style_value.

Lemma dalle2_quality_style_rejected (r : OAReqImageGeneratorDallE) :
  img_Model r = "dall-e-2" ->
  img_Quality r <> None \/ img_Style r <> None ->
  exists e,
    first_error dalle_quality_style_checks r = Some e
    /\ err_class e = InvalidArgument.
Proof.
  intros HM Hset. unfold_quality_style_checks. rewrite HM.
  destruct (img_Quality r) as [q |]; simpl.
  - eexists. split; reflexivity.
  - destruct (img_Style r) as [s |]; simpl.
    + eexists. split; reflexivity.
    + destruct Hset as [H | H]; now contradiction H.
Qed.

Lemma dalle3_quality_style_accepted (r : OAReqImageGeneratorDallE) :
  img_Model r = "dall-e-3" ->
  In (img_Quality r) [None; Some "standard"; Some "hd"] ->
  In (img_Style r) [None; Some "vivid"; Some "natural"] ->
  first_error dalle_quality_style_checks r = None.
Proof.
  intros HM Hq Hs. unfold_quality_style_checks. rewrite HM.
  simpl in Hq, Hs.
  destruct Hq as [<- | [<- | [<- | []]]], Hs as [<- | [<- | [<- | []]]];
    reflexivity.
Qed.

Lemma dalle3_quality_style_rejected (r : OAReqImageGeneratorDallE) :
  img_Model r = "dall-e-3" ->
  (exists q, img_Quality r = Some q /\ q <> "standard" /\ q <> "hd")
  \/ (exists s, img_Style r = Some s /\ s <> "vivid" /\ s <> "natural") ->
  exists e,
    first_error dalle_quality_style_checks r = Some e
    /\ err_class e = InvalidArgument.
Proof.
  intros HM Hbad. unfold_quality_style_checks. rewrite HM. simpl.
  destruct (img_Quality r) as [q |].
  - destruct (negb (String.eqb q "standard") && negb (String.eqb q "hd")) eqn:Hq.
    + eexists. split; reflexivity.
    + destruct Hbad as [(q' & Hq' & Hn1 & Hn2) | (s & Hs & Hn1 & Hn2)].
      * injection Hq' as ->.
        rewrite (proj2 (String.eqb_neq _ _) Hn1),
          (proj2 (String.eqb_neq _ _) Hn2) in Hq.
        discriminate Hq.
      * rewrite Hs,
          (proj2 (String.eqb_neq _ _) Hn1), (proj2 (String.eqb_neq _ _) Hn2).
        eexists. split; reflexivity.
  - destruct Hbad as [(q' & Hq' & _) | (s & Hs & Hn1 & Hn2)]; [discriminate Hq' |].
    rewrite Hs,
      (proj2 (String.eqb_neq _ _) Hn1), (proj2 (String.eqb_neq _ _) Hn2).
    eexists. split; reflexivity.
Qed.

(** C8.  Quality and style validation of an image request.
    With model "dall-e-2", a non-nil quality or style is rejected with
    [InvalidArgument]; with model "dall-e-3", quality "standard" or "hd"
    and style "vivid" or "natural" (or absent) pass, and any other non-nil
    quality or style is rejected with [InvalidArgument].  A rejection is
    what the operation returns, with no exchange, when the count is absent
    or within 1..10 (the count is checked first). *)
Theorem C8_quality_style_validation (E : Env) (c : openaiAPI) (w : World)
    (r : OAReqImageGeneratorDallE) :
  (img_Model r = "dall-e-2" ->
   img_Quality r <> None \/ img_Style r <> None ->
   exists e,
     first_error dalle_quality_style_checks r = Some e
     /\ err_class e = InvalidArgument
     /\ ((forall n, img_N r = Some n -> (1 <= n <= 10)%Z) ->
         OpenAICreateImageDallE E c (Some r) w = (Returned (None, Some e), w)))
  /\ (img_Model r = "dall-e-3" ->
      In (img_Quality r) [None; Some "standard"; Some "hd"] ->
      In (img_Style r) [None; Some "vivid"; Some "natural"] ->
      first_error dalle_quality_style_checks r = None)
  /\ (img_Model r = "dall-e-3" ->
      (exists q, img_Quality r = Some q /\ q <> "standard" /\ q <> "hd")
      \/ (exists s, img_Style r = Some s /\ s <> "vivid" /\ s <> "natural") ->
      exists e,
        first_error dalle_quality_style_checks r = Some e
        /\ err_class e = InvalidArgument
        /\ ((forall n, img_N r = Some n -> (1 <= n <= 10)%Z) ->
            OpenAICreateImageDallE E c (Some r) w = (Returned (None, Some e), w))).
Proof.
  split; [| split].
  - intros HM Hset.
    destruct (dalle2_quality_style_rejected r HM Hset) as (e & He & Hclass).
    exists e. split; [exact He |]. split; [exact Hclass |].
    intros Hn. apply dalle_quality_style_error_returned;
      [unfold dalle_check_model; rewrite HM; reflexivity
      | now apply dalle_check_N_in_range | exact He].
  - apply dalle3_quality_style_accepted.
  - intros HM Hbad.
    destruct (dalle3_quality_style_rejected r HM Hbad) as (e & He & Hclass).
    exists e. split; [exact He |]. split; [exact Hclass |].
    intros Hn. apply dalle_quality_style_error_returned;
      [unfold dalle_check_model; rewrite HM; reflexivity
      | now apply dalle_check_N_in_range | exact He].
Qed.

Lemma C8_quality_style_witness :
  (exists e,
      first_error dalle_quality_style_checks
        (Scenario.image_req "dall-e-2" None (Some "hd") None) = Some e
      /\ err_class e = InvalidArgument
      /\ OpenAICreateImageDallE Scenario.plain_env
           (Scenario.client "sk-1" Scenario.custom_http)
           (Some (Scenario.image_req "dall-e-2" None (Some "hd") None))
           Scenario.world0
         = (Returned (None, Some e), Scenario.world0))
  /\ first_error dalle_quality_style_checks
       (Scenario.image_req "dall-e-3" None (Some "hd") (Some "vivid")) = None
  /\ (exists e,
         first_error dalle_quality_style_checks
           (Scenario.image_req "dall-e-3" None (Some "ultra") None) = Some e
         /\ err_class e = InvalidArgument).
Proof.
  split; [| split].
  - destruct (proj1 (C8_quality_style_validation Scenario.plain_env
                       (Scenario.client "sk-1" Scenario.custom_http)
                       Scenario.world0
                       (Scenario.image_req "dall-e-2" None (Some "hd") None)))
      as (e & He & Hclass & Hop); [reflexivity | left; discriminate |].
    exists e. split; [exact He |]. split; [exact Hclass |].
    apply Hop. intros n Hn. discriminate Hn.
  - apply (proj1 (proj2 (C8_quality_style_validation Scenario.plain_env
                           (Scenario.client "sk-1" Scenario.custom_http)
                           Scenario.world0
                           (Scenario.image_req "dall-e-3" None (Some "hd")
                              (Some "vivid"))))).
    + reflexivity.
    + simpl. tauto.
    + simpl. tauto.
  - destruct (proj2 (proj2 (C8_quality_style_validation Scenario.plain_env
                              (Scenario.client "sk-1" Scenario.custom_http)
                              Scenario.world0
                              (Scenario.image_req "dall-e-3" None (Some "ultra")
                                 None)))
                eq_refl)
      as (e & He & Hclass & _).
    + left. exists "ultra". repeat split; discriminate.
    + exists e. split; assumption.
Defined.

(** ** Chat completion: the response format *)

Lemma marshal_envelope (name : string) (schema : gomap) (js : json) :
  json_Marshal (VMap schema) = Some js ->
  json_Marshal (VMap (OACreateResponseFormat name schema))
  = Some (envelope_json (coerce_utf8 name) js).
Proof.
  intros Hs. unfold OACreateResponseFormat.
  rewrite json_Marshal_map. cbn [marshal_members].
  rewrite json_Marshal_map. cbn [marshal_members].
  rewrite Hs. reflexivity.
Qed.

Lemma marshal_content_request (c : openaiAPI) (content : option (slice OAMessageReq))
    (name : string) (schema : gomap) (jm js : json) :
  json_Marshal (content_val content) = Some jm ->
  json_Marshal (VMap schema) = Some js ->
  json_Marshal
    (OAReqBodyMessageCompletion_val
       (with_ResponseFormat (content_request c content)
          (OACreateResponseFormat name schema)))
  = Some (JObject [("messages", jm);
                   ("model", JString (coerce_utf8 (openAIModel (config c))));
                   ("response_format", envelope_json (coerce_utf8 name) js)]).
Proof.
  intros Hm Hs.
  unfold OAReqBodyMessageCompletion_val. rewrite json_Marshal_struct.
  change (PrimFloat.eqb
            (FrequencyPenalty
               (with_ResponseFormat (content_request c content)
                  (OACreateResponseFormat name schema))) 0)
    with true.
  cbn [with_ResponseFormat content_request Messages Model Store Metadata
         LogitBias Logprobe Modalities ResponseFormat omitempty negb
         is_nil_iface len_zero OACreateResponseFormat app marshal_members].
  fold (OACreateResponseFormat name schema).
  rewrite Hm, (marshal_envelope name schema js Hs). reflexivity.
Qed.

(** C7.  On the content path with a format attached, for an envelope made
    by [OACreateResponseFormat] from any name and any schema that
    [json.Marshal] can encode, the request sent carries a JSON body whose
    "response_format" member is the encoding of that envelope:
    type "json_schema" and, under "json_schema", the name and the schema.
    The name is written as [json.Marshal] writes every string, coerced to
    valid UTF-8; a name that is valid UTF-8 is in the body as it was
    given. *)
Theorem C7_response_format_round_trip (E : Env) (c : openaiAPI) (w : World)
    (content : slice OAMessageReq) (custom : option loc)
    (name : string) (schema : gomap) (jm js : json) :
  apiKey c <> "" ->
  url_Parse_ok E (openAIBaseUrl (config c)) = true ->
  json_Marshal (content_val (Some content)) = Some jm ->
  json_Marshal (VMap schema) = Some js ->
  exists out ex body,
    OpenAISendMessage E c (Some content) true
      (Some (OACreateResponseFormat name schema)) false custom w
    = (out, {| net_log := ex :: net_log w; heap := heap w |})
    /\ ReqBody (ex_request ex) = JSONBody body
    /\ json_field "response_format" body
       = json_Marshal (VMap (OACreateResponseFormat name schema))
    /\ json_field "response_format" body
       = Some (envelope_json (coerce_utf8 name) js)
    /\ (utf8_ValidString name = true ->
        json_field "response_format" body = Some (envelope_json name js)).
Proof.
  intros Hkey Hurl Hm Hs.
  pose proof (marshal_content_request c (Some content) name schema jm js Hm Hs)
    as Hbody.
  unfold content_request in Hbody.
  unfold OpenAISendMessage.
  rewrite (eqb_empty_false _ Hkey).
  cbn [andb is_nil negb]. run.
  rewrite Hbody. unfold http_NewRequest. rewrite Hurl.
  unfold client_Do. cbn beta iota zeta.
  destruct (RoundTrip E _ _) as [resp | err];
    [destruct (negb (StatusCode resp =? http_StatusOK)%Z);
     [| destruct (Decode_chat E (RespBody resp))] |];
    (eexists _, _, _;
     split; [reflexivity |];
     split; [reflexivity |];
     split; [rewrite (marshal_envelope name schema js Hs); reflexivity |];
     split; [reflexivity |];
     intros Hname; rewrite <- (utf8_ValidString_coerce name Hname) at 2;
     reflexivity).
Qed.

Lemma C7_response_format_witness :
  apiKey (Scenario.client "sk-1" Scenario.custom_http) <> ""
  /\ json_Marshal (VMap (Some [("type", VString "object")]))
     = Some (JObject [("type", JString "object")])
  /\ (exists out ex body,
       OpenAISendMessage Scenario.plain_env
         (Scenario.client "sk-1" Scenario.custom_http) (Some Scenario.hello) true
         (Some (OACreateResponseFormat "MySchema"
                  (Some [("type", VString "object")])))
         false None Scenario.world0
       = (out, {| net_log := [ex]; heap := ∅ |})
       /\ ReqBody (ex_request ex) = JSONBody body
       /\ json_field "response_format" body
          = Some (envelope_json "MySchema" (JObject [("type", JString "object")])))
  /\ exists out ex body,
       OpenAISendMessage Scenario.plain_env
         (Scenario.client "sk-1" Scenario.custom_http) (Some Scenario.hello) true
         (Some (OACreateResponseFormat (String (ascii_of_N 255) "")
                  (Some [("type", VString "object")])))
         false None Scenario.world0
       = (out, {| net_log := [ex]; heap := ∅ |})
       /\ ReqBody (ex_request ex) = JSONBody body
       /\ json_field "response_format" body
          = Some (envelope_json RuneError (JObject [("type", JString "object")])).
Proof.
  split; [discriminate |].
  split; [reflexivity |].
  split.
  - destruct (C7_response_format_round_trip Scenario.plain_env
                (Scenario.client "sk-1" Scenario.custom_http) Scenario.world0
                Scenario.hello None "MySchema" (Some [("type", VString "object")])
                (JArray [JObject [("role", JString "user");
                                  ("content", JString "Hello")]])
                (JObject [("type", JString "object")]))
      as (out & ex & body & Hrun & Hbody & _ & Hfield & _);
      [discriminate | reflexivity | reflexivity | reflexivity |].
    exists out, ex, body. split; [exact Hrun |]. split; [exact Hbody | exact Hfield].
  - destruct (C7_response_format_round_trip Scenario.plain_env
                (Scenario.client "sk-1" Scenario.custom_http) Scenario.world0
                Scenario.hello None (String (ascii_of_N 255) "")
                (Some [("type", VString "object")])
                (JArray [JObject [("role", JString "user");
                                  ("content", JString "Hello")]])
                (JObject [("type", JString "object")]))
      as (out & ex & body & Hrun & Hbody & _ & Hfield & _);
      [discriminate | reflexivity | reflexivity | reflexivity |].
    exists out, ex, body. split; [exact Hrun |]. split; [exact Hbody | exact Hfield].
Defined.

(** ** Chat completion: the caller's custom request *)

Lemma is_nil_iface_false (v : goval) : v <> VNil -> is_nil_iface v = false.
Proof. destruct v; intros H; try reflexivity. now contradiction H. Qed.

(** C10.  With [with_custom_reqbody] and [with_format_response] both set,
    once the call is past its argument checks (a non-empty key, a format
    supplied, a custom request with messages), the operation returns, and
    the caller's struct holds the supplied format in [ResponseFormat] with
    every other field as it was; every other struct of the heap is
    untouched.  This holds whatever the call returns, a result or an
    error; a request, if one is sent, carries the encoding of the struct
    after the write. *)
Theorem C10_custom_request_is_overwritten (E : Env) (c : openaiAPI) (w : World)
    (content : option (slice OAMessageReq)) (fmt : gomap)
    (l : loc) (s : OAReqBodyMessageCompletion) :
  apiKey c <> "" ->
  heap w !! l = Some s ->
  Messages s <> VNil ->
  exists (r : Ret OAChatCompletionResp) (w' : World) (s' : OAReqBodyMessageCompletion),
    OpenAISendMessage E c content true (Some fmt) true (Some l) w = (Returned r, w')
    /\ exactly_one r
    /\ heap w' !! l = Some s'
    /\ ResponseFormat s' = fmt
    /\ (Messages s' = Messages s /\ Model s' = Model s /\ Store s' = Store s
        /\ Metadata s' = Metadata s /\ FrequencyPenalty s' = FrequencyPenalty s
        /\ LogitBias s' = LogitBias s /\ Logprobe s' = Logprobe s
        /\ Modalities s' = Modalities s)
    /\ (forall l', l' <> l -> heap w' !! l' = heap w !! l')
    /\ (net_log w' = net_log w
        \/ exists ex j,
             net_log w' = ex :: net_log w
             /\ ReqBody (ex_request ex) = JSONBody j
             /\ json_Marshal (OAReqBodyMessageCompletion_val s') = Some j).
Proof.
  intros Hkey Hheap Hmsg.
  unfold OpenAISendMessage.
  rewrite (eqb_empty_false _ Hkey).
  cbn [andb is_nil negb]. run.
  unfold load at 1. rewrite Hheap.
  rewrite (is_nil_iface_false _ Hmsg).
  unfold store_ResponseFormat. rewrite Hheap.
  unfold load. cbn [heap]. rewrite lookup_insert_eq.
  change (json_Marshal
            (VPtr (Some (OAReqBodyMessageCompletion_val (with_ResponseFormat s fmt)))))
    with (json_Marshal (OAReqBodyMessageCompletion_val (with_ResponseFormat s fmt))).
  assert (Hframe : forall l', l' <> l ->
             <[l := with_ResponseFormat s fmt]> (heap w) !! l' = heap w !! l').
  { intros l' Hne. now apply lookup_insert_ne. }
  destruct (json_Marshal (OAReqBodyMessageCompletion_val (with_ResponseFormat s fmt)))
    as [j |] eqn:Hj.
  - unfold http_NewRequest.
    destruct (url_Parse_ok E (openAIBaseUrl (config c))).
    + unfold client_Do. cbn beta iota zeta.
      destruct (RoundTrip E _ _) as [resp | err];
        [destruct (negb (StatusCode resp =? http_StatusOK)%Z);
         [| destruct (Decode_chat E (RespBody resp))] |];
        (eexists _, _, (with_ResponseFormat s fmt);
         split; [reflexivity |];
         split; [first [left; split; [eexists |]; reflexivity
                       | right; split; [| eexists]; reflexivity] |];
         split; [apply lookup_insert_eq |];
         split; [reflexivity |];
         split; [repeat split |];
         split; [exact Hframe |];
         right; eexists _, j; repeat split; exact Hj).
    + eexists _, _, (with_ResponseFormat s fmt).
      split; [reflexivity |].
      split; [right; split; [| eexists]; reflexivity |].
      split; [apply lookup_insert_eq |].
      split; [reflexivity |].
      split; [repeat split |].
      split; [exact Hframe | now left].
  - eexists _, _, (with_ResponseFormat s fmt).
    split; [reflexivity |].
    split; [right; split; [| eexists]; reflexivity |].
    split; [apply lookup_insert_eq |].
    split; [reflexivity |].
    split; [repeat split |].
    split; [exact Hframe | now left].
Qed.

Lemma C10_custom_request_witness :
  apiKey (Scenario.client "sk-1" Scenario.custom_http) <> ""
  /\ heap Scenario.world_custom !! 0%nat = Some Scenario.custom_req
  /\ Messages Scenario.custom_req <> VNil
  /\ ResponseFormat Scenario.custom_req = Some [("type", VString "text")]
  /\ exists r w' s',
       OpenAISendMessage Scenario.plain_env
         (Scenario.client "sk-1" Scenario.custom_http) None true
         (Some (OACreateResponseFormat "MySchema" None)) true (Some 0%nat)
         Scenario.world_custom
       = (Returned r, w')
       /\ heap w' !! 0%nat = Some s'
       /\ ResponseFormat s' = OACreateResponseFormat "MySchema" None
       /\ Model s' = "gpt-4o".
Proof.
  split; [discriminate |].
  split; [reflexivity |].
  split; [discriminate |].
  split; [reflexivity |].
  destruct (C10_custom_request_is_overwritten Scenario.plain_env
              (Scenario.client "sk-1" Scenario.custom_http) Scenario.world_custom
              None (OACreateResponseFormat "MySchema" None) 0%nat
              Scenario.custom_req)
    as (r & w' & s' & Hrun & _ & Hs' & Hfmt & (_ & Hmodel & _) & _);
    [discriminate | reflexivity | discriminate |].
  exists r, w', s'. repeat split; assumption.
Defined.

(** ** Which client performs the exchanges *)

Section ExchangesVia.

Variable E : Env.
Variable cl : http_Client.

Lemma log_extended_via_refl (w : World) : log_extended_via cl w w.
Proof. exists []. split; [reflexivity | constructor]. Qed.

Lemma log_extended_via_trans (w1 w2 w3 : World) :
  log_extended_via cl w1 w2 -> log_extended_via cl w2 w3 ->
  log_extended_via cl w1 w3.
Proof.
  intros (n1 & H1 & F1) (n2 & H2 & F2).
  exists (n2 ++ n1)%list. split.
  - rewrite H2, H1. now rewrite app_assoc.
  - apply Forall_app. now split.
Qed.

Lemma exchanges_via_ret {A : Type} (a : A) : exchanges_via cl (mret a).
Proof. intros w out w' H. injection H as <- <-. apply log_extended_via_refl. Qed.

Lemma exchanges_via_fail {T : Type} (k : ErrClass) (msg : string) :
  exchanges_via cl (@fail T k msg).
Proof. apply exchanges_via_ret. Qed.

Lemma exchanges_via_panic {A : Type} (msg : string) : exchanges_via cl (@panic A msg).
Proof. intros w out w' H. injection H as <- <-. apply log_extended_via_refl. Qed.

Lemma exchanges_via_deref {A : Type} (p : option A) : exchanges_via cl (deref p).
Proof. destruct p; [apply exchanges_via_ret | apply exchanges_via_panic]. Qed.

Lemma exchanges_via_load (p : option loc) : exchanges_via cl (load p).
Proof.
  intros w out w' H. unfold load in H.
  destruct p as [l |]; [destruct (heap w !! l) |];
    injection H as <- <-; apply log_extended_via_refl.
Qed.

Lemma exchanges_via_store (p : option loc) (fmt : gomap) :
  exchanges_via cl (store_ResponseFormat p fmt).
Proof.
  intros w out w' H. unfold store_ResponseFormat in H.
  destruct p as [l |]; [destruct (heap w !! l) |];
    injection H as <- <-; exists []; (split; [reflexivity | constructor]).
Qed.

Lemma exchanges_via_client_Do (req : http_Request) :
  exchanges_via cl (client_Do E cl req).
Proof.
  intros w out w' H. unfold client_Do in H. injection H as <- <-.
  eexists [_]. split; [reflexivity |]. repeat constructor.
Qed.

Lemma exchanges_via_bind {A B : Type} (m : M A) (f : A -> M B) :
  exchanges_via cl m -> (forall a, exchanges_via cl (f a)) ->
  exchanges_via cl (m ≫= f).
Proof.
  intros Hm Hf w out w' H. unfold mbind, M_bind in H.
  destruct (m w) as [[a | msg] w1] eqn:Hrun.
  - eapply log_extended_via_trans; [eapply Hm | eapply Hf]; eassumption.
  - injection H as <- <-. eapply Hm; eassumption.
Qed.

End ExchangesVia.

Ltac via_steps :=
  repeat first
    [ apply exchanges_via_ret
    | apply exchanges_via_fail
    | apply exchanges_via_panic
    | apply exchanges_via_deref
    | apply exchanges_via_load
    | apply exchanges_via_store
    | apply exchanges_via_client_Do
    | apply exchanges_via_bind; [| intros ?]
    | match goal with
      | |- exchanges_via _ (match ?x with _ => _ end) => destruct x
      | |- exchanges_via _ (let _ := _ in _) => cbv zeta
      end ].

(** Chat completion, image generation and text to speech perform their
    exchanges through the HTTP client of the configuration. *)
Lemma json_operations_use_configured_client (E : Env) (c : openaiAPI) :
  (forall content wfr fr wcr custom,
      exchanges_via (httpClient (config c))
        (OpenAISendMessage E c content wfr fr wcr custom))
  /\ (forall content wfr fr wcr custom,
         exchanges_via (httpClient (config c))
           (OpenAIGetFirstContentDataResp E c content wfr fr wcr custom))
  /\ (forall req_body,
         exchanges_via (httpClient (config c)) (OpenAICreateImageDallE E c req_body))
  /\ (forall req_body,
         exchanges_via (httpClient (config c)) (OpenAITextToSpeech E c req_body)).
Proof.
  assert (Hsend : forall content wfr fr wcr custom,
             exchanges_via (httpClient (config c))
               (OpenAISendMessage E c content wfr fr wcr custom)).
  { intros. unfold OpenAISendMessage. via_steps. }
  repeat split; intros.
  - apply Hsend.
  - unfold OpenAIGetFirstContentDataResp.
    apply exchanges_via_bind; [apply Hsend | intros ?]. via_steps.
  - unfold OpenAICreateImageDallE. via_steps.
  - unfold OpenAITextToSpeech. via_steps.
Qed.

(** The speech-to-text operations perform theirs through a zero-valued
    client, whatever the configuration holds. *)
Lemma stt_operations_use_zero_client (E : Env) (c : openaiAPI) :
  (forall a b d req key, exchanges_via http_Client_zero (sttBaseReq E a b d req key))
  /\ (forall req_body,
         exchanges_via http_Client_zero (OpenAISpeechToTextDefault E c req_body))
  /\ (forall req_body,
         exchanges_via http_Client_zero (OpenAISpeechToTextWordTimestamps E c req_body))
  /\ (forall req_body,
         exchanges_via http_Client_zero (OpenAISpeechToTextSegmentTimestamps E c req_body))
  /\ (forall req_body,
         exchanges_via http_Client_zero (OpenAISpeechToTextTranslation E c req_body)).
Proof.
  assert (Hbase : forall a b d req key,
             exchanges_via http_Client_zero (sttBaseReq E a b d req key)).
  { intros. unfold sttBaseReq. via_steps. }
  assert (Hdecode : forall T (u : string -> option T) (err : T -> OASTTError) r,
             exchanges_via http_Client_zero (stt_decode u err r)).
  { intros. unfold stt_decode. via_steps. }
  repeat split; intros;
    [ apply Hbase
    | unfold OpenAISpeechToTextDefault
    | unfold OpenAISpeechToTextWordTimestamps
    | unfold OpenAISpeechToTextSegmentTimestamps
    | unfold OpenAISpeechToTextTranslation ];
    cbv zeta;
    (apply exchanges_via_bind; [apply exchanges_via_deref | intros ?]);
    (apply exchanges_via_bind; [apply Hbase | intros ?]);
    apply Hdecode.
Qed.

(** ** The shape of what is returned *)

Ltac run_in H :=
  unfold fail, deref, panic, load, store_ResponseFormat, client_Do,
    http_NewRequest, stt_decode in H;
  unfold mbind, M_bind, mret, M_ret in H; cbn beta iota zeta in H.

Ltac split_run H :=
  repeat (cbn beta iota zeta in H;
          match type of H with
          | context [match ?x with _ => _ end] => destruct x eqn:?
          end).

Ltac close_exactly_one H :=
  try discriminate H;
  injection H as <- <-;
  first [ left; split; [eexists |]; reflexivity
        | right; split; [| eexists]; reflexivity ].

Lemma sttBaseReq_returns_exactly_one (E : Env) (a b d : bool)
    (req : OATranscriptionDefaultReq) (key : string) :
  returns_exactly_one (sttBaseReq E a b d req key).
Proof.
  intros w r w' H. unfold sttBaseReq in H. run_in H.
  split_run H; close_exactly_one H.
Qed.

Lemma stt_decode_returns_exactly_one {T : Type} (u : string -> option T)
    (err : T -> OASTTError) (r : Ret string) :
  returns_exactly_one (stt_decode u err r).
Proof.
  intros w r' w' H. run_in H.
  split_run H; close_exactly_one H.
Qed.

(** X25.  Every operation that returns, returns exactly one of a result
    and an error: never both, never neither.  (That an operation returns
    at all is another matter: two of them can panic.) *)
Lemma operations_return_exactly_one (E : Env) (c : openaiAPI) :
  (forall content wfr fr wcr custom,
      returns_exactly_one (OpenAISendMessage E c content wfr fr wcr custom))
  /\ (forall content wfr fr wcr custom,
         returns_exactly_one
           (OpenAIGetFirstContentDataResp E c content wfr fr wcr custom))
  /\ (forall req_body, returns_exactly_one (OpenAICreateImageDallE E c req_body))
  /\ (forall req_body, returns_exactly_one (OpenAITextToSpeech E c req_body))
  /\ (forall req_body, returns_exactly_one (OpenAISpeechToTextDefault E c req_body))
  /\ (forall req_body,
         returns_exactly_one (OpenAISpeechToTextWordTimestamps E c req_body))
  /\ (forall req_body,
         returns_exactly_one (OpenAISpeechToTextSegmentTimestamps E c req_body))
  /\ (forall req_body,
         returns_exactly_one (OpenAISpeechToTextTranslation E c req_body)).
Proof.
  repeat split; intros; intros w r w' H.
  - unfold OpenAISendMessage in H. run_in H. split_run H; close_exactly_one H.
  - unfold OpenAIGetFirstContentDataResp in H.
    unfold mbind at 1, M_bind at 1 in H.
    destruct (OpenAISendMessage E c content wfr fr wcr custom w)
      as [[r0 | msg] w0]; [| discriminate H].
    run_in H. split_run H; close_exactly_one H.
  - unfold OpenAICreateImageDallE in H. run_in H. split_run H; close_exactly_one H.
  - unfold OpenAITextToSpeech in H. run_in H. split_run H; close_exactly_one H.
  - unfold OpenAISpeechToTextDefault in H. cbv zeta in H.
    destruct req_body as [req |]; [| discriminate H].
    unfold deref, mbind, M_bind, mret, M_ret in H. cbn beta iota in H.
    destruct (sttBaseReq E true false false req (apiKey c) w)
      as [[r0 | msg] w0]; [| discriminate H].
    exact (stt_decode_returns_exactly_one _ _ _ _ _ _ H).
  - unfold OpenAISpeechToTextWordTimestamps in H. cbv zeta in H.
    destruct req_body as [req |]; [| discriminate H].
    unfold deref, mbind, M_bind, mret, M_ret in H. cbn beta iota in H.
    destruct (sttBaseReq E true true false req (apiKey c) w)
      as [[r0 | msg] w0]; [| discriminate H].
    exact (stt_decode_returns_exactly_one _ _ _ _ _ _ H).
  - unfold OpenAISpeechToTextSegmentTimestamps in H. cbv zeta in H.
    destruct req_body as [req |]; [| discriminate H].
    unfold deref, mbind, M_bind, mret, M_ret in H. cbn beta iota in H.
    destruct (sttBaseReq E true false true req (apiKey c) w)
      as [[r0 | msg] w0]; [| discriminate H].
    exact (stt_decode_returns_exactly_one _ _ _ _ _ _ H).
  - unfold OpenAISpeechToTextTranslation in H. cbv zeta in H.
    destruct req_body as [req |]; [| discriminate H].
    unfold deref, mbind, M_bind, mret, M_ret in H. cbn beta iota in H.
    destruct (sttBaseReq E false false false (translation_request req) (apiKey c) w)
      as [[r0 | msg] w0]; [| discriminate H].
    exact (stt_decode_returns_exactly_one _ _ _ _ _ _ H).
Qed.

Lemma operations_return_exactly_one_witness :
  exactly_one (Some (Scenario.chat_resp None), @None error).
Proof.
  apply (proj1 (operations_return_exactly_one Scenario.plain_env
                  (Scenario.client "sk-1" Scenario.custom_http))
           (Some Scenario.hello) false None false None Scenario.world0 _
           (snd (OpenAISendMessage Scenario.plain_env
                   (Scenario.client "sk-1" Scenario.custom_http)
                   (Some Scenario.hello) false None false None Scenario.world0))).
  vm_compute. reflexivity.
Defined.

(** ** The transport of the speech-to-text operations *)

(** [sttBaseReq] never looks at the status of the response: for a request
    that passes its checks and a readable file, the body of whatever
    response the network gives is what it returns. *)
Lemma sttBaseReq_returns_body_whatever_status (E : Env)
    (isTranscription word segment : bool) (req : OATranscriptionDefaultReq)
    (key : string) (w : World) (fileName : string) (fileContent : Reader)
    (resp : http_Response) :
  temperature_rejected (stt_Temperature req) = false ->
  resolve_file E req = inr (fileName, fileContent) ->
  isValidExt (filepath_Ext fileName) = true ->
  word && segment = false ->
  rd_err fileContent = None ->
  (forall url, url_Parse_ok E url = true) ->
  (forall rq, RoundTrip E http_Client_zero rq = Success resp) ->
  rd_err (RespBody resp) = None ->
  exists w',
    sttBaseReq E isTranscription word segment req key w
    = (Returned (Some (rd_bytes (RespBody resp)), None), w').
Proof.
  intros Htemp Hfile Hext Hflags Hread Hurl Hnet Hbody.
  unfold temperature_rejected in Htemp.
  unfold sttBaseReq.
  assert (Hcopy : io_ReadAll fileContent = Success (rd_bytes fileContent))
    by (unfold io_ReadAll; now rewrite Hread).
  assert (Hresp : io_ReadAll (RespBody resp) = Success (rd_bytes (RespBody resp)))
    by (unfold io_ReadAll; now rewrite Hbody).
  destruct (stt_File req) eqn:HF;
    [unfold resolve_file in Hfile; rewrite HF in Hfile; discriminate Hfile | ..];
    rewrite Htemp, Hfile, Hext, Hflags, Hcopy;
    destruct word, segment; try discriminate Hflags;
    cbn [negb andb orb]; run;
    cbn [treq_TimestampGranularities negb andb orb]; cbn beta iota zeta;
    unfold http_NewRequest; rewrite Hurl;
    unfold client_Do; cbn beta iota zeta;
    rewrite Hnet, Hresp; eexists; reflexivity.
Qed.

(** ** Building a client *)

Ltac unfold_run :=
  unfold fail, deref, panic, load, store_ResponseFormat, client_Do,
    http_NewRequest, stt_decode;
  unfold mbind, M_bind, mret, M_ret; cbn beta iota zeta; cbn [fst snd].

Ltac split_goal :=
  repeat (cbn beta iota zeta; cbn [fst snd];
          match goal with
          | |- context [match ?x with _ => _ end] =>
              lazymatch x with
              | context [match _ with _ => _ end] => fail
              | _ => destruct x eqn:?
              end
          end).

Ltac unfold_dalle_checks :=
  unfold dalle_checks, dalle_quality_style_checks; cbn [first_error app];
  unfold dalle_check_model, dalle_check_N, dalle_check_quality_model,
    dalle_check_quality_value, dalle_check_style_model, dalle_check_style_value,
    dalle_check_response_format.

Ltac unfold_tts_checks :=
  unfold tts_checks; cbn [first_error];
  unfold tts_check_model, tts_check_input, tts_check_voice,
    tts_check_response_format, tts_check_speed.

Lemma New_succeeds (key org project : string) (opts : list ClientOption) :
  key <> "" ->
  New key org project opts
  = ret_ok {| apiKey := key; openaiOrganization := org; openaiProject := project;
              config := fold_left (fun cfg opt => opt cfg) opts DefaultConfig |}.
Proof. intros H. unfold New. now rewrite (eqb_empty_false _ H). Qed.

Lemma New_some_key (key org project : string) (opts : list ClientOption)
    (c : openaiAPI) :
  New key org project opts = (Some c, None) -> key <> "" /\ apiKey c = key.
Proof.
  unfold New. destruct (String.eqb_spec key "") as [-> | Hne]; intros H.
  - discriminate H.
  - injection H as <-. now split.
Qed.

(** With a non-empty key, the four operations that test the key never
    return the error of that test. *)
Lemma keyed_client_no_key_error (E : Env) (c : openaiAPI) :
  apiKey c <> "" ->
  (forall content wfr fr wcr custom w r e w',
      OpenAISendMessage E c content wfr fr wcr custom w = (Returned (r, Some e), w') ->
      err_msg e <> "API Key is empty")
  /\ (forall content wfr fr wcr custom w r e w',
         OpenAIGetFirstContentDataResp E c content wfr fr wcr custom w
         = (Returned (r, Some e), w') ->
         err_msg e <> "API Key is empty")
  /\ (forall req_body w r e w',
         OpenAICreateImageDallE E c req_body w = (Returned (r, Some e), w') ->
         err_msg e <> "API Key is empty")
  /\ (forall req_body w r e w',
         OpenAITextToSpeech E c req_body w = (Returned (r, Some e), w') ->
         err_msg e <> "API Key is empty").
Proof.
  intros Hkey. apply eqb_empty_false in Hkey.
  assert (Hsend : forall content wfr fr wcr custom w r e w',
             OpenAISendMessage E c content wfr fr wcr custom w
             = (Returned (r, Some e), w') ->
             err_msg e <> "API Key is empty").
  { intros *. unfold OpenAISendMessage. rewrite Hkey. unfold_run.
    split_goal; intros H; try discriminate H;
      injection H as <- <- <-; intros Hm; simpl in Hm; discriminate Hm. }
  repeat split.
  - exact Hsend.
  - intros *. unfold OpenAIGetFirstContentDataResp.
    unfold mbind at 1, M_bind at 1.
    destruct (OpenAISendMessage E c content wfr fr wcr custom w)
      as [[[r0 [e0 |]] | msg] w0] eqn:Hrun; unfold_run.
    + intros H. injection H as <- <- <-. exact (Hsend _ _ _ _ _ _ _ _ _ Hrun).
    + split_goal; intros H; discriminate H.
    + intros H. discriminate H.
  - intros *. unfold OpenAICreateImageDallE. rewrite Hkey.
    unfold_dalle_checks. unfold_run.
    split_goal; intros H; try discriminate H;
      injection H as <- <- <-; intros Hm; simpl in Hm; discriminate Hm.
  - intros *. unfold OpenAITextToSpeech. rewrite Hkey.
    unfold_tts_checks. unfold_run.
    split_goal; intros H; try discriminate H;
      injection H as <- <- <-; intros Hm; simpl in Hm; discriminate Hm.
Qed.

(** X1.  [New] returns a client only for a non-empty key, and the client
    carries that key; so for a client obtained from [New], chat completion,
    the first-content projection, image generation and text to speech never
    return the error "API Key is empty". *)
Theorem X1_client_of_New_has_key (E : Env) (key org project : string)
    (opts : list ClientOption) (c : openaiAPI) :
  New key org project opts = (Some c, None) ->
  key <> "" /\ apiKey c = key
  /\ (forall content wfr fr wcr custom w r e w',
         OpenAISendMessage E c content wfr fr wcr custom w = (Returned (r, Some e), w') ->
         err_msg e <> "API Key is empty")
  /\ (forall content wfr fr wcr custom w r e w',
         OpenAIGetFirstContentDataResp E c content wfr fr wcr custom w
         = (Returned (r, Some e), w') ->
         err_msg e <> "API Key is empty")
  /\ (forall req_body w r e w',
         OpenAICreateImageDallE E c req_body w = (Returned (r, Some e), w') ->
         err_msg e <> "API Key is empty")
  /\ (forall req_body w r e w',
         OpenAITextToSpeech E c req_body w = (Returned (r, Some e), w') ->
         err_msg e <> "API Key is empty").
Proof.
  intros H. destruct (New_some_key _ _ _ _ _ H) as [Hne Hkey].
  split; [exact Hne |]. split; [exact Hkey |].
  apply keyed_client_no_key_error. now rewrite Hkey.
Qed.

Lemma X1_client_of_New_witness :
  New "sk-1" "" "" [WithHTTPClient Scenario.custom_http]
  = (Some (Scenario.client "sk-1" Scenario.custom_http), None)
  /\ apiKey (Scenario.client "sk-1" Scenario.custom_http) = "sk-1"
  /\ (forall r e w',
         OpenAITextToSpeech Scenario.plain_env
           (Scenario.client "sk-1" Scenario.custom_http)
           (Some (Scenario.speech_req "shimmer" "mp3")) Scenario.world0
         = (Returned (r, Some e), w') ->
         err_msg e <> "API Key is empty").
Proof.
  split; [reflexivity |].
  destruct (X1_client_of_New_has_key Scenario.plain_env "sk-1" "" ""
              [WithHTTPClient Scenario.custom_http]
              (Scenario.client "sk-1" Scenario.custom_http) eq_refl)
    as (_ & Hkey & _ & _ & _ & Htts).
  split; [exact Hkey |].
  intros r e w'. apply Htts.
Defined.

(** X2.  Options apply in order and each sets one field of the
    configuration: appended to any list of options, [WithModel],
    [WithBaseUrl] and [WithHTTPClient] fix the model, the base URL and
    the HTTP client of the client [New] returns, and leave the two other
    fields as the preceding options made them. *)
Theorem X2_options_apply_in_order (key org project : string)
    (opts : list ClientOption) (c : openaiAPI) :
  New key org project opts = (Some c, None) ->
  (forall model, exists c',
      New key org project (opts ++ [WithModel model]) = (Some c', None)
      /\ openAIModel (config c') = model
      /\ openAIBaseUrl (config c') = openAIBaseUrl (config c)
      /\ httpClient (config c') = httpClient (config c))
  /\ (forall url, exists c',
         New key org project (opts ++ [WithBaseUrl url]) = (Some c', None)
         /\ openAIBaseUrl (config c') = url
         /\ openAIModel (config c') = openAIModel (config c)
         /\ httpClient (config c') = httpClient (config c))
  /\ (forall cl, exists c',
         New key org project (opts ++ [WithHTTPClient cl]) = (Some c', None)
         /\ httpClient (config c') = cl
         /\ openAIModel (config c') = openAIModel (config c)
         /\ openAIBaseUrl (config c') = openAIBaseUrl (config c)).
Proof.
  intros H.
  destruct (New_some_key _ _ _ _ _ H) as [Hkey _].
  rewrite (New_succeeds _ _ _ _ Hkey) in H. injection H as <-.
  repeat split; intros x; eexists;
    (split; [apply (New_succeeds _ _ _ _ Hkey) |]);
    cbn [config]; rewrite fold_left_app; repeat split; reflexivity.
Qed.

Lemma X2_options_witness :
  New "sk-1" "" "" [WithModel "gpt-4o"; WithHTTPClient Scenario.custom_http]
  = (Some {| apiKey := "sk-1"; openaiOrganization := ""; openaiProject := "";
             config := {| httpClient := Scenario.custom_http;
                          openAIBaseUrl := OAUrlTextCompletions;
                          openAIModel := "gpt-4o" |} |}, None)
  /\ exists c',
       New "sk-1" "" ""
         ([WithModel "gpt-4o"; WithHTTPClient Scenario.custom_http]
          ++ [WithModel "gpt-4o-mini"])
       = (Some c', None)
       /\ openAIModel (config c') = "gpt-4o-mini"
       /\ httpClient (config c') = Scenario.custom_http.
Proof.
  split; [reflexivity |].
  destruct (proj1 (X2_options_apply_in_order "sk-1" "" ""
                     [WithModel "gpt-4o"; WithHTTPClient Scenario.custom_http]
                     _ eq_refl) "gpt-4o-mini")
    as (c' & Hnew & Hmodel & _ & Hclient).
  exists c'. split; [exact Hnew |]. split; [exact Hmodel | exact Hclient].
Defined.

(** ** Vision content *)

Lemma media_type_test (media_type : string) :
  negb (String.eqb media_type "image/png")
  && negb (String.eqb media_type "image/jpeg")
  && negb (String.eqb media_type "image/jpg")
  && negb (String.eqb media_type "image/gif")
  && negb (String.eqb media_type "image/webp") = false
  <-> In media_type vision_media_types.
Proof.
  unfold vision_media_types. simpl.
  repeat match goal with
         | |- context [String.eqb media_type ?s] =>
             destruct (String.eqb_spec media_type s) as [-> | ?]; simpl
         end;
    intuition congruence.
Qed.

(** X3.  [OACreateOneContentVision] accepts exactly a non-empty payload
    that is a URL or comes with one of the five media types.  It then
    returns the image block first (the payload itself for a URL, otherwise
    the data URI "data:<type>;base64,<payload>") and, after it, a text
    block when the caption is not empty.  Every other input gives an error
    and no content. *)
Theorem X3_vision_content (media_type : string) (using_image_url : bool)
    (payload caption : string) :
  (payload <> "" /\ (using_image_url = true \/ In media_type vision_media_types) ->
   OACreateOneContentVision media_type using_image_url payload caption
   = ret_ok (image_block
               (if using_image_url then payload
                else "data:" ++ media_type ++ ";base64," ++ payload)
             :: (if String.eqb caption "" then [] else [text_block caption])))
  /\ (payload = "" \/ (using_image_url = false /\ ~ In media_type vision_media_types) ->
      exists e,
        OACreateOneContentVision media_type using_image_url payload caption
        = ret_err e
        /\ err_class e = InvalidArgument).
Proof.
  unfold OACreateOneContentVision. split.
  - intros [Hp Hm]. rewrite (eqb_empty_false _ Hp).
    destruct using_image_url.
    + rewrite andb_false_r. cbn [negb andb].
      destruct (String.eqb caption ""); reflexivity.
    + destruct Hm as [Hm | Hm]; [discriminate Hm |].
      assert (Hne : String.eqb media_type "" = false).
      { apply String.eqb_neq. intros ->. simpl in Hm. intuition discriminate. }
      rewrite Hne. cbn [negb andb].
      rewrite (proj2 (media_type_test media_type) Hm).
      destruct (String.eqb caption ""); reflexivity.
  - intros [-> | [-> Hm]]; [eexists; split; reflexivity |].
    destruct (String.eqb payload ""); [eexists; split; reflexivity |].
    destruct (String.eqb media_type ""); cbn [negb andb];
      [eexists; split; reflexivity |].
    destruct (negb (String.eqb media_type "image/png")
              && negb (String.eqb media_type "image/jpeg")
              && negb (String.eqb media_type "image/jpg")
              && negb (String.eqb media_type "image/gif")
              && negb (String.eqb media_type "image/webp")) eqn:Htest;
      [eexists; split; reflexivity |].
    now apply media_type_test in Htest.
Qed.

Lemma X3_vision_content_witness :
  OACreateOneContentVision "image/png" false "iVBORw0KGgo" "This is an example image."
  = ret_ok [image_block "data:image/png;base64,iVBORw0KGgo";
            text_block "This is an example image."]
  /\ exists e,
       OACreateOneContentVision "image/bmp" false "Qk0=" "" = ret_err e
       /\ err_class e = InvalidArgument.
Proof.
  split.
  - apply (proj1 (X3_vision_content "image/png" false "iVBORw0KGgo"
                    "This is an example image.")).
    split; [discriminate | right; simpl; tauto].
  - apply (proj2 (X3_vision_content "image/bmp" false "Qk0=" "")).
    right. split; [reflexivity |]. simpl. intuition discriminate.
Defined.

Lemma vision_blocks (media_type : string) (using_image_url : bool)
    (payload caption : string) (blocks : list OAContentVisionBaseReq) :
  OACreateOneContentVision media_type using_image_url payload caption
  = (Some blocks, None) ->
  blocks
  = image_block (if using_image_url then payload
                 else "data:" ++ media_type ++ ";base64," ++ payload)
    :: (if String.eqb caption "" then [] else [text_block caption]).
Proof.
  unfold OACreateOneContentVision.
  destruct (String.eqb payload ""); [intros H; discriminate H |].
  destruct (String.eqb media_type "" && negb using_image_url);
    [intros H; discriminate H |].
  destruct (negb using_image_url
            && negb (String.eqb media_type "image/png")
            && negb (String.eqb media_type "image/jpeg")
            && negb (String.eqb media_type "image/jpg")
            && negb (String.eqb media_type "image/gif")
            && negb (String.eqb media_type "image/webp"));
    [intros H; discriminate H |].
  destruct (String.eqb caption ""); cbn [negb];
    intros H; injection H as <-; reflexivity.
Qed.

(** X4.  A content built by [OACreateOneContentVision], placed in a
    message, is always encoded by [json.Marshal]: an array whose first
    element is the object of type "image_url" with the URL under
    "image_url"/"url" and no "text" member, followed, for a non-empty
    caption, by the object of type "text" with the caption under "text" and
    no "image_url" member.  The role, the URL and the caption are written
    coerced to valid UTF-8: each byte of them that is not part of a
    well-formed sequence is in the document as U+FFFD. *)
Theorem X4_vision_content_encoding (media_type : string) (using_image_url : bool)
    (payload caption role : string) (blocks : list OAContentVisionBaseReq) :
  OACreateOneContentVision media_type using_image_url payload caption
  = (Some blocks, None) ->
  json_Marshal
    (OAMessageReq_val {| Role := role; Content := vision_content_val blocks |})
  = Some
      (JObject
         [("role", JString (coerce_utf8 role));
          ("content",
           JArray
             (JObject
                [("type", JString "image_url");
                 ("image_url",
                  JObject
                    [("url",
                      JString
                        (coerce_utf8
                           (if using_image_url then payload
                            else "data:" ++ media_type ++ ";base64," ++ payload)))])]
              :: (if String.eqb caption "" then []
                  else [JObject [("type", JString "text");
                                 ("text", JString (coerce_utf8 caption))]])))]).
Proof.
  intros H. rewrite (vision_blocks _ _ _ _ _ H).
  destruct using_image_url, (String.eqb caption ""); reflexivity.
Qed.

Lemma X4_vision_content_encoding_witness :
  OACreateOneContentVision "" true "https://example.com/sample-image.jpg" ""
  = (Some [image_block "https://example.com/sample-image.jpg"], None)
  /\ json_Marshal
       (OAMessageReq_val
          {| Role := "user";
             Content := vision_content_val
                          [image_block "https://example.com/sample-image.jpg"] |})
     = Some
         (JObject
            [("role", JString "user");
             ("content",
              JArray
                [JObject
                   [("type", JString "image_url");
                    ("image_url",
                     JObject
                       [("url", JString "https://example.com/sample-image.jpg")])]])]).
Proof.
  split; [reflexivity |].
  apply (X4_vision_content_encoding "" true "https://example.com/sample-image.jpg"
           "" "user" _ eq_refl).
Defined.

(** ** The exchanges of an operation *)

Section RunRel.

Variable E : Env.

Lemma same_log_ret {A : Type} (a : A) : run_rel same_log (mret a).
Proof. intros w out w' H. injection H as <- <-. reflexivity. Qed.

Lemma same_log_fail {T : Type} (k : ErrClass) (msg : string) :
  run_rel same_log (@fail T k msg).
Proof. apply same_log_ret. Qed.

Lemma same_log_panic {A : Type} (msg : string) : run_rel same_log (@panic A msg).
Proof. intros w out w' H. injection H as <- <-. reflexivity. Qed.

Lemma same_log_deref {A : Type} (p : option A) : run_rel same_log (deref p).
Proof. destruct p; [apply same_log_ret | apply same_log_panic]. Qed.

Lemma same_log_load (p : option loc) : run_rel same_log (load p).
Proof.
  intros w out w' H. unfold load in H.
  destruct p as [l |]; [destruct (heap w !! l) |];
    injection H as <- <-; reflexivity.
Qed.

Lemma same_log_store (p : option loc) (fmt : gomap) :
  run_rel same_log (store_ResponseFormat p fmt).
Proof.
  intros w out w' H. unfold store_ResponseFormat in H.
  destruct p as [l |]; [destruct (heap w !! l) |];
    injection H as <- <-; reflexivity.
Qed.

Lemma same_log_bind {A B : Type} (m : M A) (f : A -> M B) :
  run_rel same_log m -> (forall a, run_rel same_log (f a)) ->
  run_rel same_log (m ≫= f).
Proof.
  intros Hm Hf w out w' H. unfold mbind, M_bind in H.
  destruct (m w) as [[a | msg] w1] eqn:Hrun.
  - unfold same_log. rewrite (Hf a _ _ _ H). exact (Hm _ _ _ Hrun).
  - injection H as <- <-. exact (Hm _ _ _ Hrun).
Qed.

Lemma one_of_same {A : Type} (P : Exchange -> Prop) (m : M A) :
  run_rel same_log m -> run_rel (at_most_one_exchange P) m.
Proof. intros Hm w out w' H. left. exact (Hm _ _ _ H). Qed.

Lemma one_after_same {A B : Type} (P : Exchange -> Prop) (m : M A) (f : A -> M B) :
  run_rel same_log m -> (forall a, run_rel (at_most_one_exchange P) (f a)) ->
  run_rel (at_most_one_exchange P) (m ≫= f).
Proof.
  intros Hm Hf w out w' H. unfold mbind, M_bind in H.
  destruct (m w) as [[a | msg] w1] eqn:Hrun.
  - pose proof (Hm _ _ _ Hrun) as H1. unfold same_log in H1.
    destruct (Hf a _ _ _ H) as [H2 | (ex & H2 & HP)].
    + left. now rewrite H2.
    + right. exists ex. rewrite H2, H1. now split.
  - injection H as <- <-. left. exact (Hm _ _ _ Hrun).
Qed.

Lemma same_after_one {A B : Type} (P : Exchange -> Prop) (m : M A) (f : A -> M B) :
  run_rel (at_most_one_exchange P) m -> (forall a, run_rel same_log (f a)) ->
  run_rel (at_most_one_exchange P) (m ≫= f).
Proof.
  intros Hm Hf w out w' H. unfold mbind, M_bind in H.
  destruct (m w) as [[a | msg] w1] eqn:Hrun.
  - pose proof (Hf a _ _ _ H) as H2. unfold same_log in H2.
    destruct (Hm _ _ _ Hrun) as [H1 | (ex & H1 & HP)].
    + left. now rewrite H2.
    + right. exists ex. rewrite H2, H1. now split.
  - injection H as <- <-. exact (Hm _ _ _ Hrun).
Qed.

Lemma one_client_Do (P : Exchange -> Prop) (cl : http_Client) (req : http_Request) :
  P {| ex_client := cl; ex_request := req |} ->
  run_rel (at_most_one_exchange P) (client_Do E cl req).
Proof.
  intros HP w out w' H. unfold client_Do in H. injection H as <- <-.
  right. eexists. split; [reflexivity | exact HP].
Qed.

(** A pointer that is not nil is read without effect. *)
Lemma run_rel_deref_some {A B : Type} (R : World -> World -> Prop)
    (a : A) (f : A -> M B) :
  run_rel R (f a) -> run_rel R (deref (Some a) ≫= f).
Proof. intros Hf w out w' H. exact (Hf _ _ _ H). Qed.

(** The request that the three JSON operations send. *)
Lemma json_request_shape (url key : string) (j : json) (req : http_Request)
    (cl : http_Client) :
  http_NewRequest E "POST" url (JSONBody j) = Some req ->
  json_post cl url key j
    {| ex_client := cl;
       ex_request :=
         Header_Set "Authorization" ("Bearer " ++ key)
           (Header_Set "Content-Type" "application/json" req) |}.
Proof.
  unfold http_NewRequest. destruct (url_Parse_ok E url); intros H;
    [injection H as <- | discriminate H].
  repeat split; reflexivity.
Qed.

End RunRel.

Ltac same_log_steps :=
  repeat first
    [ apply same_log_ret
    | apply same_log_fail
    | apply same_log_panic
    | apply same_log_deref
    | apply same_log_load
    | apply same_log_store
    | apply same_log_bind; [| intros ?]
    | match goal with
      | |- run_rel same_log (match ?x with _ => _ end) => destruct x eqn:?
      | |- run_rel same_log (let _ := _ in _) => cbv zeta
      end ].

Ltac one_steps :=
  repeat first
    [ apply one_of_same; solve [same_log_steps]
    | apply same_after_one;
      [apply one_client_Do | intros ?; solve [same_log_steps]]
    | apply one_after_same; [solve [same_log_steps] | intros ?]
    | match goal with
      | |- run_rel (at_most_one_exchange _) (match ?x with _ => _ end) =>
          destruct x eqn:?
      | |- run_rel (at_most_one_exchange _) (let _ := _ in _) => cbv zeta
      end ].

(** X5.  Chat completion and the first-content projection perform at most
    one exchange, and only with a non-empty key: a POST of a JSON body to
    the base URL of the configuration, through its HTTP client, with the
    headers "Authorization: Bearer <key>" and
    "Content-Type: application/json". *)
Theorem X5_chat_exchange (E : Env) (c : openaiAPI)
    (content : option (slice OAMessageReq)) (wfr : bool) (fr : option gomap)
    (wcr : bool) (custom : option loc) :
  run_rel
    (at_most_one_exchange
       (fun ex =>
          apiKey c <> ""
          /\ exists j,
               json_post (httpClient (config c)) (openAIBaseUrl (config c))
                 (apiKey c) j ex))
    (OpenAISendMessage E c content wfr fr wcr custom)
  /\ run_rel
       (at_most_one_exchange
          (fun ex =>
             apiKey c <> ""
             /\ exists j,
                  json_post (httpClient (config c)) (openAIBaseUrl (config c))
                    (apiKey c) j ex))
       (OpenAIGetFirstContentDataResp E c content wfr fr wcr custom).
Proof.
  assert (Hsend :
    run_rel
      (at_most_one_exchange
         (fun ex =>
            apiKey c <> ""
            /\ exists j,
                 json_post (httpClient (config c)) (openAIBaseUrl (config c))
                   (apiKey c) j ex))
      (OpenAISendMessage E c content wfr fr wcr custom)).
  { unfold OpenAISendMessage. one_steps.
    split; [now apply String.eqb_neq |].
    eexists. eapply json_request_shape. eassumption. }
  split; [exact Hsend |].
  unfold OpenAIGetFirstContentDataResp.
  apply same_after_one; [exact Hsend | intros r]. same_log_steps.
Qed.

Lemma X5_chat_exchange_witness :
  at_most_one_exchange
    (fun ex =>
       apiKey (Scenario.client "sk-1" Scenario.custom_http) <> ""
       /\ exists j,
            json_post Scenario.custom_http OAUrlTextCompletions "sk-1" j ex)
    Scenario.world0
    (snd (OpenAISendMessage Scenario.plain_env
            (Scenario.client "sk-1" Scenario.custom_http)
            (Some Scenario.hello) false None false None Scenario.world0)).
Proof.
  eapply (proj1 (X5_chat_exchange Scenario.plain_env
                   (Scenario.client "sk-1" Scenario.custom_http)
                   (Some Scenario.hello) false None false None)).
  apply surjective_pairing.
Defined.

(** X6.  Image generation and text to speech perform at most one
    exchange, and only for a request that passed every validation check and
    with a non-empty key: a POST, through the HTTP client of the
    configuration, of the JSON encoding of the request to the fixed
    endpoint of the operation, whatever base URL the configuration holds. *)
Theorem X6_image_and_speech_exchange (E : Env) (c : openaiAPI) :
  (forall r,
      run_rel
        (at_most_one_exchange
           (fun ex =>
              first_error dalle_checks r = None
              /\ apiKey c <> ""
              /\ exists j,
                   json_Marshal (OAReqImageGeneratorDallE_val r) = Some j
                   /\ json_post (httpClient (config c)) OAUrlImageGenerationsDallE
                        (apiKey c) j ex))
        (OpenAICreateImageDallE E c (Some r)))
  /\ (forall r,
         run_rel
           (at_most_one_exchange
              (fun ex =>
                 first_error tts_checks r = None
                 /\ apiKey c <> ""
                 /\ exists j,
                      json_Marshal (OAReqTextToSpeech_val r) = Some j
                      /\ json_post (httpClient (config c)) OAUrlTextToSpeech
                           (apiKey c) j ex))
           (OpenAITextToSpeech E c (Some r))).
Proof.
  split; intros r;
    [unfold OpenAICreateImageDallE | unfold OpenAITextToSpeech];
    apply run_rel_deref_some; cbn beta; one_steps;
    (split; [reflexivity |];
     split; [now apply String.eqb_neq |];
     eexists; split; [eassumption |];
     eapply json_request_shape; eassumption).
Qed.

Lemma X6_image_and_speech_witness :
  at_most_one_exchange
    (fun ex =>
       first_error tts_checks (Scenario.speech_req "alloy" "mp3") = None
       /\ apiKey (Scenario.client "sk-1" Scenario.custom_http) <> ""
       /\ exists j,
            json_Marshal (OAReqTextToSpeech_val (Scenario.speech_req "alloy" "mp3"))
            = Some j
            /\ json_post Scenario.custom_http OAUrlTextToSpeech "sk-1" j ex)
    Scenario.world0
    (snd (OpenAITextToSpeech Scenario.plain_env
            (Scenario.client "sk-1" Scenario.custom_http)
            (Some (Scenario.speech_req "alloy" "mp3")) Scenario.world0)).
Proof.
  eapply (proj2 (X6_image_and_speech_exchange Scenario.plain_env
                   (Scenario.client "sk-1" Scenario.custom_http))
            (Scenario.speech_req "alloy" "mp3")).
  apply surjective_pairing.
Defined.

(** ** The encoding of the requests *)

Lemma marshal_members_lookup (fs : list (string * goval))
    (ms : list (string * json)) (k : string) :
  marshal_members fs = Some ms ->
  assoc_lookup k ms
  = match assoc_lookup k fs with
    | Some v => json_Marshal v
    | None => None
    end.
Proof.
  revert ms. induction fs as [| [k' v] fs IH]; intros ms H.
  - injection H as <-. reflexivity.
  - cbn [marshal_members] in H.
    destruct (json_Marshal v) as [j |] eqn:Hv; [| discriminate H].
    destruct (marshal_members fs) as [js |]; [| discriminate H].
    injection H as <-. cbn [assoc_lookup].
    destruct (String.eqb k k'); [now rewrite Hv | now apply IH].
Qed.

(** The members of the object that encodes a struct are its emitted
    fields. *)
Lemma struct_fields_encoded (fs : list (string * goval)) (j : json) (k : string) :
  json_Marshal (VStruct fs) = Some j ->
  json_field k j
  = match assoc_lookup k fs with
    | Some v => json_Marshal v
    | None => None
    end.
Proof.
  rewrite json_Marshal_struct.
  destruct (marshal_members fs) as [ms |] eqn:Hms; intros H;
    [injection H as <- | discriminate H].
  cbn [json_field]. now apply marshal_members_lookup.
Qed.

Lemma assoc_lookup_in {A : Type} (k : string) (l : list (string * A)) :
  is_Some (assoc_lookup k l) -> In k (map fst l).
Proof.
  induction l as [| [k' v] l IH]; cbn [assoc_lookup map fst In].
  - intros [x H]. discriminate H.
  - destruct (String.eqb_spec k k') as [-> | _]; [now left | right; now apply IH].
Qed.

(** X7.  An image request is always encoded, and its JSON object carries
    "prompt" and "model" and, of the six optional fields, exactly those
    that are set (a nil field is left out, a set one appears with its
    value, even an empty one).  A string appears coerced to valid UTF-8:
    each byte of it that is not part of a well-formed sequence is in the
    document as U+FFFD. *)
Theorem X7_image_request_encoding (r : OAReqImageGeneratorDallE) :
  exists j,
    json_Marshal (OAReqImageGeneratorDallE_val r) = Some j
    /\ json_field "prompt" j = Some (JString (coerce_utf8 (img_Prompt r)))
    /\ json_field "model" j = Some (JString (coerce_utf8 (img_Model r)))
    /\ json_field "n" j = option_map JInt (img_N r)
    /\ json_field "quality" j
       = option_map (fun s => JString (coerce_utf8 s)) (img_Quality r)
    /\ json_field "response_format" j
       = option_map (fun s => JString (coerce_utf8 s)) (img_ResponseFormat r)
    /\ json_field "size" j
       = option_map (fun s => JString (coerce_utf8 s)) (img_Size r)
    /\ json_field "style" j
       = option_map (fun s => JString (coerce_utf8 s)) (img_Style r)
    /\ json_field "user" j
       = option_map (fun s => JString (coerce_utf8 s)) (img_User r).
Proof.
  unfold OAReqImageGeneratorDallE_val, opt_string_field.
  destruct (img_N r), (img_Quality r), (img_ResponseFormat r), (img_Size r),
    (img_Style r), (img_User r);
    (eexists; split; [reflexivity |]; repeat split; reflexivity).
Qed.

Lemma speech_fields_lookup (r : OAReqTextToSpeech) (j : json) :
  json_Marshal (OAReqTextToSpeech_val r) = Some j ->
  json_field "model" j = Some (JString (coerce_utf8 (tts_Model r)))
  /\ json_field "input" j = Some (JString (coerce_utf8 (tts_Input r)))
  /\ json_field "voice" j = Some (JString (coerce_utf8 (tts_Voice r)))
  /\ json_field "response_format" j
     = Some (JString (coerce_utf8 (tts_ResponseFormat r)))
  /\ json_field "speed" j = option_map JFloat (tts_Speed r).
Proof.
  intros H. unfold OAReqTextToSpeech_val in H.
  repeat split; rewrite (struct_fields_encoded _ _ _ H);
    try reflexivity.
  destruct (tts_Speed r) as [s |]; [| reflexivity].
  cbn. rewrite json_Marshal_struct in H. cbn in H.
  destruct (float_encodable s); [reflexivity | discriminate H].
Qed.

(** X8.  A speech request is encoded unless its speed is NaN or infinite.
    Its JSON object always carries "model", "input", "voice" and
    "response_format", empty or not, each coerced to valid UTF-8 (a byte
    that is not part of a well-formed sequence is in the document as
    U+FFFD), and carries "speed" exactly when the speed is set.  A request
    with such a speed that passes validation (NaN does) is not sent: the
    operation fails at the encoding, before any exchange. *)
Theorem X8_speech_request_encoding (E : Env) (c : openaiAPI) (w : World)
    (r : OAReqTextToSpeech) :
  (json_Marshal (OAReqTextToSpeech_val r) = None
   <-> exists s, tts_Speed r = Some s /\ float_encodable s = false)
  /\ (forall j,
         json_Marshal (OAReqTextToSpeech_val r) = Some j ->
         json_field "model" j = Some (JString (coerce_utf8 (tts_Model r)))
         /\ json_field "input" j = Some (JString (coerce_utf8 (tts_Input r)))
         /\ json_field "voice" j = Some (JString (coerce_utf8 (tts_Voice r)))
         /\ json_field "response_format" j
            = Some (JString (coerce_utf8 (tts_ResponseFormat r)))
         /\ json_field "speed" j = option_map JFloat (tts_Speed r))
  /\ (forall s,
         tts_Speed r = Some s -> float_encodable s = false ->
         first_error tts_checks r = None ->
         apiKey c <> "" ->
         OpenAITextToSpeech E c (Some r) w
         = (Returned
              (None, Some (errors_New InvalidArgument "Failed to marshal request body")),
            w)).
Proof.
  assert (Hnone : json_Marshal (OAReqTextToSpeech_val r) = None
                  <-> exists s, tts_Speed r = Some s /\ float_encodable s = false).
  { unfold OAReqTextToSpeech_val. rewrite json_Marshal_struct.
    destruct (tts_Speed r) as [s |]; cbn.
    - destruct (float_encodable s) eqn:Hs; cbn; split.
      + intros H. discriminate H.
      + intros (s' & Hs' & Hf). injection Hs' as <-. congruence.
      + intros _. exists s. now split.
      + reflexivity.
    - split; [intros H; discriminate H | intros (s & H & _); discriminate H]. }
  split; [exact Hnone |].
  split; [apply speech_fields_lookup |].
  intros s Hs Hf Hvalid Hkey.
  unfold OpenAITextToSpeech. run. rewrite Hvalid, (eqb_empty_false _ Hkey).
  change (json_Marshal (VPtr (Some (OAReqTextToSpeech_val r))))
    with (json_Marshal (OAReqTextToSpeech_val r)).
  rewrite (proj2 Hnone); [reflexivity |]. exists s. now split.
Qed.

Lemma X8_speech_request_witness :
  tts_Speed {| tts_Model := "tts-1"; tts_Input := "Hello"; tts_Voice := "";
               tts_ResponseFormat := ""; tts_Speed := Some PrimFloat.nan |}
  = Some PrimFloat.nan
  /\ float_encodable PrimFloat.nan = false
  /\ first_error tts_checks
       {| tts_Model := "tts-1"; tts_Input := "Hello"; tts_Voice := "";
          tts_ResponseFormat := ""; tts_Speed := Some PrimFloat.nan |} = None
  /\ OpenAITextToSpeech Scenario.plain_env
       (Scenario.client "sk-1" Scenario.custom_http)
       (Some {| tts_Model := "tts-1"; tts_Input := "Hello"; tts_Voice := "";
                tts_ResponseFormat := ""; tts_Speed := Some PrimFloat.nan |})
       Scenario.world0
     = (Returned
          (None, Some (errors_New InvalidArgument "Failed to marshal request body")),
        Scenario.world0).
Proof.
  split; [reflexivity |]. split; [reflexivity |]. split; [reflexivity |].
  apply (proj2 (proj2 (X8_speech_request_encoding Scenario.plain_env
                         (Scenario.client "sk-1" Scenario.custom_http)
                         Scenario.world0 _)) PrimFloat.nan);
    [reflexivity | reflexivity | reflexivity | discriminate].
Defined.

(** ** Validation as a whole *)

Lemma first_error_none {R : Type} (checks : list (R -> option error)) (r : R) :
  first_error checks r = None <-> Forall (fun chk => chk r = None) checks.
Proof.
  induction checks as [| chk rest IH]; cbn [first_error].
  - split; [constructor | reflexivity].
  - destruct (chk r) as [e |] eqn:Hc.
    + split; [intros H; discriminate H |].
      intros H. inversion H; subst. congruence.
    + rewrite IH. split; [now constructor | intros H; now inversion H].
Qed.

Lemma first_error_some_in {R : Type} (checks : list (R -> option error)) (r : R)
    (e : error) :
  first_error checks r = Some e -> exists chk, In chk checks /\ chk r = Some e.
Proof.
  induction checks as [| chk rest IH]; cbn [first_error]; [intros H; discriminate H |].
  destruct (chk r) as [e' |] eqn:Hc.
  - intros H. injection H as <-. exists chk. split; [now left | exact Hc].
  - intros H. destruct (IH H) as (chk' & Hin & Hc').
    exists chk'. split; [now right | exact Hc'].
Qed.

(** The error an operation returns when validation rejects its request. *)
Lemma rejected_request_not_sent (E : Env) (c : openaiAPI) (w : World) :
  (forall r e,
      first_error dalle_checks r = Some e ->
      OpenAICreateImageDallE E c (Some r) w = (Returned (None, Some e), w))
  /\ (forall r e,
         first_error tts_checks r = Some e ->
         OpenAITextToSpeech E c (Some r) w = (Returned (None, Some e), w)).
Proof.
  split; intros r e H;
    [unfold OpenAICreateImageDallE | unfold OpenAITextToSpeech];
    run; rewrite H; reflexivity.
Qed.

Lemma dalle_check_model_none (r : OAReqImageGeneratorDallE) :
  dalle_check_model r = None
  <-> img_Model r = "dall-e-2" \/ img_Model r = "dall-e-3".
Proof.
  unfold dalle_check_model.
  destruct (String.eqb_spec (img_Model r) "") as [-> | _]; cbn;
    [split; [intros H0 | intros [H0 | H0]]; discriminate H0 |].
  destruct (String.eqb_spec (img_Model r) "dall-e-2") as [-> | ?]; cbn;
    [split; [now left | reflexivity] |].
  destruct (String.eqb_spec (img_Model r) "dall-e-3") as [-> | ?]; cbn;
    [split; [now right | reflexivity] |].
  split; [intros H; discriminate H | intros [H | H]; congruence].
Qed.

Lemma dalle_check_N_none (r : OAReqImageGeneratorDallE) :
  dalle_check_N r = None <-> (forall n, img_N r = Some n -> (1 <= n <= 10)%Z).
Proof.
  split; [| apply dalle_check_N_in_range].
  unfold dalle_check_N. destruct (img_N r) as [n |]; [| intros _ n H; discriminate H].
  destruct (Z.ltb_spec n 1) as [Hlo | Hlo], (Z.ltb_spec 10 n) as [Hhi | Hhi]; cbn;
    intros Hc; try discriminate Hc.
  intros n' Hn. injection Hn as <-. lia.
Qed.

Lemma dalle_model_gate_none (model : string) (field : option string) :
  negb (String.eqb model "dall-e-3") && negb (is_nil field) = false
  <-> model = "dall-e-3" \/ field = None.
Proof.
  destruct (String.eqb_spec model "dall-e-3") as [-> | Hne], field; cbn;
    split; intros H; try reflexivity; try discriminate H; try tauto.
  destruct H as [H | H]; [now contradiction Hne | discriminate H].
Qed.

Lemma two_values_test (v a b : string) :
  negb (String.eqb v a) && negb (String.eqb v b) = false <-> v = a \/ v = b.
Proof.
  destruct (String.eqb_spec v a), (String.eqb_spec v b); cbn;
    split; intros H; try reflexivity; try discriminate H; tauto.
Qed.

Lemma optional_two_values (field : option string) (a b : string) (e : error) :
  match field with
  | Some v =>
      if negb (String.eqb v a) && negb (String.eqb v b) then Some e else None
  | None => None
  end = None
  <-> In field [None; Some a; Some b].
Proof.
  cbn [In]. destruct field as [v |].
  - destruct (negb (String.eqb v a) && negb (String.eqb v b)) eqn:Ht.
    + split; [intros H; discriminate H |].
      assert (Hn : ~ (v = a \/ v = b))
        by (intros Hv; apply two_values_test in Hv; congruence).
      intros [H | [H | [H | []]]]; [discriminate H | |];
        injection H as <-; tauto.
    + apply two_values_test in Ht.
      split; [| reflexivity].
      intros _. destruct Ht as [-> | ->]; tauto.
  - split; [now left | reflexivity].
Qed.

(** X9.  The validation of an image request accepts it exactly when the
    model is "dall-e-2" or "dall-e-3", the count is absent or within 1..10,
    quality and style are absent for "dall-e-2", quality is absent,
    "standard" or "hd", style is absent, "vivid" or "natural", and the
    response format is absent, "url" or "b64_json"; the prompt, the size
    and the user are not looked at.  A rejected request is not sent: the
    operation returns the error of the first failing check and leaves the
    world as it was, whatever the key. *)
Theorem X9_image_validation (E : Env) (c : openaiAPI) (w : World)
    (r : OAReqImageGeneratorDallE) :
  (first_error dalle_checks r = None
   <-> (img_Model r = "dall-e-2" \/ img_Model r = "dall-e-3")
       /\ (forall n, img_N r = Some n -> (1 <= n <= 10)%Z)
       /\ (img_Model r = "dall-e-2" -> img_Quality r = None /\ img_Style r = None)
       /\ In (img_Quality r) [None; Some "standard"; Some "hd"]
       /\ In (img_Style r) [None; Some "vivid"; Some "natural"]
       /\ In (img_ResponseFormat r) [None; Some "url"; Some "b64_json"])
  /\ (forall e,
         first_error dalle_checks r = Some e ->
         OpenAICreateImageDallE E c (Some r) w = (Returned (None, Some e), w)).
Proof.
  split; [| intros e; apply (proj1 (rejected_request_not_sent E c w))].
  rewrite first_error_none. unfold dalle_checks, dalle_quality_style_checks.
  cbn [app]. rewrite !Forall_cons, Forall_nil.
  rewrite dalle_check_model_none, dalle_check_N_none.
  unfold dalle_check_quality_model, dalle_check_style_model,
    dalle_check_quality_value, dalle_check_style_value,
    dalle_check_response_format.
  rewrite !optional_two_values.
  assert (Hq : (if negb (String.eqb (img_Model r) "dall-e-3")
                   && negb (is_nil (img_Quality r))
                then Some (errors_New InvalidArgument
                             "Quality is only supported for dall-e-3 model")
                else None) = None
               <-> img_Model r = "dall-e-3" \/ img_Quality r = None).
  { rewrite <- dalle_model_gate_none.
    destruct (negb (String.eqb (img_Model r) "dall-e-3")
              && negb (is_nil (img_Quality r)));
      split; intros H; try reflexivity; discriminate H. }
  assert (Hs : (if negb (String.eqb (img_Model r) "dall-e-3")
                   && negb (is_nil (img_Style r))
                then Some (errors_New InvalidArgument
                             "Style is only supported for dall-e-3 model")
                else None) = None
               <-> img_Model r = "dall-e-3" \/ img_Style r = None).
  { rewrite <- dalle_model_gate_none.
    destruct (negb (String.eqb (img_Model r) "dall-e-3")
              && negb (is_nil (img_Style r)));
      split; intros H; try reflexivity; discriminate H. }
  rewrite Hq, Hs.
  split.
  - intros (Hm & Hn & Hqm & Hqv & Hsm & Hsv & Hrf & _).
    split; [exact Hm |]. split; [exact Hn |].
    split; [| split; [exact Hqv |]; split; [exact Hsv | exact Hrf]].
    intros H2. split.
    + destruct Hqm as [Hqm | Hqm]; [rewrite H2 in Hqm; discriminate Hqm | exact Hqm].
    + destruct Hsm as [Hsm | Hsm]; [rewrite H2 in Hsm; discriminate Hsm | exact Hsm].
  - intros (Hm & Hn & Hgate & Hqv & Hsv & Hrf).
    split; [exact Hm |]. split; [exact Hn |].
    split; [destruct Hm as [Hm | Hm]; [right; now apply Hgate | now left] |].
    split; [exact Hqv |].
    split; [destruct Hm as [Hm | Hm]; [right; now apply Hgate | now left] |].
    split; [exact Hsv |]. split; [exact Hrf | exact I].
Qed.

Lemma X9_image_validation_witness :
  first_error dalle_checks
    (Scenario.image_req "dall-e-3" (Some 3%Z) (Some "hd") (Some "vivid")) = None
  /\ first_error dalle_checks (Scenario.image_req "dall-e-2" (Some 11%Z) None None)
     = Some (errors_New OutOfRange "N must be between 1 and 10")
  /\ OpenAICreateImageDallE Scenario.plain_env
       (Scenario.client "sk-1" Scenario.custom_http)
       (Some (Scenario.image_req "dall-e-2" (Some 11%Z) None None)) Scenario.world0
     = (Returned (None, Some (errors_New OutOfRange "N must be between 1 and 10")),
        Scenario.world0).
Proof.
  split.
  - apply (proj1 (X9_image_validation Scenario.plain_env
                    (Scenario.client "sk-1" Scenario.custom_http) Scenario.world0
                    (Scenario.image_req "dall-e-3" (Some 3%Z) (Some "hd")
                       (Some "vivid")))).
    split; [now right |].
    split; [intros n H; injection H as <-; lia |].
    split; [intros H; discriminate H |].
    cbn; tauto.
  - split; [reflexivity |].
    apply (proj2 (X9_image_validation Scenario.plain_env
                    (Scenario.client "sk-1" Scenario.custom_http) Scenario.world0
                    (Scenario.image_req "dall-e-2" (Some 11%Z) None None))).
    reflexivity.
Defined.

Lemma tts_check_model_none (r : OAReqTextToSpeech) :
  tts_check_model r = None
  <-> tts_Model r = "tts-1" \/ tts_Model r = "tts-1-hd".
Proof.
  unfold tts_check_model.
  destruct (String.eqb_spec (tts_Model r) "") as [-> | _]; cbn;
    [split; [intros H0 | intros [H0 | H0]]; discriminate H0 |].
  destruct (String.eqb_spec (tts_Model r) "tts-1") as [-> | ?]; cbn;
    [split; [now left | reflexivity] |].
  destruct (String.eqb_spec (tts_Model r) "tts-1-hd") as [-> | ?]; cbn;
    [split; [now right | reflexivity] |].
  split; [intros H0; discriminate H0 | intros [H0 | H0]; congruence].
Qed.

Lemma tts_check_input_none (r : OAReqTextToSpeech) :
  tts_check_input r = None <-> tts_Input r <> "".
Proof.
  unfold tts_check_input.
  destruct (String.eqb_spec (tts_Input r) "") as [-> | Hne];
    split; intros H0; try reflexivity; try discriminate H0; congruence.
Qed.

Lemma tts_check_speed_none (r : OAReqTextToSpeech) :
  tts_check_speed r = None
  <-> (forall s, tts_Speed r = Some s ->
         PrimFloat.ltb s 0.25 = false /\ PrimFloat.ltb 4 s = false).
Proof.
  unfold tts_check_speed. destruct (tts_Speed r) as [s |].
  - destruct (PrimFloat.ltb s 0.25) eqn:Hlo, (PrimFloat.ltb 4 s) eqn:Hhi; cbn;
      split; intros H0; try reflexivity; try discriminate H0;
      try (destruct (H0 s eq_refl) as [H1 H2]; congruence).
    intros s' Hs. injection Hs as <-. now split.
  - split; [intros _ s H0; discriminate H0 | reflexivity].
Qed.

(** X10.  The validation of a speech request accepts it exactly when the
    model is "tts-1" or "tts-1-hd", the input is not empty, the voice is
    empty or one of "alloy", "echo", "fable", "onyx", "nova", "shimer",
    and the speed, when set, is neither below 0.25 nor above 4; the
    response format is not constrained.  A rejected request is not sent:
    the operation returns the error of the first failing check and leaves
    the world as it was, whatever the key. *)
Theorem X10_speech_validation (E : Env) (c : openaiAPI) (w : World)
    (r : OAReqTextToSpeech) :
  (first_error tts_checks r = None
   <-> (tts_Model r = "tts-1" \/ tts_Model r = "tts-1-hd")
       /\ tts_Input r <> ""
       /\ (tts_Voice r = "" \/ In (tts_Voice r) accepted_voices)
       /\ (forall s, tts_Speed r = Some s ->
             PrimFloat.ltb s 0.25 = false /\ PrimFloat.ltb 4 s = false))
  /\ (forall e,
         first_error tts_checks r = Some e ->
         OpenAITextToSpeech E c (Some r) w = (Returned (None, Some e), w)).
Proof.
  split; [| intros e; apply (proj2 (rejected_request_not_sent E c w))].
  rewrite first_error_none. unfold tts_checks.
  rewrite !Forall_cons, Forall_nil.
  rewrite tts_check_model_none, tts_check_input_none, tts_check_voice_accepts,
    tts_check_speed_none.
  unfold accepted_voices.
  pose proof (tts_check_response_format_none r) as Hrf.
  tauto.
Qed.

Lemma X10_speech_validation_witness :
  first_error tts_checks
    {| tts_Model := "tts-1-hd"; tts_Input := "Hello"; tts_Voice := "nova";
       tts_ResponseFormat := "flac"; tts_Speed := Some 4%float |} = None
  /\ OpenAITextToSpeech Scenario.plain_env
       (Scenario.client "sk-1" Scenario.custom_http)
       (Some {| tts_Model := "tts-1"; tts_Input := ""; tts_Voice := "nova";
                tts_ResponseFormat := "flac"; tts_Speed := None |})
       Scenario.world0
     = (Returned (None, Some (errors_New InvalidArgument "Input text must be provided")),
        Scenario.world0).
Proof.
  split.
  - apply (proj1 (X10_speech_validation Scenario.plain_env
                    (Scenario.client "sk-1" Scenario.custom_http) Scenario.world0 _)).
    split; [now right |].
    split; [discriminate |].
    split; [right; cbn; tauto |].
    intros s H. injection H as <-. split; reflexivity.
  - apply (proj2 (X10_speech_validation Scenario.plain_env
                    (Scenario.client "sk-1" Scenario.custom_http) Scenario.world0 _)).
    reflexivity.
Defined.

(** ** Where a result comes from *)

Lemma status_ok (resp : http_Response) :
  negb (StatusCode resp =? http_StatusOK)%Z = false -> StatusCode resp = 200%Z.
Proof.
  intros H. apply negb_false_iff in H. now apply Z.eqb_eq in H.
Qed.

Lemma chat_result_origin (E : Env) (c : openaiAPI)
    (content : option (slice OAMessageReq)) (wfr : bool) (fr : option gomap)
    (wcr : bool) (custom : option loc) (w w' : World)
    (r : OAChatCompletionResp) (e : option error) :
  OpenAISendMessage E c content wfr fr wcr custom w = (Returned (Some r, e), w') ->
  e = None
  /\ exists ex resp,
       net_log w' = ex :: net_log w
       /\ RoundTrip E (ex_client ex) (ex_request ex) = Success resp
       /\ StatusCode resp = 200%Z
       /\ Decode_chat E (RespBody resp) = Success r.
Proof.
  unfold OpenAISendMessage. unfold_run.
  split_goal; intros H; try discriminate H; injection H as <- <- <-;
    (split; [reflexivity |]; eexists _, _;
     split; [reflexivity |]; split; [eassumption |];
     split; [apply status_ok; cbn [negb]; congruence | assumption]).
Qed.

(** X11.  Chat completion returns a result only with no error beside it,
    after exactly one exchange, from a response of status 200 whose body
    decodes to that result.  The first-content projection returns a
    message only in that case and when the decoded response has at least
    one choice: the message of the first choice. *)
Theorem X11_chat_result_origin (E : Env) (c : openaiAPI)
    (content : option (slice OAMessageReq)) (wfr : bool) (fr : option gomap)
    (wcr : bool) (custom : option loc) (w w' : World) :
  (forall r e,
      OpenAISendMessage E c content wfr fr wcr custom w = (Returned (Some r, e), w') ->
      e = None
      /\ exists ex resp,
           net_log w' = ex :: net_log w
           /\ RoundTrip E (ex_client ex) (ex_request ex) = Success resp
           /\ StatusCode resp = 200%Z
           /\ Decode_chat E (RespBody resp) = Success r)
  /\ (forall m e,
         OpenAIGetFirstContentDataResp E c content wfr fr wcr custom w
         = (Returned (Some m, e), w') ->
         e = None
         /\ exists ex resp r choice rest,
              net_log w' = ex :: net_log w
              /\ RoundTrip E (ex_client ex) (ex_request ex) = Success resp
              /\ StatusCode resp = 200%Z
              /\ Decode_chat E (RespBody resp) = Success r
              /\ Choices r = Some (choice :: rest)
              /\ m = Message choice).
Proof.
  split; [intros r e; apply chat_result_origin |].
  intros m e. unfold OpenAIGetFirstContentDataResp.
  unfold mbind at 1, M_bind at 1.
  destruct (OpenAISendMessage E c content wfr fr wcr custom w)
    as [[[[r0 |] [e0 |]] | msg] w0] eqn:Hrun; unfold_run;
    try (intros H; discriminate H).
  destruct (chat_result_origin _ _ _ _ _ _ _ _ _ _ _ Hrun)
    as (_ & ex & resp & Hlog & Hrt & Hst & Hdec).
  destruct (Choices r0) as [[| choice rest] |] eqn:Hch;
    intros H; try discriminate H.
  injection H as <- <- <-.
  split; [reflexivity |].
  exists ex, resp, r0, choice, rest. repeat split; assumption.
Qed.

Lemma X11_chat_result_witness :
  OpenAISendMessage Scenario.plain_env
    (Scenario.client "sk-1" Scenario.custom_http)
    (Some Scenario.hello) false None false None Scenario.world0
  = (Returned (Some (Scenario.chat_resp None), None),
     snd (OpenAISendMessage Scenario.plain_env
            (Scenario.client "sk-1" Scenario.custom_http)
            (Some Scenario.hello) false None false None Scenario.world0))
  /\ exists ex resp,
       net_log (snd (OpenAISendMessage Scenario.plain_env
                       (Scenario.client "sk-1" Scenario.custom_http)
                       (Some Scenario.hello) false None false None Scenario.world0))
       = ex :: net_log Scenario.world0
       /\ StatusCode resp = 200%Z
       /\ Decode_chat Scenario.plain_env (RespBody resp)
          = Success (Scenario.chat_resp None).
Proof.
  split; [vm_compute; reflexivity |].
  destruct (proj1 (X11_chat_result_origin Scenario.plain_env
                     (Scenario.client "sk-1" Scenario.custom_http)
                     (Some Scenario.hello) false None false None Scenario.world0
                     (snd (OpenAISendMessage Scenario.plain_env
                             (Scenario.client "sk-1" Scenario.custom_http)
                             (Some Scenario.hello) false None false None
                             Scenario.world0)))
              (Scenario.chat_resp None) None)
    as (_ & ex & resp & Hlog & _ & Hst & Hdec); [vm_compute; reflexivity |].
  exists ex, resp. repeat split; assumption.
Defined.

(** X12.  Image generation returns a result only with no error beside it,
    after exactly one exchange, from a response of status 200 whose body
    decodes to that result. *)
Theorem X12_image_result_origin (E : Env) (c : openaiAPI)
    (req_body : option OAReqImageGeneratorDallE) (w w' : World)
    (r : OAImageGeneratorDallEResp) (e : option error) :
  OpenAICreateImageDallE E c req_body w = (Returned (Some r, e), w') ->
  e = None
  /\ exists ex resp,
       net_log w' = ex :: net_log w
       /\ RoundTrip E (ex_client ex) (ex_request ex) = Success resp
       /\ StatusCode resp = 200%Z
       /\ Decode_image E (RespBody resp) = Success r.
Proof.
  unfold OpenAICreateImageDallE. unfold_run.
  split_goal; intros H; try discriminate H; injection H as <- <- <-;
    (split; [reflexivity |]; eexists _, _;
     split; [reflexivity |]; split; [eassumption |];
     split; [apply status_ok; cbn [negb]; congruence | assumption]).
Qed.

Lemma X12_image_result_witness :
  OpenAICreateImageDallE Scenario.plain_env
    (Scenario.client "sk-1" Scenario.custom_http)
    (Some (Scenario.image_req "dall-e-3" None (Some "hd") None)) Scenario.world0
  = (Returned (Some {| img_Created := 0; img_Data := None |}, None),
     snd (OpenAICreateImageDallE Scenario.plain_env
            (Scenario.client "sk-1" Scenario.custom_http)
            (Some (Scenario.image_req "dall-e-3" None (Some "hd") None))
            Scenario.world0))
  /\ exists ex resp,
       net_log (snd (OpenAICreateImageDallE Scenario.plain_env
                       (Scenario.client "sk-1" Scenario.custom_http)
                       (Some (Scenario.image_req "dall-e-3" None (Some "hd") None))
                       Scenario.world0))
       = ex :: net_log Scenario.world0
       /\ StatusCode resp = 200%Z.
Proof.
  split; [vm_compute; reflexivity |].
  destruct (X12_image_result_origin Scenario.plain_env
              (Scenario.client "sk-1" Scenario.custom_http)
              (Some (Scenario.image_req "dall-e-3" None (Some "hd") None))
              Scenario.world0
              (snd (OpenAICreateImageDallE Scenario.plain_env
                      (Scenario.client "sk-1" Scenario.custom_http)
                      (Some (Scenario.image_req "dall-e-3" None (Some "hd") None))
                      Scenario.world0))
              {| img_Created := 0; img_Data := None |} None)
    as (_ & ex & resp & Hlog & _ & Hst & _); [vm_compute; reflexivity |].
  exists ex, resp. split; assumption.
Defined.

(** X13.  Text to speech returns a result only with no error beside it,
    after exactly one exchange, from a response of status 200 whose body
    was read to its end.  The result holds the base64 encoding of all the
    bytes read, and as extension ".mp3" when the request names no response
    format and otherwise "." followed by the requested format. *)
Theorem X13_speech_result_origin (E : Env) (c : openaiAPI)
    (r : OAReqTextToSpeech) (w w' : World)
    (res : OATextToSpeechResp) (e : option error) :
  OpenAITextToSpeech E c (Some r) w = (Returned (Some res, e), w') ->
  e = None
  /\ FormatAudio res
     = (if String.eqb (tts_ResponseFormat r) "" then ".mp3"
        else "." ++ tts_ResponseFormat r)
  /\ exists ex resp bytes,
       net_log w' = ex :: net_log w
       /\ RoundTrip E (ex_client ex) (ex_request ex) = Success resp
       /\ StatusCode resp = 200%Z
       /\ io_ReadAll (RespBody resp) = Success bytes
       /\ B64JSON res = base64_EncodeToString E bytes.
Proof.
  unfold OpenAITextToSpeech. unfold_run.
  destruct (first_error tts_checks r); [intros H; discriminate H |].
  destruct (String.eqb (apiKey c) ""); [intros H; discriminate H |].
  destruct (json_Marshal _); [| intros H; discriminate H].
  destruct (url_Parse_ok E OAUrlTextToSpeech); [| intros H; discriminate H].
  destruct (RoundTrip E _ _) as [resp | err] eqn:Hrt; [| intros H; discriminate H].
  destruct (negb (StatusCode resp =? http_StatusOK)%Z) eqn:Hst;
    [intros H; discriminate H |].
  destruct (io_ReadAll (RespBody resp)) as [bytes | err] eqn:Hread;
    intros H; [| discriminate H].
  injection H as <- <- <-.
  split; [reflexivity |]. split; [reflexivity |].
  eexists _, resp, bytes.
  split; [reflexivity |]. split; [exact Hrt |].
  split; [now apply status_ok |]. split; [exact Hread | reflexivity].
Qed.

Lemma X13_speech_result_witness :
  OpenAITextToSpeech Scenario.plain_env
    (Scenario.client "sk-1" Scenario.custom_http)
    (Some (Scenario.speech_req "alloy" "")) Scenario.world0
  = (Returned (Some {| FormatAudio := ".mp3"; B64JSON := "{}" |}, None),
     snd (OpenAITextToSpeech Scenario.plain_env
            (Scenario.client "sk-1" Scenario.custom_http)
            (Some (Scenario.speech_req "alloy" "")) Scenario.world0))
  /\ FormatAudio {| FormatAudio := ".mp3"; B64JSON := "{}" |}
     = (if String.eqb (tts_ResponseFormat (Scenario.speech_req "alloy" "")) ""
        then ".mp3" else "." ++ tts_ResponseFormat (Scenario.speech_req "alloy" "")).
Proof.
  split; [vm_compute; reflexivity |].
  apply (X13_speech_result_origin Scenario.plain_env
           (Scenario.client "sk-1" Scenario.custom_http)
           (Scenario.speech_req "alloy" "") Scenario.world0
           (snd (OpenAITextToSpeech Scenario.plain_env
                   (Scenario.client "sk-1" Scenario.custom_http)
                   (Some (Scenario.speech_req "alloy" "")) Scenario.world0))
           {| FormatAudio := ".mp3"; B64JSON := "{}" |} None).
  vm_compute. reflexivity.
Defined.

(** ** Chat completion: arguments, body and frame *)

(** X14.  With a non-empty key, the argument checks of chat completion
    fail in this order, each with [MissingArgument] and without any change
    to the world: a format flag without a format (even when the custom
    request is nil); then a custom request whose messages are nil (the
    struct is not written, even with the format flag set); then, on the
    content path, a nil content. *)
Theorem X14_chat_argument_errors (E : Env) (c : openaiAPI) (w : World)
    (content : option (slice OAMessageReq)) (custom : option loc) :
  apiKey c <> "" ->
  (forall wcr,
      OpenAISendMessage E c content true None wcr custom w
      = (Returned
           (None,
            Some (errors_New MissingArgument
                    "format_response must be provided when with_format_response is true")),
         w))
  /\ (forall wfr fr l s,
         (wfr = true -> fr <> None) ->
         custom = Some l -> heap w !! l = Some s -> Messages s = VNil ->
         OpenAISendMessage E c content wfr fr true custom w
         = (Returned
              (None,
               Some (errors_New MissingArgument
                       "req_body_custom must be provided when with_custom_reqbody is true")),
            w))
  /\ (forall wfr fr,
         (wfr = true -> fr <> None) ->
         OpenAISendMessage E c None wfr fr false custom w
         = (Returned (None, Some (errors_New MissingArgument "content must be provided")),
            w)).
Proof.
  intros Hkey. apply eqb_empty_false in Hkey.
  split; [| split].
  - intros wcr. unfold OpenAISendMessage. rewrite Hkey. reflexivity.
  - intros wfr fr l s Hfr -> Hl Hs.
    unfold OpenAISendMessage. rewrite Hkey.
    assert (Hgate : wfr && is_nil fr = false).
    { destruct wfr, fr; try reflexivity. now contradiction (Hfr eq_refl). }
    rewrite Hgate. unfold_run. rewrite Hl, Hs. reflexivity.
  - intros wfr fr Hfr.
    unfold OpenAISendMessage. rewrite Hkey.
    assert (Hgate : wfr && is_nil fr = false).
    { destruct wfr, fr; try reflexivity. now contradiction (Hfr eq_refl). }
    rewrite Hgate. reflexivity.
Qed.

Lemma X14_chat_argument_witness :
  apiKey (Scenario.client "sk-1" Scenario.custom_http) <> ""
  /\ OpenAISendMessage Scenario.plain_env
       (Scenario.client "sk-1" Scenario.custom_http)
       None true None true None Scenario.world0
     = (Returned
          (None,
           Some (errors_New MissingArgument
                   "format_response must be provided when with_format_response is true")),
        Scenario.world0)
  /\ OpenAISendMessage Scenario.plain_env
       (Scenario.client "sk-1" Scenario.custom_http)
       None false None false None Scenario.world0
     = (Returned (None, Some (errors_New MissingArgument "content must be provided")),
        Scenario.world0).
Proof.
  split; [discriminate |].
  destruct (X14_chat_argument_errors Scenario.plain_env
              (Scenario.client "sk-1" Scenario.custom_http) Scenario.world0
              None None)
    as (Hfmt & _ & Hcontent); [discriminate |].
  split; [apply Hfmt | apply Hcontent; intros H; discriminate H].
Defined.

(** X15.  On the content path, the body that chat completion sends has
    the members "messages" (the encoding of the messages), "model" (the
    model of the configuration, coerced to valid UTF-8 as [json.Marshal]
    writes every string) and, only when the format flag is set and
    the format holds at least one entry, "response_format" (the encoding of
    the format); it has no other member.  A format that is nil or empty
    is left out of the body even though the flag is set. *)
Theorem X15_chat_content_body (E : Env) (c : openaiAPI)
    (messages : slice OAMessageReq) (wfr : bool) (fr : option gomap)
    (custom : option loc) (w w' : World) (out : outcome (Ret OAChatCompletionResp)) :
  OpenAISendMessage E c (Some messages) wfr fr false custom w = (out, w') ->
  at_most_one_exchange
    (fun ex =>
       exists j,
         ReqBody (ex_request ex) = JSONBody j
         /\ json_field "messages" j = json_Marshal (content_val (Some messages))
         /\ json_field "model" j
            = Some (JString (coerce_utf8 (openAIModel (config c))))
         /\ json_field "response_format" j
            = match fr with
              | Some fmt =>
                  if wfr && negb (len_zero fmt) then json_Marshal (VMap fmt) else None
              | None => None
              end
         /\ forall k, is_Some (json_field k j) ->
                      In k ["messages"; "model"; "response_format"])
    w w'.
Proof.
  unfold OpenAISendMessage. unfold_run.
  destruct (String.eqb (apiKey c) "");
    [cbn beta iota; intros H; injection H as <- <-; now left |].
  destruct (wfr && is_nil fr) eqn:Hgate; [cbn beta iota; intros H; injection H as <- <-; now left |].
  cbn [negb andb is_nil].
  assert (Hbody : forall fmt,
             (fr = Some fmt /\ wfr = true \/ wfr = false /\ fmt = None) ->
             forall j,
               json_Marshal
                 (OAReqBodyMessageCompletion_val
                    (with_ResponseFormat (content_request c (Some messages)) fmt))
               = Some j ->
               json_field "messages" j = json_Marshal (content_val (Some messages))
               /\ json_field "model" j
                  = Some (JString (coerce_utf8 (openAIModel (config c))))
               /\ json_field "response_format" j
                  = match fr with
                    | Some fmt' =>
                        if wfr && negb (len_zero fmt') then json_Marshal (VMap fmt')
                        else None
                    | None => None
                    end
               /\ forall k, is_Some (json_field k j) ->
                            In k ["messages"; "model"; "response_format"]).
  { intros fmt Hfmt j Hj.
    unfold OAReqBodyMessageCompletion_val in Hj.
    change (PrimFloat.eqb
              (FrequencyPenalty
                 (with_ResponseFormat (content_request c (Some messages)) fmt)) 0)
      with true in Hj.
    cbn [with_ResponseFormat content_request Messages Model Store Metadata
           LogitBias Logprobe Modalities ResponseFormat omitempty negb
           is_nil_iface len_zero app] in Hj.
    assert (Hall : forall k, json_field k j = _) by
      (intros k; exact (struct_fields_encoded _ _ k Hj)).
    split; [rewrite Hall; reflexivity |].
    split; [rewrite Hall; reflexivity |].
    split.
    - rewrite Hall.
      destruct Hfmt as [[-> ->] | [-> ->]].
      + cbn [andb]. destruct fmt as [[| entry rest] |]; reflexivity.
      + destruct fr as [fmt' |]; reflexivity.
    - intros k Hk. rewrite Hall in Hk.
      assert (Hin : In k (map fst
                 ([("messages", content_val (Some messages));
                   ("model", VString (openAIModel (config c)))]
                  ++ omitempty (len_zero fmt) "response_format" (VMap fmt)))).
      { apply assoc_lookup_in.
        destruct (assoc_lookup k _) as [v |]; [now eexists | destruct Hk as [x Hx]; discriminate Hx]. }
      destruct (len_zero fmt); cbn in Hin; cbn; tauto. }
  destruct wfr.
  - destruct fr as [fmt |]; [| discriminate Hgate].
    unfold_run.
    fold (content_request c (Some messages)).
    destruct (json_Marshal (OAReqBodyMessageCompletion_val _)) as [j |] eqn:Hj;
      [| cbn beta iota; intros H; injection H as <- <-; now left].
    destruct (url_Parse_ok E (openAIBaseUrl (config c)));
      [| cbn beta iota; intros H; injection H as <- <-; now left].
    pose proof (Hbody fmt (or_introl (conj eq_refl eq_refl)) j Hj) as Hj'.
    split_goal; intros H; injection H as <- <-;
      (right; eexists; split; [reflexivity |]; exists j; split; [reflexivity | exact Hj']).
  - unfold_run.
    destruct (json_Marshal (OAReqBodyMessageCompletion_val _)) as [j |] eqn:Hj;
      [| cbn beta iota; intros H; injection H as <- <-; now left].
    destruct (url_Parse_ok E (openAIBaseUrl (config c)));
      [| cbn beta iota; intros H; injection H as <- <-; now left].
    pose proof (Hbody None (or_intror (conj eq_refl eq_refl)) j Hj) as Hj'.
    split_goal; intros H; injection H as <- <-;
      (right; eexists; split; [reflexivity |]; exists j; split; [reflexivity | exact Hj']).
Qed.

Lemma X15_chat_content_body_witness :
  at_most_one_exchange
    (fun ex =>
       exists j,
         ReqBody (ex_request ex) = JSONBody j
         /\ json_field "messages" j
            = json_Marshal (content_val (Some Scenario.hello))
         /\ json_field "model" j = Some (JString "gpt-4o-mini")
         /\ json_field "response_format" j = None
         /\ forall k, is_Some (json_field k j) ->
                      In k ["messages"; "model"; "response_format"])
    Scenario.world0
    (snd (OpenAISendMessage Scenario.plain_env
            (Scenario.client "sk-1" Scenario.custom_http)
            (Some Scenario.hello) true (Some (Some [])) false None
            Scenario.world0)).
Proof.
  apply (X15_chat_content_body Scenario.plain_env
           (Scenario.client "sk-1" Scenario.custom_http)
           Scenario.hello true (Some (Some [])) None Scenario.world0 _
           (fst (OpenAISendMessage Scenario.plain_env
                   (Scenario.client "sk-1" Scenario.custom_http)
                   (Some Scenario.hello) true (Some (Some [])) false None
                   Scenario.world0))).
  apply surjective_pairing.
Defined.

(** X16.  Chat completion writes to the heap only on the custom path with
    the format flag set, and then only to the caller's struct: every other
    struct, and on every other path every struct, is after the call what
    it was before, whatever the call returns. *)
Theorem X16_chat_heap_frame (E : Env) (c : openaiAPI)
    (content : option (slice OAMessageReq)) (wfr : bool) (fr : option gomap)
    (wcr : bool) (custom : option loc) (w w' : World)
    (out : outcome (Ret OAChatCompletionResp)) (l : loc) :
  OpenAISendMessage E c content wfr fr wcr custom w = (out, w') ->
  wcr && wfr = false \/ custom <> Some l ->
  heap w' !! l = heap w !! l.
Proof.
  unfold OpenAISendMessage. unfold_run.
  split_goal; intros H; injection H as <- <-; intros Hside;
    cbn [heap]; try reflexivity;
    (destruct Hside as [Hside | Hside]; [discriminate Hside |];
     apply lookup_insert_ne; congruence).
Qed.

Lemma X16_chat_heap_frame_witness :
  heap (snd (OpenAISendMessage Scenario.plain_env
               (Scenario.client "sk-1" Scenario.custom_http)
               None false None true (Some 0%nat) Scenario.world_custom))
    !! 0%nat
  = Some Scenario.custom_req.
Proof.
  rewrite (X16_chat_heap_frame Scenario.plain_env
             (Scenario.client "sk-1" Scenario.custom_http)
             None false None true (Some 0%nat) Scenario.world_custom _
             (fst (OpenAISendMessage Scenario.plain_env
                     (Scenario.client "sk-1" Scenario.custom_http)
                     None false None true (Some 0%nat) Scenario.world_custom))
             0%nat);
    [reflexivity | apply surjective_pairing | now left].
Defined.

(** ** Speech to text: inputs *)

(** The early returns of [sttBaseReq], in source order. *)
Lemma sttBaseReq_input_errors (E : Env) (isTranscription word segment : bool)
    (req : OATranscriptionDefaultReq) (key : string) (w : World) :
  (stt_File req = FileNil ->
   sttBaseReq E isTranscription word segment req key w
   = (Returned (None, Some (errors_New MissingArgument "file must be provided")), w))
  /\ (stt_File req <> FileNil ->
      temperature_rejected (stt_Temperature req) = true ->
      sttBaseReq E isTranscription word segment req key w
      = (Returned
           (None, Some (errors_New OutOfRange "temperature must be between 0 and 1")),
         w))
  /\ (forall e,
         temperature_rejected (stt_Temperature req) = false ->
         stt_File req <> FileNil ->
         resolve_file E req = inl e ->
         sttBaseReq E isTranscription word segment req key w
         = (Returned (None, Some e), w))
  /\ (forall fileName fileContent,
         temperature_rejected (stt_Temperature req) = false ->
         resolve_file E req = inr (fileName, fileContent) ->
         isValidExt (filepath_Ext fileName) = false ->
         sttBaseReq E isTranscription word segment req key w
         = (Returned
              (None,
               Some (errors_New InvalidArgument
                       ("your file extension is " ++ filepath_Ext fileName
                        ++ ", but it must be mp3, mp4, mpeg, mpga, m4a, webm, wav, flac, or ogg"))),
            w))
  /\ (forall fileName fileContent err,
         temperature_rejected (stt_Temperature req) = false ->
         resolve_file E req = inr (fileName, fileContent) ->
         isValidExt (filepath_Ext fileName) = true ->
         word && segment = false ->
         rd_err fileContent = Some err ->
         sttBaseReq E isTranscription word segment req key w
         = (Returned (None, Some (errors_New IOError "failed to copy file content")), w)).
Proof.
  unfold temperature_rejected.
  split; [| split; [| split; [| split]]].
  - intros HF. unfold sttBaseReq. rewrite HF. reflexivity.
  - intros HF Ht. unfold sttBaseReq.
    destruct (stt_File req); [now contradiction HF | ..]; rewrite Ht; reflexivity.
  - intros e Ht HF Hr. unfold sttBaseReq.
    destruct (stt_File req); [now contradiction HF | ..]; rewrite Ht, Hr; reflexivity.
  - intros fileName fileContent Ht Hr Hext. unfold sttBaseReq.
    destruct (stt_File req) eqn:HF;
      [unfold resolve_file in Hr; rewrite HF in Hr; discriminate Hr | ..];
      rewrite Ht, Hr, Hext; reflexivity.
  - intros fileName fileContent err Ht Hr Hext Hflags Hread. unfold sttBaseReq.
    assert (Hcopy : io_ReadAll fileContent = Failure err)
      by (unfold io_ReadAll; now rewrite Hread).
    destruct (stt_File req) eqn:HF;
      [unfold resolve_file in Hr; rewrite HF in Hr; discriminate Hr | ..];
      rewrite Ht, Hr, Hext, Hflags, Hcopy; reflexivity.
Qed.

(** The ways in which a file fails to resolve. *)
Lemma resolve_file_errors (E : Env) (req : OATranscriptionDefaultReq) :
  (forall rd, stt_File req = FileOfReader rd -> stt_Filename req = "" ->
     resolve_file E req
     = inl (errors_New MissingArgument "filename must be provided if file is io.Reader"))
  /\ (forall p err, stt_File req = FileOfPath p -> os_Open E p = Failure err ->
        resolve_file E req
        = inl (errors_New IOError ("failed to open file: " ++ err)))
  /\ (forall h err, stt_File req = FileOfHeader h -> fh_Open h = Failure err ->
        resolve_file E req
        = inl (errors_New IOError ("failed to access file content: " ++ err)))
  /\ (stt_File req = FileOfOther ->
      exists e, resolve_file E req = inl e /\ err_class e = InvalidArgument).
Proof.
  unfold resolve_file. repeat split.
  - intros rd -> ->. reflexivity.
  - intros p err -> ->. reflexivity.
  - intros h err -> ->. reflexivity.
  - intros ->. eexists. split; reflexivity.
Qed.


(** X17.  [sttBaseReq] rejects its input, in this order and each time
    without any exchange: a nil file; a temperature that is not 0 and lies
    below 0 or above 1 (before the file is touched); a file that cannot be
    resolved, that is a reader without a file name, a path that cannot be
    opened, a file header that cannot be opened, or a value of another
    type; a file name whose extension is not an accepted one; and, when
    the two timestamp flags are not both set, a file whose content cannot
    be read to its end. *)
Theorem X17_stt_input_errors (E : Env) (isTranscription word segment : bool)
    (req : OATranscriptionDefaultReq) (key : string) (w : World) :
  (stt_File req = FileNil ->
   sttBaseReq E isTranscription word segment req key w
   = (Returned (None, Some (errors_New MissingArgument "file must be provided")), w))
  /\ (stt_File req <> FileNil ->
      temperature_rejected (stt_Temperature req) = true ->
      sttBaseReq E isTranscription word segment req key w
      = (Returned
           (None, Some (errors_New OutOfRange "temperature must be between 0 and 1")),
         w))
  /\ (temperature_rejected (stt_Temperature req) = false ->
      (forall rd,
          stt_File req = FileOfReader rd -> stt_Filename req = "" ->
          sttBaseReq E isTranscription word segment req key w
          = (Returned
               (None,
                Some (errors_New MissingArgument
                        "filename must be provided if file is io.Reader")),
             w))
      /\ (forall p err,
             stt_File req = FileOfPath p -> os_Open E p = Failure err ->
             sttBaseReq E isTranscription word segment req key w
             = (Returned
                  (None, Some (errors_New IOError ("failed to open file: " ++ err))),
                w))
      /\ (forall h err,
             stt_File req = FileOfHeader h -> fh_Open h = Failure err ->
             sttBaseReq E isTranscription word segment req key w
             = (Returned
                  (None,
                   Some (errors_New IOError ("failed to access file content: " ++ err))),
                w))
      /\ (stt_File req = FileOfOther ->
          exists e,
            sttBaseReq E isTranscription word segment req key w
            = (Returned (None, Some e), w)
            /\ err_class e = InvalidArgument)
      /\ (forall fileName fileContent,
             resolve_file E req = inr (fileName, fileContent) ->
             isValidExt (filepath_Ext fileName) = false ->
             sttBaseReq E isTranscription word segment req key w
             = (Returned
                  (None,
                   Some (errors_New InvalidArgument
                           ("your file extension is " ++ filepath_Ext fileName
                            ++ ", but it must be mp3, mp4, mpeg, mpga, m4a, webm, wav, flac, or ogg"))),
                w))
      /\ (forall fileName fileContent err,
             resolve_file E req = inr (fileName, fileContent) ->
             isValidExt (filepath_Ext fileName) = true ->
             word && segment = false ->
             rd_err fileContent = Some err ->
             sttBaseReq E isTranscription word segment req key w
             = (Returned
                  (None, Some (errors_New IOError "failed to copy file content")),
                w))).
Proof.
  destruct (sttBaseReq_input_errors E isTranscription word segment req key w)
    as (Hnil & Htemp & Hres & Hext & Hcopy).
  destruct (resolve_file_errors E req) as (Hrd & Hpath & Hhdr & Hother).
  split; [exact Hnil |]. split; [exact Htemp |].
  intros Ht. repeat split.
  - intros rd HF Hname. apply Hres; [exact Ht | congruence | now apply (Hrd rd)].
  - intros p err HF Hopen. apply Hres; [exact Ht | congruence | now apply (Hpath p)].
  - intros h err HF Hopen. apply Hres; [exact Ht | congruence | now apply (Hhdr h)].
  - intros HF. destruct (Hother HF) as (e & He & Hclass).
    exists e. split; [| exact Hclass]. apply Hres; [exact Ht | congruence | exact He].
  - intros fileName fileContent. now apply Hext.
  - intros fileName fileContent err. now apply Hcopy.
Qed.

Lemma X17_stt_input_witness :
  temperature_rejected 0.5 = false
  /\ sttBaseReq Scenario.plain_env true false false
       {| stt_File := FileOfPath "/tmp/missing.mp3"; stt_Filename := "";
          stt_Prompt := ""; stt_Language := ""; stt_Temperature := 0.5 |}
       "sk-1" Scenario.world0
     = (Returned
          (None,
           Some (errors_New IOError "failed to open file: no such file or directory")),
        Scenario.world0)
  /\ sttBaseReq Scenario.plain_env true false false
       {| stt_File := FileOfReader (Scenario.reader_of "RIFF");
          stt_Filename := "speech.WAV";
          stt_Prompt := ""; stt_Language := ""; stt_Temperature := 0.5 |}
       "sk-1" Scenario.world0
     = (Returned
          (None,
           Some (errors_New InvalidArgument
                   "your file extension is .WAV, but it must be mp3, mp4, mpeg, mpga, m4a, webm, wav, flac, or ogg")),
        Scenario.world0).
Proof.
  split; [reflexivity |].
  split.
  - destruct (proj2 (proj2 (X17_stt_input_errors Scenario.plain_env true false false
                              {| stt_File := FileOfPath "/tmp/missing.mp3";
                                 stt_Filename := ""; stt_Prompt := "";
                                 stt_Language := ""; stt_Temperature := 0.5 |}
                              "sk-1" Scenario.world0)) eq_refl)
      as (_ & Hpath & _).
    apply (Hpath "/tmp/missing.mp3" "no such file or directory"); reflexivity.
  - destruct (proj2 (proj2 (X17_stt_input_errors Scenario.plain_env true false false
                              {| stt_File := FileOfReader (Scenario.reader_of "RIFF");
                                 stt_Filename := "speech.WAV"; stt_Prompt := "";
                                 stt_Language := ""; stt_Temperature := 0.5 |}
                              "sk-1" Scenario.world0)) eq_refl)
      as (_ & _ & _ & _ & Hext & _).
    apply (Hext "speech.WAV" (Scenario.reader_of "RIFF")); reflexivity.
Defined.

(** ** Speech to text: the request sent *)

Lemma float_zero_eqb : PrimFloat.eqb 0 0 = true.
Proof. reflexivity. Qed.

Lemma optional_text_part (name s : string) :
  (if negb (String.eqb (if negb (String.eqb s "") then s else "") "")
   then [form_field name (if negb (String.eqb s "") then s else "")]
   else [])
  = (if String.eqb s "" then [] else [form_field name s]).
Proof. destruct (String.eqb s "") eqn:Hs; cbn [negb]; [reflexivity | now rewrite Hs]. Qed.

Lemma temperature_part (E : Env) (t : float) :
  (if negb (PrimFloat.eqb (if negb (PrimFloat.eqb t 0) then t else 0%float) 0)
   then [form_field "temperature"
           (strconv_FormatFloat E (if negb (PrimFloat.eqb t 0) then t else 0%float))]
   else [])
  = (if PrimFloat.eqb t 0 then []
     else [form_field "temperature" (strconv_FormatFloat E t)]).
Proof.
  destruct (PrimFloat.eqb t 0) eqn:Ht; cbn [negb];
    [now rewrite float_zero_eqb | now rewrite Ht].
Qed.

(** The one exchange of [sttBaseReq], in full. *)
Lemma sttBaseReq_exchange (E : Env) (isTranscription word segment : bool)
    (req : OATranscriptionDefaultReq) (key : string) (w w' : World)
    (out : outcome (Ret string)) :
  sttBaseReq E isTranscription word segment req key w = (out, w') ->
  at_most_one_exchange
    (fun ex =>
       word && segment = false
       /\ temperature_rejected (stt_Temperature req) = false
       /\ exists fileName fileContent bytes,
            resolve_file E req = inr (fileName, fileContent)
            /\ isValidExt (filepath_Ext fileName) = true
            /\ io_ReadAll fileContent = Success bytes
            /\ form_post
                 (if isTranscription then OAUrlSTTTranscription
                  else OAUrlSTTTranslation)
                 key (multipart_boundary E)
                 (stt_form E word segment req fileName bytes) ex)
    w w'.
Proof.
  unfold temperature_rejected, sttBaseReq.
  destruct (stt_File req) eqn:HF;
    [cbn beta iota; unfold_run; intros H; injection H as <- <-; now left | ..];
    (destruct (negb (PrimFloat.eqb (stt_Temperature req) 0)
               && (PrimFloat.ltb (stt_Temperature req) 0
                   || PrimFloat.ltb 1 (stt_Temperature req))) eqn:Ht;
     [unfold_run; intros H; injection H as <- <-; now left |]);
    (destruct (resolve_file E req) as [e | [fileName fileContent]] eqn:Hres;
     [unfold_run; intros H; injection H as <- <-; now left |]);
    (destruct (isValidExt (filepath_Ext fileName)) eqn:Hext; cbn [negb];
     [| unfold_run; intros H; injection H as <- <-; now left]);
    (destruct (word && segment) eqn:Hflags;
     [unfold_run; intros H; injection H as <- <-; now left |]);
    (destruct (io_ReadAll fileContent) as [bytes | err] eqn:Hcopy;
     [| unfold_run; intros H; injection H as <- <-; now left]);
    unfold stt_form;
    destruct word, segment; try discriminate Hflags;
    cbn beta iota zeta;
    cbn [orb treq_Model treq_Language treq_Prompt treq_ResponseFormat
           treq_Temperature treq_TimestampGranularities];
    rewrite temperature_part, !optional_text_part; unfold_run;
    (destruct (url_Parse_ok E _);
     [| intros H; injection H as <- <-; now left]);
    cbn beta iota zeta;
    (destruct (RoundTrip E _ _) as [resp | err];
     [destruct (io_ReadAll (RespBody resp)) |]);
    intros H; injection H as <- <-;
    (right; eexists; split; [reflexivity |];
     split; [reflexivity |]; split; [reflexivity |];
     exists fileName, fileContent, bytes;
     split; [reflexivity |]; split; [exact Hext |]; split; [exact Hcopy |];
     repeat split; reflexivity).
Qed.

Lemma at_most_one_exchange_mono (P Q : Exchange -> Prop) (w w' : World) :
  (forall ex, P ex -> Q ex) ->
  at_most_one_exchange P w w' -> at_most_one_exchange Q w w'.
Proof.
  intros HPQ [H | (ex & H & HP)]; [now left | right].
  exists ex. split; [exact H | now apply HPQ].
Qed.

Lemma stt_form_fields (E : Env) (word segment : bool)
    (req : OATranscriptionDefaultReq) (fileName bytes : string) :
  word && segment = false ->
  exists rest,
    stt_form E word segment req fileName bytes
    = {| part_field := "file"; part_filename := Some fileName;
         part_content := bytes |}
      :: form_field "model" "whisper-1" :: rest
    /\ form_value "file" rest = None
    /\ form_value "model" rest = None
    /\ form_value "temperature" rest
       = (if PrimFloat.eqb (stt_Temperature req) 0 then None
          else Some (strconv_FormatFloat E (stt_Temperature req)))
    /\ form_value "prompt" rest
       = (if String.eqb (stt_Prompt req) "" then None else Some (stt_Prompt req))
    /\ form_value "language" rest
       = (if String.eqb (stt_Language req) "" then None else Some (stt_Language req))
    /\ form_value "response_format" rest
       = (if word || segment then Some "verbose_json" else None)
    /\ form_value "timestamp_granularities[]" rest
       = (if word then Some "word" else if segment then Some "segment" else None).
Proof.
  intros Hflags. unfold stt_form. eexists. split; [reflexivity |].
  destruct word, segment; try discriminate Hflags;
    destruct (PrimFloat.eqb (stt_Temperature req) 0),
      (String.eqb (stt_Prompt req) ""), (String.eqb (stt_Language req) "");
    repeat split; reflexivity.
Qed.



(** X19.  Each speech-to-text operation performs at most one exchange,
    through a zero-valued HTTP client and with the key of the client in
    the Authorization header.  The three transcriptions post to the
    transcription endpoint, the translation to the translation endpoint.
    The form always names the model "whisper-1".  The default transcription
    and the translation send no response format and no timestamp
    granularity; the word and segment transcriptions send the response
    format "verbose_json" with the granularity "word" and "segment".  The
    transcriptions send the language when it is not empty; the translation
    never sends one. *)
Theorem X19_stt_operations_exchange (E : Env) (c : openaiAPI) :
  (forall req,
      run_rel
        (at_most_one_exchange
           (fun ex =>
              exists parts,
                form_post OAUrlSTTTranscription (apiKey c) (multipart_boundary E)
                  parts ex
                /\ form_value "model" parts = Some "whisper-1"
                /\ form_value "response_format" parts = None
                /\ form_value "timestamp_granularities[]" parts = None
                /\ form_value "language" parts
                   = (if String.eqb (stt_Language req) "" then None
                      else Some (stt_Language req))))
        (OpenAISpeechToTextDefault E c (Some req)))
  /\ (forall req,
         run_rel
           (at_most_one_exchange
              (fun ex =>
                 exists parts,
                   form_post OAUrlSTTTranscription (apiKey c) (multipart_boundary E)
                     parts ex
                   /\ form_value "model" parts = Some "whisper-1"
                   /\ form_value "response_format" parts = Some "verbose_json"
                   /\ form_value "timestamp_granularities[]" parts = Some "word"
                   /\ form_value "language" parts
                      = (if String.eqb (stt_Language req) "" then None
                         else Some (stt_Language req))))
           (OpenAISpeechToTextWordTimestamps E c (Some req)))
  /\ (forall req,
         run_rel
           (at_most_one_exchange
              (fun ex =>
                 exists parts,
                   form_post OAUrlSTTTranscription (apiKey c) (multipart_boundary E)
                     parts ex
                   /\ form_value "model" parts = Some "whisper-1"
                   /\ form_value "response_format" parts = Some "verbose_json"
                   /\ form_value "timestamp_granularities[]" parts = Some "segment"
                   /\ form_value "language" parts
                      = (if String.eqb (stt_Language req) "" then None
                         else Some (stt_Language req))))
           (OpenAISpeechToTextSegmentTimestamps E c (Some req)))
  /\ (forall req,
         run_rel
           (at_most_one_exchange
              (fun ex =>
                 exists parts,
                   form_post OAUrlSTTTranslation (apiKey c) (multipart_boundary E)
                     parts ex
                   /\ form_value "model" parts = Some "whisper-1"
                   /\ form_value "response_format" parts = None
                   /\ form_value "timestamp_granularities[]" parts = None
                   /\ form_value "language" parts = None))
           (OpenAISpeechToTextTranslation E c (Some req))).
Proof.
  assert (Hbase : forall (isT word segment : bool) (req : OATranscriptionDefaultReq),
             word && segment = false ->
             run_rel
               (at_most_one_exchange
                  (fun ex =>
                     exists parts,
                       form_post
                         (if isT then OAUrlSTTTranscription else OAUrlSTTTranslation)
                         (apiKey c) (multipart_boundary E) parts ex
                       /\ form_value "model" parts = Some "whisper-1"
                       /\ form_value "response_format" parts
                          = (if word || segment then Some "verbose_json" else None)
                       /\ form_value "timestamp_granularities[]" parts
                          = (if word then Some "word"
                             else if segment then Some "segment" else None)
                       /\ form_value "language" parts
                          = (if String.eqb (stt_Language req) "" then None
                             else Some (stt_Language req))))
               (sttBaseReq E isT word segment req (apiKey c))).
  { intros isT word segment req Hflags w out w' H.
    apply sttBaseReq_exchange in H. revert H. apply at_most_one_exchange_mono.
    intros ex (_ & _ & fileName & fileContent & bytes & _ & _ & _ & Hpost).
    destruct (stt_form_fields E word segment req fileName bytes Hflags)
      as (rest & Hform & _ & _ & _ & _ & Hl & Hrf & Hg).
    exists (stt_form E word segment req fileName bytes).
    split; [exact Hpost |]. rewrite Hform. cbn [form_value part_field form_field].
    change (String.eqb "file" "model") with false.
    change (String.eqb "model" "model") with true.
    change (String.eqb "file" "response_format") with false.
    change (String.eqb "model" "response_format") with false.
    change (String.eqb "file" "timestamp_granularities[]") with false.
    change (String.eqb "model" "timestamp_granularities[]") with false.
    change (String.eqb "file" "language") with false.
    change (String.eqb "model" "language") with false.
    cbn beta iota. repeat split; assumption. }
  assert (Hdecode : forall T (u : string -> option T) (err : T -> OASTTError) r,
             run_rel same_log (stt_decode u err r)).
  { intros. unfold stt_decode. same_log_steps. }
  repeat split; intros req;
    [ unfold OpenAISpeechToTextDefault
    | unfold OpenAISpeechToTextWordTimestamps
    | unfold OpenAISpeechToTextSegmentTimestamps
    | unfold OpenAISpeechToTextTranslation ];
    cbv zeta; apply run_rel_deref_some; cbn beta;
    (apply same_after_one; [| intros r; apply Hdecode]).
  - exact (Hbase true false false req eq_refl).
  - exact (Hbase true true false req eq_refl).
  - exact (Hbase true false true req eq_refl).
  - exact (Hbase false false false (translation_request req) eq_refl).
Qed.

Lemma X19_stt_operations_witness :
  at_most_one_exchange
    (fun ex =>
       exists parts,
         form_post OAUrlSTTTranslation "sk-1" "boundary" parts ex
         /\ form_value "model" parts = Some "whisper-1"
         /\ form_value "language" parts = None)
    Scenario.world0
    (snd (OpenAISpeechToTextTranslation Scenario.plain_env
            (Scenario.client "sk-1" Scenario.custom_http)
            (Some Scenario.translation_req) Scenario.world0)).
Proof.
  eapply at_most_one_exchange_mono;
    [| eapply (proj2 (proj2 (proj2
                 (X19_stt_operations_exchange Scenario.plain_env
                    (Scenario.client "sk-1" Scenario.custom_http))))
                 Scenario.translation_req);
       apply surjective_pairing].
  intros ex (parts & Hpost & Hmodel & _ & _ & Hl).
  exists parts. split; [exact Hpost | split; [exact Hmodel | exact Hl]].
Defined.

(** ** Speech to text: where a result comes from *)

Lemma sttBaseReq_result_origin (E : Env) (isTranscription word segment : bool)
    (req : OATranscriptionDefaultReq) (key : string) (w w' : World)
    (body : string) (e : option error) :
  sttBaseReq E isTranscription word segment req key w
  = (Returned (Some body, e), w') ->
  e = None
  /\ exists ex resp,
       net_log w' = ex :: net_log w
       /\ ex_client ex = http_Client_zero
       /\ RoundTrip E (ex_client ex) (ex_request ex) = Success resp
       /\ io_ReadAll (RespBody resp) = Success body.
Proof.
  unfold sttBaseReq.
  destruct (stt_File req) eqn:HF;
    [cbn beta iota; unfold_run; intros H; discriminate H | ..];
    (destruct (negb (PrimFloat.eqb (stt_Temperature req) 0)
               && (PrimFloat.ltb (stt_Temperature req) 0
                   || PrimFloat.ltb 1 (stt_Temperature req)));
     [unfold_run; intros H; discriminate H |]);
    (destruct (resolve_file E req) as [err | [fileName fileContent]];
     [unfold_run; intros H; discriminate H |]);
    (destruct (isValidExt (filepath_Ext fileName)); cbn [negb];
     [| unfold_run; intros H; discriminate H]);
    (destruct (word && segment) eqn:Hflags;
     [unfold_run; intros H; discriminate H |]);
    (destruct (io_ReadAll fileContent) as [bytes | err];
     [| unfold_run; intros H; discriminate H]);
    destruct word, segment; try discriminate Hflags;
    cbn beta iota zeta;
    cbn [orb treq_Model treq_Language treq_Prompt treq_ResponseFormat
           treq_Temperature treq_TimestampGranularities];
    unfold_run;
    (destruct (url_Parse_ok E _); [| intros H; discriminate H]);
    cbn beta iota zeta;
    (destruct (RoundTrip E _ _) as [resp | err] eqn:Hrt;
     [destruct (io_ReadAll (RespBody resp)) as [b | err] eqn:Hread |]);
    intros H; try discriminate H; injection H as <- <- <-;
    (split; [reflexivity |]; eexists _, resp;
     split; [reflexivity |]; split; [reflexivity |];
     split; [exact Hrt | exact Hread]).
Qed.

Lemma stt_decode_result_origin {T : Type} (E : Env) (m : M (Ret string))
    (u : string -> option T) (err : T -> OASTTError) (w w' : World)
    (r : T) (e : option error) :
  (forall w1 body e1,
      m w = (Returned (Some body, e1), w1) ->
      e1 = None
      /\ exists ex resp,
           net_log w1 = ex :: net_log w
           /\ ex_client ex = http_Client_zero
           /\ RoundTrip E (ex_client ex) (ex_request ex) = Success resp
           /\ io_ReadAll (RespBody resp) = Success body) ->
  (m ≫= stt_decode u err) w = (Returned (Some r, e), w') ->
  e = None /\ stt_result_origin E u err w w' r.
Proof.
  intros Hm. unfold mbind, M_bind.
  destruct (m w) as [[[[body |] [e1 |]] | msg] w1] eqn:Hrun;
    unfold_run; try (intros H; discriminate H).
  destruct (Hm _ _ _ eq_refl) as (_ & ex & resp & Hlog & Hcl & Hrt & Hread).
  unfold_run.
  destruct (u body) as [result |] eqn:Hu; [| intros H; discriminate H].
  destruct (String.eqb (stterr_Message (err result)) "") eqn:Hmsg;
    cbn [negb]; intros H; [| discriminate H].
  injection H as <- <- <-.
  split; [reflexivity |].
  exists ex, resp, body.
  repeat (split; [assumption |]). now apply String.eqb_eq.
Qed.

(** X20.  Each of the four speech-to-text operations returns a result only
    with no error beside it, after exactly one exchange through a
    zero-valued HTTP client: the body of the response was read to its end
    and decoded to that result, and the message of the error object in the
    result is empty.  Nothing is required of the status of the response. *)
Theorem X20_stt_result_origin (E : Env) (c : openaiAPI) (w w' : World) :
  (forall req r e,
      OpenAISpeechToTextDefault E c req w = (Returned (Some r, e), w') ->
      e = None /\ stt_result_origin E (Unmarshal_default E) def_Error w w' r)
  /\ (forall req r e,
         OpenAISpeechToTextWordTimestamps E c req w = (Returned (Some r, e), w') ->
         e = None /\ stt_result_origin E (Unmarshal_word E) wts_Error w w' r)
  /\ (forall req r e,
         OpenAISpeechToTextSegmentTimestamps E c req w = (Returned (Some r, e), w') ->
         e = None /\ stt_result_origin E (Unmarshal_segment E) sts_Error w w' r)
  /\ (forall req r e,
         OpenAISpeechToTextTranslation E c req w = (Returned (Some r, e), w') ->
         e = None /\ stt_result_origin E (Unmarshal_default E) def_Error w w' r).
Proof.
  (split; [| split; [| split]]); intros [req |] r e;
    try (intros H; discriminate H);
    [ unfold OpenAISpeechToTextDefault
    | unfold OpenAISpeechToTextWordTimestamps
    | unfold OpenAISpeechToTextSegmentTimestamps
    | unfold OpenAISpeechToTextTranslation ];
    cbv zeta; intros H;
    (apply (stt_decode_result_origin E _ _ _ _ _ _ _
              (fun w1 body e1 => sttBaseReq_result_origin E _ _ _ _ _ w w1 body e1))
       in H);
    apply H.
Qed.

Lemma X20_stt_result_witness :
  stt_result_origin Scenario.plain_env (Unmarshal_default Scenario.plain_env)
    def_Error Scenario.world0
    (snd (OpenAISpeechToTextDefault Scenario.plain_env
            (Scenario.client "sk-1" Scenario.custom_http)
            (Some Scenario.audio_req) Scenario.world0))
    {| def_Text := ""; def_Error := Scenario.no_stt_error |}.
Proof.
  apply (proj1 (X20_stt_result_origin Scenario.plain_env
                  (Scenario.client "sk-1" Scenario.custom_http) Scenario.world0
                  (snd (OpenAISpeechToTextDefault Scenario.plain_env
                          (Scenario.client "sk-1" Scenario.custom_http)
                          (Some Scenario.audio_req) Scenario.world0)))
           (Some Scenario.audio_req)
           {| def_Text := ""; def_Error := Scenario.no_stt_error |} None).
  vm_compute. reflexivity.
Defined.

Lemma stt_decode_accepts {T : Type} (u : string -> option T)
    (err : T -> OASTTError) (body : string) (r : T) (w : World) :
  u body = Some r -> stterr_Message (err r) = "" ->
  stt_decode u err (Some body, None) w = (Returned (Some r, None), w).
Proof.
  intros Hu Hmsg. unfold stt_decode. unfold_run. rewrite Hu, Hmsg. reflexivity.
Qed.

(** X21.  The speech-to-text operations do not look at the status of the
    response.  When every request can be built and the network answers
    with a response whose body can be read, whatever its status, then for
    a request that passes the checks made before the network is used, each
    operation returns the decoding of the body as its result, without an
    error, provided the body decodes to a value whose error object has an
    empty message. *)
Theorem X21_stt_status_not_checked (E : Env) (c : openaiAPI) (w : World)
    (resp : http_Response) :
  (forall url, url_Parse_ok E url = true) ->
  (forall rq, RoundTrip E http_Client_zero rq = Success resp) ->
  rd_err (RespBody resp) = None ->
  (forall req fileName fileContent r,
      stt_sendable E req fileName fileContent ->
      Unmarshal_default E (rd_bytes (RespBody resp)) = Some r ->
      stterr_Message (def_Error r) = "" ->
      exists w',
        OpenAISpeechToTextDefault E c (Some req) w = (Returned (Some r, None), w'))
  /\ (forall req fileName fileContent r,
         stt_sendable E req fileName fileContent ->
         Unmarshal_word E (rd_bytes (RespBody resp)) = Some r ->
         stterr_Message (wts_Error r) = "" ->
         exists w',
           OpenAISpeechToTextWordTimestamps E c (Some req) w
           = (Returned (Some r, None), w'))
  /\ (forall req fileName fileContent r,
         stt_sendable E req fileName fileContent ->
         Unmarshal_segment E (rd_bytes (RespBody resp)) = Some r ->
         stterr_Message (sts_Error r) = "" ->
         exists w',
           OpenAISpeechToTextSegmentTimestamps E c (Some req) w
           = (Returned (Some r, None), w'))
  /\ (forall req fileName fileContent r,
         stt_sendable E (translation_request req) fileName fileContent ->
         Unmarshal_default E (rd_bytes (RespBody resp)) = Some r ->
         stterr_Message (def_Error r) = "" ->
         exists w',
           OpenAISpeechToTextTranslation E c (Some req) w
           = (Returned (Some r, None), w')).
Proof.
  intros Hurl Hnet Hbody.
  (split; [| split; [| split]]);
    intros req fileName fileContent r (Ht & Hf & Hx & Hrd) Hu Hmsg;
    [ destruct (sttBaseReq_returns_body_whatever_status E true false false req
                  (apiKey c) w fileName fileContent resp
                  Ht Hf Hx eq_refl Hrd Hurl Hnet Hbody) as (w' & Hrun);
      unfold OpenAISpeechToTextDefault
    | destruct (sttBaseReq_returns_body_whatever_status E true true false req
                  (apiKey c) w fileName fileContent resp
                  Ht Hf Hx eq_refl Hrd Hurl Hnet Hbody) as (w' & Hrun);
      unfold OpenAISpeechToTextWordTimestamps
    | destruct (sttBaseReq_returns_body_whatever_status E true false true req
                  (apiKey c) w fileName fileContent resp
                  Ht Hf Hx eq_refl Hrd Hurl Hnet Hbody) as (w' & Hrun);
      unfold OpenAISpeechToTextSegmentTimestamps
    | destruct (sttBaseReq_returns_body_whatever_status E false false false
                  (translation_request req)
                  (apiKey c) w fileName fileContent resp
                  Ht Hf Hx eq_refl Hrd Hurl Hnet Hbody) as (w' & Hrun);
      unfold OpenAISpeechToTextTranslation ];
    exists w'; cbv zeta;
    unfold deref; unfold mbind at 1, M_bind at 1, mret, M_ret; cbn beta iota;
    unfold mbind, M_bind; rewrite Hrun;
    now apply stt_decode_accepts.
Qed.

Lemma X21_stt_status_witness :
  StatusCode {| StatusCode := 401; Status := "401 Unauthorized";
                RespBody := Scenario.reader_of "{}" |} = 401%Z
  /\ exists w',
       OpenAISpeechToTextDefault (unauthorized_env "{}")
         (Scenario.client "sk-1" Scenario.custom_http)
         (Some Scenario.audio_req) Scenario.world0
       = (Returned (Some {| def_Text := ""; def_Error := Scenario.no_stt_error |},
                    None), w').
Proof.
  split; [reflexivity |].
  apply (proj1 (X21_stt_status_not_checked (unauthorized_env "{}")
                  (Scenario.client "sk-1" Scenario.custom_http) Scenario.world0
                  {| StatusCode := 401; Status := "401 Unauthorized";
                     RespBody := Scenario.reader_of "{}" |}
                  (fun _ => eq_refl) (fun _ => eq_refl) eq_refl)
           Scenario.audio_req "speech.wav" (Scenario.reader_of "RIFF")).
  - repeat split; reflexivity.
  - reflexivity.
  - reflexivity.
Defined.

(** ** What an operation returns once the network has answered *)

Lemma cons_neq {A : Type} (l : list A) (x : A) : l <> x :: l.
Proof.
  revert x. induction l as [| a l IH]; intros x H; [discriminate H |].
  injection H as _ Hl. exact (IH _ Hl).
Qed.

Ltac answer_cases Hlog :=
  cbn [net_log] in Hlog;
  first
    [ exfalso; exact (cons_neq _ _ Hlog)
    | injection Hlog as <-; cbn [ex_client ex_request];
      repeat match goal with
        | Heq : ?x = _ |- context [match ?x with _ => _ end] => rewrite Heq
        end;
      reflexivity ].

(** X22.  When chat completion, image generation or text to speech has
    performed its exchange, what it returns is decided by the answer of
    the network alone.  A transport failure gives the error "Failed to
    send request: " followed by the failure.  A response whose status is
    not 200 gives the error "Failed to send request: " followed by the
    status line, and its body is not looked at.  A response of status 200
    gives the decoded body (for text to speech: the extension and the
    base64 encoding of the bytes read), or the decoding (reading) error. *)
Theorem X22_json_outcome_after_exchange (E : Env) (c : openaiAPI)
    (w w' : World) (ex : Exchange) :
  net_log w' = ex :: net_log w ->
  (forall content wfr fr wcr custom out,
      OpenAISendMessage E c content wfr fr wcr custom w = (out, w') ->
      out
      = Returned
          match RoundTrip E (ex_client ex) (ex_request ex) with
          | Failure err =>
              ret_err (errors_New TransportError ("Failed to send request: " ++ err))
          | Success resp =>
              if negb (StatusCode resp =? http_StatusOK)%Z then
                ret_err (errors_New TransportError
                           ("Failed to send request: " ++ Status resp))
              else
                match Decode_chat E (RespBody resp) with
                | Failure err =>
                    ret_err (errors_New DecodeError
                               ("Failed to decode response: " ++ err))
                | Success result => ret_ok result
                end
          end)
  /\ (forall req_body out,
         OpenAICreateImageDallE E c req_body w = (out, w') ->
         out
         = Returned
             match RoundTrip E (ex_client ex) (ex_request ex) with
             | Failure err =>
                 ret_err (errors_New TransportError
                            ("Failed to send request: " ++ err))
             | Success resp =>
                 if negb (StatusCode resp =? http_StatusOK)%Z then
                   ret_err (errors_New TransportError
                              ("Failed to send request: " ++ Status resp))
                 else
                   match Decode_image E (RespBody resp) with
                   | Failure err =>
                       ret_err (errors_New DecodeError
                                  ("Failed to decode response: " ++ err))
                   | Success result => ret_ok result
                   end
             end)
  /\ (forall r out,
         OpenAITextToSpeech E c (Some r) w = (out, w') ->
         out
         = Returned
             match RoundTrip E (ex_client ex) (ex_request ex) with
             | Failure err =>
                 ret_err (errors_New TransportError
                            ("Failed to send request: " ++ err))
             | Success resp =>
                 if negb (StatusCode resp =? http_StatusOK)%Z then
                   ret_err (errors_New TransportError
                              ("Failed to send request: " ++ Status resp))
                 else
                   match io_ReadAll (RespBody resp) with
                   | Failure err =>
                       ret_err (errors_New TransportError
                                  ("Failed to read response body3: " ++ err))
                   | Success fileBytes =>
                       ret_ok {| B64JSON := base64_EncodeToString E fileBytes;
                                 FormatAudio :=
                                   if String.eqb (tts_ResponseFormat r) ""
                                   then ".mp3"
                                   else "." ++ tts_ResponseFormat r |}
                   end
             end).
Proof.
  intros Hlog. split; [| split].
  - intros content wfr fr wcr custom out.
    match goal with |- _ -> _ = ?rhs => set (expected := rhs) end.
    unfold OpenAISendMessage. unfold_run.
    split_goal; intros H; injection H as <- <-; subst expected;
      answer_cases Hlog.
  - intros req_body out.
    match goal with |- _ -> _ = ?rhs => set (expected := rhs) end.
    unfold OpenAICreateImageDallE. unfold_run.
    split_goal; intros H; injection H as <- <-; subst expected;
      answer_cases Hlog.
  - intros r out.
    match goal with |- _ -> _ = ?rhs => set (expected := rhs) end.
    unfold OpenAITextToSpeech. unfold_run.
    split_goal; intros H; injection H as <- <-; subst expected;
      answer_cases Hlog.
Qed.

Lemma X22_json_outcome_witness :
  fst (OpenAISendMessage (unauthorized_env "{}")
         (Scenario.client "sk-1" Scenario.custom_http)
         (Some Scenario.hello) false None false None Scenario.world0)
  = Returned
      (ret_err (errors_New TransportError
                  "Failed to send request: 401 Unauthorized")).
Proof.
  eassert (Hlog : net_log
                    (snd (OpenAISendMessage (unauthorized_env "{}")
                            (Scenario.client "sk-1" Scenario.custom_http)
                            (Some Scenario.hello) false None false None
                            Scenario.world0))
                  = _ :: net_log Scenario.world0) by reflexivity.
  rewrite (proj1 (X22_json_outcome_after_exchange (unauthorized_env "{}")
                    (Scenario.client "sk-1" Scenario.custom_http)
                    Scenario.world0 _ _ Hlog)
             (Some Scenario.hello) false None false None _
             (surjective_pairing _)).
  reflexivity.
Defined.

(** On a file value of one of the kinds of [FileInput], [sttBaseReq]
    returns an error without an exchange, or performs one exchange and
    returns what the answer decides. *)
Lemma sttBaseReq_outcome (E : Env) (isTranscription word segment : bool)
    (req : OATranscriptionDefaultReq) (key : string) (w w1 : World)
    (out : outcome (Ret string)) :
  sttBaseReq E isTranscription word segment req key w = (out, w1) ->
  (net_log w1 = net_log w /\ exists e, out = Returned (None, Some e))
  \/ (exists ex,
         net_log w1 = ex :: net_log w
         /\ out
            = Returned
                match RoundTrip E (ex_client ex) (ex_request ex) with
                | Failure _ =>
                    ret_err (errors_New TransportError "failed to send request")
                | Success resp =>
                    match io_ReadAll (RespBody resp) with
                    | Failure _ =>
                        ret_err (errors_New TransportError
                                   "failed to read response body")
                    | Success respBody => ret_ok respBody
                    end
                end).
Proof.
  unfold sttBaseReq.
  destruct (stt_File req) eqn:HF;
    [cbn beta iota; unfold_run; intros H; injection H as <- <-;
     left; split; [reflexivity | eexists; reflexivity] | ..];
    (destruct (negb (PrimFloat.eqb (stt_Temperature req) 0)
               && (PrimFloat.ltb (stt_Temperature req) 0
                   || PrimFloat.ltb 1 (stt_Temperature req)));
     [unfold_run; intros H; injection H as <- <-;
      left; split; [reflexivity | eexists; reflexivity] |]);
    (destruct (resolve_file E req) as [err | [fileName fileContent]];
     [unfold_run; intros H; injection H as <- <-;
      left; split; [reflexivity | eexists; reflexivity] |]);
    (destruct (isValidExt (filepath_Ext fileName)); cbn [negb];
     [| unfold_run; intros H; injection H as <- <-;
        left; split; [reflexivity | eexists; reflexivity]]);
    (destruct (word && segment) eqn:Hflags;
     [unfold_run; intros H; injection H as <- <-;
      left; split; [reflexivity | eexists; reflexivity] |]);
    (destruct (io_ReadAll fileContent) as [bytes | err];
     [| unfold_run; intros H; injection H as <- <-;
        left; split; [reflexivity | eexists; reflexivity]]);
    destruct word, segment; try discriminate Hflags;
    cbn beta iota zeta;
    cbn [orb treq_Model treq_Language treq_Prompt treq_ResponseFormat
           treq_Temperature treq_TimestampGranularities];
    unfold_run;
    (destruct (url_Parse_ok E _);
     [| intros H; injection H as <- <-;
        left; split; [reflexivity | eexists; reflexivity]]);
    cbn beta iota zeta;
    (destruct (RoundTrip E _ _) as [resp | err] eqn:Hrt;
     [destruct (io_ReadAll (RespBody resp)) as [b | err] eqn:Hread |]);
    intros H; injection H as <- <-;
    (right; eexists; split; [reflexivity |];
     match goal with
     | |- _ = Returned (match ?x with Success _ => _ | Failure _ => _ end) =>
         match type of Hrt with
         | _ = ?v => replace x with v by (symmetry; exact Hrt)
         end
     end;
     cbn beta iota; try rewrite Hread; reflexivity).
Qed.

Lemma stt_outcome_after_exchange {T : Type} (E : Env)
    (u : string -> option T) (err : T -> OASTTError)
    (isTranscription word segment : bool) (req : OATranscriptionDefaultReq)
    (key : string) (w w' : World) (ex : Exchange) (out : outcome (Ret T)) :
  net_log w' = ex :: net_log w ->
  (sttBaseReq E isTranscription word segment req key ≫= stt_decode u err) w
  = (out, w') ->
  out
  = Returned
      match RoundTrip E (ex_client ex) (ex_request ex) with
      | Failure _ => ret_err (errors_New TransportError "failed to send request")
      | Success resp =>
          match io_ReadAll (RespBody resp) with
          | Failure _ =>
              ret_err (errors_New TransportError "failed to read response body")
          | Success respBody =>
              match u respBody with
              | None =>
                  ret_err (errors_New DecodeError "failed to unmarshal response")
              | Some result =>
                  if negb (String.eqb (stterr_Message (err result)) "")
                  then ret_err (errors_New ProviderError
                                  (stterr_Message (err result)))
                  else ret_ok result
              end
          end
      end.
Proof.
  intros Hlog. unfold mbind, M_bind.
  destruct (sttBaseReq E isTranscription word segment req key w)
    as [out1 w1] eqn:Hrun.
  destruct (sttBaseReq_outcome _ _ _ _ _ _ _ _ _ Hrun)
    as [(Hsame & e & ->) | (ex1 & Hone & ->)].
  - unfold stt_decode. unfold_run. intros H. injection H as <- <-.
    rewrite Hsame in Hlog. exfalso. exact (cons_neq _ _ Hlog).
  - unfold stt_decode, ret_ok, ret_err.
    destruct (RoundTrip E (ex_client ex1) (ex_request ex1)) as [resp | e] eqn:Hrt;
      [destruct (io_ReadAll (RespBody resp)) as [b | e] eqn:Hread |];
      unfold_run;
      [destruct (u b) as [result |] eqn:Hu;
       [destruct (negb (String.eqb (stterr_Message (err result)) "")) eqn:Hmsg |]
      | |];
      intros H; injection H as <- <-;
      rewrite Hone in Hlog; injection Hlog as <-;
      rewrite Hrt; try rewrite Hread; try rewrite Hu; try rewrite Hmsg;
      reflexivity.
Qed.

(** X23.  When a speech-to-text operation has performed its exchange, what
    it returns is decided by the answer of the network alone, whatever the
    status of the response.  A transport failure gives the error "failed
    to send request", a body that cannot be read "failed to read response
    body", a body that cannot be decoded "failed to unmarshal response".
    A decoded body whose error object has a non-empty message gives that
    message as the error, and any other decoded body is the result. *)
Theorem X23_stt_outcome_after_exchange (E : Env) (c : openaiAPI)
    (w w' : World) (ex : Exchange) :
  net_log w' = ex :: net_log w ->
  (forall req out,
      OpenAISpeechToTextDefault E c (Some req) w = (out, w') ->
      out
      = Returned
          match RoundTrip E (ex_client ex) (ex_request ex) with
          | Failure _ => ret_err (errors_New TransportError "failed to send request")
          | Success resp =>
              match io_ReadAll (RespBody resp) with
              | Failure _ =>
                  ret_err (errors_New TransportError "failed to read response body")
              | Success respBody =>
                  match Unmarshal_default E respBody with
                  | None =>
                      ret_err (errors_New DecodeError "failed to unmarshal response")
                  | Some result =>
                      if negb (String.eqb (stterr_Message (def_Error result)) "")
                      then ret_err (errors_New ProviderError
                                      (stterr_Message (def_Error result)))
                      else ret_ok result
                  end
              end
          end)
  /\ (forall req out,
         OpenAISpeechToTextWordTimestamps E c (Some req) w = (out, w') ->
         out
         = Returned
             match RoundTrip E (ex_client ex) (ex_request ex) with
             | Failure _ =>
                 ret_err (errors_New TransportError "failed to send request")
             | Success resp =>
                 match io_ReadAll (RespBody resp) with
                 | Failure _ =>
                     ret_err (errors_New TransportError
                                "failed to read response body")
                 | Success respBody =>
                     match Unmarshal_word E respBody with
                     | None =>
                         ret_err (errors_New DecodeError
                                    "failed to unmarshal response")
                     | Some result =>
                         if negb (String.eqb (stterr_Message (wts_Error result)) "")
                         then ret_err (errors_New ProviderError
                                         (stterr_Message (wts_Error result)))
                         else ret_ok result
                     end
                 end
             end)
  /\ (forall req out,
         OpenAISpeechToTextSegmentTimestamps E c (Some req) w = (out, w') ->
         out
         = Returned
             match RoundTrip E (ex_client ex) (ex_request ex) with
             | Failure _ =>
                 ret_err (errors_New TransportError "failed to send request")
             | Success resp =>
                 match io_ReadAll (RespBody resp) with
                 | Failure _ =>
                     ret_err (errors_New TransportError
                                "failed to read response body")
                 | Success respBody =>
                     match Unmarshal_segment E respBody with
                     | None =>
                         ret_err (errors_New DecodeError
                                    "failed to unmarshal response")
                     | Some result =>
                         if negb (String.eqb (stterr_Message (sts_Error result)) "")
                         then ret_err (errors_New ProviderError
                                         (stterr_Message (sts_Error result)))
                         else ret_ok result
                     end
                 end
             end)
  /\ (forall req out,
         OpenAISpeechToTextTranslation E c (Some req) w = (out, w') ->
         out
         = Returned
             match RoundTrip E (ex_client ex) (ex_request ex) with
             | Failure _ =>
                 ret_err (errors_New TransportError "failed to send request")
             | Success resp =>
                 match io_ReadAll (RespBody resp) with
                 | Failure _ =>
                     ret_err (errors_New TransportError
                                "failed to read response body")
                 | Success respBody =>
                     match Unmarshal_default E respBody with
                     | None =>
                         ret_err (errors_New DecodeError
                                    "failed to unmarshal response")
                     | Some result =>
                         if negb (String.eqb (stterr_Message (def_Error result)) "")
                         then ret_err (errors_New ProviderError
                                         (stterr_Message (def_Error result)))
                         else ret_ok result
                     end
                 end
             end).
Proof.
  intros Hlog.
  (split; [| split; [| split]]); intros req out;
    [ unfold OpenAISpeechToTextDefault
    | unfold OpenAISpeechToTextWordTimestamps
    | unfold OpenAISpeechToTextSegmentTimestamps
    | unfold OpenAISpeechToTextTranslation ];
    cbv zeta; intros H;
    exact (stt_outcome_after_exchange E _ _ _ _ _ _ _ _ _ _ _ Hlog H).
Qed.

Lemma X23_stt_outcome_witness :
  fst (OpenAISpeechToTextDefault Scenario.quota_env
         (Scenario.client "sk-1" Scenario.custom_http)
         (Some Scenario.audio_req) Scenario.world0)
  = Returned
      (ret_err (errors_New ProviderError "You exceeded your current quota")).
Proof.
  eassert (Hlog : net_log
                    (snd (OpenAISpeechToTextDefault Scenario.quota_env
                            (Scenario.client "sk-1" Scenario.custom_http)
                            (Some Scenario.audio_req) Scenario.world0))
                  = _ :: net_log Scenario.world0) by reflexivity.
  rewrite (proj1 (X23_stt_outcome_after_exchange Scenario.quota_env
                    (Scenario.client "sk-1" Scenario.custom_http)
                    Scenario.world0 _ _ Hlog)
             Scenario.audio_req _ (surjective_pairing _)).
  reflexivity.
Defined.

(** ** Which calls cannot panic *)

(** X24.  On a client that holds a configuration with an HTTP client,
    image generation and text to speech return (a result or an error) on
    every non-nil request, whatever the network and the decoder do: they
    never panic.  Chat completion returns whenever it is not asked to use
    a custom request, and also when the custom request it is asked to use
    points to a struct. *)
Theorem X24_calls_that_cannot_panic (E : Env) (c : openaiAPI) (w : World) :
  (forall r, exists ret w',
      OpenAICreateImageDallE E c (Some r) w = (Returned ret, w'))
  /\ (forall r, exists ret w',
         OpenAITextToSpeech E c (Some r) w = (Returned ret, w'))
  /\ (forall content wfr fr custom, exists ret w',
         OpenAISendMessage E c content wfr fr false custom w = (Returned ret, w'))
  /\ (forall content wfr fr l r,
         heap w !! l = Some r ->
         exists ret w',
           OpenAISendMessage E c content wfr fr true (Some l) w
           = (Returned ret, w')).
Proof.
  split; [| split; [| split]].
  - intros r. unfold OpenAICreateImageDallE. unfold_run.
    split_goal; eexists _, _; reflexivity.
  - intros r. unfold OpenAITextToSpeech. unfold_run.
    split_goal; eexists _, _; reflexivity.
  - intros content wfr fr custom. unfold OpenAISendMessage. unfold_run.
    destruct (String.eqb (apiKey c) ""); [eexists _, _; reflexivity |].
    destruct wfr, fr as [fmt |]; cbn [andb is_nil negb];
      try (eexists _, _; reflexivity);
      (destruct content as [msgs |]; cbn [andb is_nil negb];
       [| eexists _, _; reflexivity]);
      split_goal; eexists _, _; reflexivity.
  - intros content wfr fr l r Hl. unfold OpenAISendMessage. unfold_run.
    destruct (String.eqb (apiKey c) ""); [eexists _, _; reflexivity |].
    destruct wfr, fr as [fmt |]; cbn [andb is_nil negb];
      try (eexists _, _; reflexivity);
      rewrite Hl; cbn beta iota zeta; cbn [fst snd heap net_log];
      (destruct (is_nil_iface (Messages r)); [eexists _, _; reflexivity |]);
      cbn beta iota zeta; cbn [fst snd heap net_log];
      try rewrite Hl; try rewrite lookup_insert_eq;
      cbn beta iota zeta; cbn [fst snd heap net_log];
      split_goal;
      try match goal with
          | Hk : <[_:=_]> _ !! _ = None |- _ =>
              rewrite lookup_insert_eq in Hk; discriminate Hk
          end;
      eexists _, _; reflexivity.
Qed.

Lemma X24_calls_that_cannot_panic_witness :
  exists ret w',
    OpenAISendMessage Scenario.plain_env
      (Scenario.client "sk-1" Scenario.custom_http)
      None false None true (Some 0%nat) Scenario.world_custom
    = (Returned ret, w').
Proof.
  apply (proj2 (proj2 (proj2
           (X24_calls_that_cannot_panic Scenario.plain_env
              (Scenario.client "sk-1" Scenario.custom_http)
              Scenario.world_custom)))
           None false None 0%nat Scenario.custom_req).
  reflexivity.
Defined.
